(** * Student portal: report list view and report submission view

    A shallow embedding of the two page components
    - [src/app/student/submit/page.tsx]  (the submission view, [SubmitPage])
    - the report list view               ([ReportPage])
    and the properties of their state handling.

    Conventions of the embedding
    - a JavaScript string is the list of its UTF-16 code units;
    - a JavaScript number that is an array length or a counter is a [nat],
      a number received from the server is a [Z], and the one place where
      the source divides (the completion percentage) is computed in IEEE 754
      binary64 with the operations of [SpecFloat];
    - an [async] handler is a program of the [Prog] monad below: state
      updates, console and toast effects, exceptions, and [Await] at each
      network call;
    - a React state setter called with a function ([setItems(prev => ...)])
      is a state update applied to the state current at that moment; the
      variables a handler closes over ([items], [stats], [studentEmail]) are
      the values of the render that created it, passed as [snap]. *)

From Stdlib Require Import ZArith NArith List Bool Lia String Ascii.
From Stdlib Require Import DecimalString Floats.SpecFloat.
From stdpp Require Import base countable gmap.
Import ListNotations.

Set Default Proof Using "Type".

(** ** JavaScript values *)

Module Js.

(** Strings are sequences of UTF-16 code units. *)
Definition jsstring : Type := list N.

(** A literal of the source, all of which are ASCII. *)
Definition lit (s : string) : jsstring :=
  List.map N_of_ascii (list_ascii_of_string s).

(** [!s] for a string: the empty string is the only falsy one. *)
Definition falsy (s : jsstring) : bool :=
  match s with [] => true | _ :: _ => false end.

(** [a || b] on strings. *)
Definition or_else (a b : jsstring) : jsstring :=
  if falsy a then b else a.

(** [a === b] on strings. *)
Fixpoint str_eqb (a b : jsstring) : bool :=
  match a, b with
  | [], [] => true
  | x :: a', y :: b' => N.eqb x y && str_eqb a' b'
  | _, _ => false
  end.

(** ECMAScript [WhiteSpace] and [LineTerminator] code points, the ones
    [String.prototype.trim] strips. All of them are in the basic plane. *)
Definition is_white_space (c : N) : bool :=
  match c with
  | 9 | 10 | 11 | 12 | 13 | 32 | 160 | 5760
  | 8192 | 8193 | 8194 | 8195 | 8196 | 8197 | 8198 | 8199 | 8200 | 8201 | 8202
  | 8232 | 8233 | 8239 | 8287 | 12288 | 65279 => true
  | _ => false
  end%N.

Fixpoint trim_start (s : jsstring) : jsstring :=
  match s with
  | c :: s' => if is_white_space c then trim_start s' else s
  | [] => []
  end.

Definition trim_end (s : jsstring) : jsstring :=
  rev (trim_start (rev s)).

(** [s.trim()] *)
Definition trim (s : jsstring) : jsstring := trim_end (trim_start s).

(** Surrogate code units. *)
Definition is_high_surrogate (c : N) : bool :=
  (55296 <=? c)%N && (c <=? 56319)%N.     (* U+D800 .. U+DBFF *)

Definition is_low_surrogate (c : N) : bool :=
  (56320 <=? c)%N && (c <=? 57343)%N.     (* U+DC00 .. U+DFFF *)

(** The conversion of a string to a [USVString], which [URLSearchParams]
    applies to every name and value it is given: a surrogate that is not
    part of a pair is replaced by U+FFFD. *)
Fixpoint to_usv (s : jsstring) : jsstring :=
  match s with
  | [] => []
  | c :: t =>
      if is_high_surrogate c then
        match t with
        | d :: u =>
            if is_low_surrogate d then c :: d :: to_usv u
            else 65533%N :: to_usv t
        | [] => [65533%N]
        end
      else if is_low_surrogate c then 65533%N :: to_usv t
      else c :: to_usv t
  end.

(** [String(n)] for a non-negative integer such as an array length. *)
Definition nat_to_string (n : nat) : jsstring :=
  lit (NilZero.string_of_uint (Nat.to_uint n)).

(** Numbers of the one floating-point computation: binary64. *)
Definition prec : Z := 53.
Definition emax : Z := 1024.

Definition number : Type := spec_float.

(** An integer converted to a number (exact below 2^53). *)
Definition of_Z (z : Z) : number := binary_normalize prec emax z 0 false.
Definition of_nat (n : nat) : number := of_Z (Z.of_nat n).

Definition div (x y : number) : number := SFdiv prec emax x y.
Definition mul (x y : number) : number := SFmul prec emax x y.
Definition add (x y : number) : number := SFadd prec emax x y.
Definition sub (x y : number) : number := SFsub prec emax x y.

(** [Math.round]: the closest integer, a tie going towards +infinity;
    NaN, the infinities and the zeros are returned as they are. *)
Definition Math_round (x : number) : number :=
  match x with
  | S754_finite s m e =>
      match e with
      | Zneg p =>
          let d := Z.pow_pos 2 p in
          let q := Z.div (Zpos m) d in
          let r := Z.modulo (Zpos m) d in
          let up := if s then Z.ltb d (2 * r) else Z.leb d (2 * r) in
          let n := if up then (q + 1)%Z else q in
          match n with
          | Z0 => S754_zero s
          | _ => binary_normalize prec emax (if s then Z.opp n else n) 0 s
          end
      | _ => x
      end
  | _ => x
  end.

(** The integer a number stands for, when it is one. *)
Definition as_integer (x : number) : option Z :=
  match x with
  | S754_zero _ => Some 0%Z
  | S754_finite s m e =>
      match e with
      | Zneg p =>
          if Z.eqb (Z.modulo (Zpos m) (Z.pow_pos 2 p)) 0
          then Some (cond_Zopp s (Z.div (Zpos m) (Z.pow_pos 2 p)))
          else None
      | _ => Some (cond_Zopp s (Zpos m * 2 ^ e)%Z)
      end
  | _ => None
  end.

End Js.

(** ** Asynchronous handlers

    [Prog St Ev Req Resp A] is a handler over page state [St] that emits
    effects [Ev] (console lines, toasts), may suspend on a network request
    [Req] answered by a [Resp], may throw, and returns an [A]. *)

Module Async.

Section Prog.
Context {St Ev Req Resp : Type}.

Inductive Prog (A : Type) : Type :=
| Ret (a : A)
| Throw
| Emit (e : Ev) (k : Prog A)
| Update (f : St -> St) (k : Prog A)
| Await (r : Req) (k : Resp -> Prog A).

Arguments Ret {A} a.
Arguments Throw {A}.
Arguments Emit {A} e k.
Arguments Update {A} f k.
Arguments Await {A} r k.

Fixpoint bind {A B} (p : Prog A) (f : A -> Prog B) : Prog B :=
  match p with
  | Ret a => f a
  | Throw => Throw
  | Emit e k => Emit e (bind k f)
  | Update g k => Update g (bind k f)
  | Await r k => Await r (fun x => bind (k x) f)
  end.

(** [try { body } catch { handler }] *)
Fixpoint try_catch {A} (body handler : Prog A) : Prog A :=
  match body with
  | Ret a => Ret a
  | Throw => handler
  | Emit e k => Emit e (try_catch k handler)
  | Update g k => Update g (try_catch k handler)
  | Await r k => Await r (fun x => try_catch (k x) handler)
  end.

(** [try { body } finally { last }]: [last] runs on every exit of [body],
    a [return] inside it included, and the exit of [body] is kept. *)
Fixpoint finally {A} (body : Prog A) (last : Prog unit) : Prog A :=
  match body with
  | Ret a => bind last (fun _ => Ret a)
  | Throw => bind last (fun _ => Throw)
  | Emit e k => Emit e (finally k last)
  | Update g k => Update g (finally k last)
  | Await r k => Await r (fun x => finally (k x) last)
  end.

Definition emit (e : Ev) : Prog unit := Emit e (Ret tt).
Definition update (f : St -> St) : Prog unit := Update f (Ret tt).
Definition await (r : Req) : Prog Resp := Await r Ret.

(** What a run leaves behind: effects and requests in program order. *)
Inductive Action : Type :=
| Emitted (e : Ev)
| Requested (r : Req).

(** The world a handler runs in: how the network answers a request, and what
    happens to the page state while the handler is suspended on it (the user
    may go on editing the form). *)
Record World : Type := {
  respond : Req -> Resp;
  meanwhile : Req -> St -> St
}.

Record Run (A : Type) : Type := {
  result : option A;        (* [None]: the handler threw *)
  state : St;
  actions : list Action
}.

Arguments result {A} r.
Arguments state {A} r.
Arguments actions {A} r.

Definition after {A} (a : Action) (r : Run A) : Run A :=
  {| result := result r; state := state r; actions := a :: actions r |}.

Fixpoint run {A} (w : World) (p : Prog A) (st : St) : Run A :=
  match p with
  | Ret a => {| result := Some a; state := st; actions := [] |}
  | Throw => {| result := None; state := st; actions := [] |}
  | Emit e k => after (Emitted e) (run w k st)
  | Update f k => run w k (f st)
  | Await r k =>
      after (Requested r) (run w (k (respond w r)) (meanwhile w r st))
  end.

(** A world in which nothing else touches the state during a request. *)
Definition quiet (net : Req -> Resp) : World :=
  {| respond := net; meanwhile := fun _ st => st |}.

Definition effects {A} (r : Run A) : list Ev :=
  omap (fun a => match a with Emitted e => Some e | Requested _ => None end)
       (actions r).

Definition requests {A} (r : Run A) : list Req :=
  omap (fun a => match a with Requested q => Some q | Emitted _ => None end)
       (actions r).

End Prog.

Arguments Prog : clear implicits.
Arguments Action : clear implicits.
Arguments World : clear implicits.
Arguments Run : clear implicits.
Arguments Ret {St Ev Req Resp A} a.
Arguments Throw {St Ev Req Resp A}.
Arguments Emit {St Ev Req Resp A} e k.
Arguments Update {St Ev Req Resp A} f k.
Arguments Await {St Ev Req Resp A} r k.
Arguments Emitted {Ev Req} e.
Arguments Requested {Ev Req} r.
Arguments result {St Ev Req A} r.
Arguments state {St Ev Req A} r.
Arguments actions {St Ev Req A} r.

(** The outcome of [await fetch(...)] followed by [await response.json()]:
    the fetch may reject (no connection), and reading the body as a value of
    the expected shape [B] may fail as well. *)
Inductive Fetched (B : Type) : Type :=
| Rejected
| Resolved (status : Z) (json : option B).

Arguments Rejected {B}.
Arguments Resolved {B} status json.

(** [response.ok] *)
Definition ok {B} (r : Fetched B) : bool :=
  match r with
  | Rejected => false
  | Resolved status _ => (200 <=? status)%Z && (status <=? 299)%Z
  end.

Module Notations.
Notation "x <- p ;; q" := (bind p (fun x => q))
  (at level 20, p at level 99, q at level 200, only parsing).
Notation "p ;; q" := (bind p (fun _ => q))
  (at level 100, q at level 200, only parsing, right associativity).
End Notations.

End Async.

(** ** The submission view, [src/app/student/submit/page.tsx] *)

Module SubmitPage.
Import Js Async Async.Notations.

Inductive Status : Type := good | bad | flagged | pending.

Definition status_eqb (a b : Status) : bool :=
  match a, b with
  | good, good | bad, bad | flagged, flagged | pending, pending => true
  | _, _ => false
  end.

#[global] Instance Status_eq_dec : EqDecision Status.
Proof. solve_decision. Defined.

Definition status_code (s : Status) : nat :=
  match s with good => 0 | bad => 1 | flagged => 2 | pending => 3 end.

Definition status_of_code (n : nat) : Status :=
  match n with 0 => good | 1 => bad | 2 => flagged | _ => pending end.

#[global] Instance Status_countable : Countable Status.
Proof.
  apply (inj_countable' status_code status_of_code).
  intros []; reflexivity.
Defined.

(** [interface InspectionItem] *)
Record InspectionItem : Type := {
  id : jsstring;
  name : jsstring;
  description : jsstring;
  status : Status;
  comment : jsstring
}.

(** The [useState] cells of [SubmitPage]. *)
Record State : Type := {
  items : list InspectionItem;
  isLoading : bool;
  isSubmitting : bool;
  generalComment : jsstring;
  studentEmail : jsstring
}.

Definition initial : State :=
  {| items := []; isLoading := true; isSubmitting := false;
     generalComment := []; studentEmail := [] |}.

Definition setItems (f : list InspectionItem -> list InspectionItem)
  (st : State) : State :=
  {| items := f (items st); isLoading := isLoading st;
     isSubmitting := isSubmitting st; generalComment := generalComment st;
     studentEmail := studentEmail st |}.

Definition setIsLoading (b : bool) (st : State) : State :=
  {| items := items st; isLoading := b;
     isSubmitting := isSubmitting st; generalComment := generalComment st;
     studentEmail := studentEmail st |}.

Definition setIsSubmitting (b : bool) (st : State) : State :=
  {| items := items st; isLoading := isLoading st;
     isSubmitting := b; generalComment := generalComment st;
     studentEmail := studentEmail st |}.

Definition setGeneralComment (c : jsstring) (st : State) : State :=
  {| items := items st; isLoading := isLoading st;
     isSubmitting := isSubmitting st; generalComment := c;
     studentEmail := studentEmail st |}.

Definition setStudentEmail (e : jsstring) (st : State) : State :=
  {| items := items st; isLoading := isLoading st;
     isSubmitting := isSubmitting st; generalComment := generalComment st;
     studentEmail := e |}.

(** Console lines and toasts. *)
Inductive Effect : Type :=
| ConsoleError (label : jsstring)
| ToastError (title description : jsstring)
| ToastSuccess (title description : jsstring).

(** *** The catalog fetch on mount *)

(** One entry of [data.items]; [description] may be missing. *)
Record CatalogEntry : Type := {
  entry_id : jsstring;
  entry_name : jsstring;
  entry_description : option jsstring
}.

(** The body of [GET /api/item/getAllItems]: [cat_success] is the truthiness
    of [data.success], [cat_items] is [Some] exactly when
    [Array.isArray(data.items)]. *)
Record CatalogBody : Type := {
  cat_success : bool;
  cat_items : option (list CatalogEntry)
}.

Inductive CatalogRequest : Type := GetAllItems.

(** [item.description || "No description provided."] *)
Definition description_or_default (d : option jsstring) : jsstring :=
  match d with
  | Some s => or_else s (lit "No description provided.")
  | None => lit "No description provided."
  end.

Definition project (e : CatalogEntry) : InspectionItem :=
  {| id := entry_id e; name := entry_name e;
     description := description_or_default (entry_description e);
     status := pending; comment := [] |}.

Definition fallback_item (i n d : string) : InspectionItem :=
  {| id := lit i; name := lit n; description := lit d;
     status := pending; comment := [] |}.

(** The literal of lines 77-113. *)
Definition fallback_catalog : list InspectionItem :=
  [ fallback_item "1" "Classroom Cleanliness"
      "Overall cleanliness and tidiness of the classroom";
    fallback_item "2" "Furniture Condition"
      "Condition of desks, chairs, and other furniture";
    fallback_item "3" "Electrical Safety"
      "Electrical outlets, switches, and wiring safety";
    fallback_item "4" "Lighting System"
      "Functionality of lights and natural lighting";
    fallback_item "5" "Ventilation"
      "Air quality and ventilation system" ].

(** [await res.json()] after [await fetch(...)]: either of them rejecting
    lands in the enclosing [catch]. *)
Definition json_of {St Ev Req Resp B} (r : Fetched B) : Prog St Ev Req Resp B :=
  match r with
  | Resolved _ (Some body) => Ret body
  | _ => Throw
  end.

Definition connection_toast : Effect :=
  ToastError (lit "Connection Error")
    (lit "Failed to load inspection items. Using demo data.").

(** [fetchItems], lines 60-124. *)
Definition fetchItems
  : Prog State Effect CatalogRequest (Fetched CatalogBody) unit :=
  finally
    (try_catch
       (res <- await GetAllItems ;;
        data <- json_of res ;;
        match cat_success data, cat_items data with
        | true, Some entries =>
            update (setItems (fun _ => List.map project entries))
        | _, _ =>
            emit (ConsoleError (lit "Failed to fetch items:")) ;;
            update (setItems (fun _ => fallback_catalog))
        end)
       (emit (ConsoleError (lit "Error fetching inspection items:")) ;;
        emit connection_toast))
    (update (setIsLoading false)).

(** *** Statistics *)

(** [items.reduce((acc, item) => { acc[item.status] = (acc[item.status] || 0) + 1;
    return acc; }, {})] *)
Definition stats (its : list InspectionItem) : gmap Status nat :=
  fold_left
    (fun acc item => <[status item := default 0 (acc !! status item) + 1]> acc)
    its ∅.

(** [stats.k || 0] *)
Definition stat (its : list InspectionItem) (k : Status) : nat :=
  default 0 (stats its !! k).

(** [((items.length - (stats.pending || 0)) / items.length) * 100] *)
Definition completion (its : list InspectionItem) : number :=
  mul (div (of_Z (Z.of_nat (length its) - Z.of_nat (stat its pending)))
           (of_nat (length its)))
      (of_nat 100).

(** The number shown before the percent sign, lines 536-539. *)
Definition progress_percentage (its : list InspectionItem) : number :=
  Math_round (completion its).

(** *** Local handlers *)

Definition with_status (s : Status) (item : InspectionItem) : InspectionItem :=
  {| id := id item; name := name item; description := description item;
     status := s; comment := comment item |}.

Definition with_comment (c : jsstring) (item : InspectionItem) : InspectionItem :=
  {| id := id item; name := name item; description := description item;
     status := status item; comment := c |}.

(** [{ ...item, status: "pending", comment: "" }] *)
Definition cleared (item : InspectionItem) : InspectionItem :=
  {| id := id item; name := name item; description := description item;
     status := pending; comment := [] |}.

Section Local.
Context {Req Resp : Type}.

(** Lines 140-147. The TypeScript signature admits good, bad and flagged. *)
Definition handleStatusChange (itemId : jsstring) (s : Status)
  : Prog State Effect Req Resp unit :=
  update (setItems (List.map (fun item =>
    if str_eqb (id item) itemId then with_status s item else item))).

(** Lines 152-156. *)
Definition handleCommentChange (itemId : jsstring) (c : jsstring)
  : Prog State Effect Req Resp unit :=
  update (setItems (List.map (fun item =>
    if str_eqb (id item) itemId then with_comment c item else item))).

(** Lines 161-167. *)
Definition handleMarkAllGood : Prog State Effect Req Resp unit :=
  update (setItems (List.map (with_status good))) ;;
  emit (ToastSuccess (lit "All items marked as Good")
          (lit "You can still modify individual items as needed.")).

(** Lines 172-180. *)
Definition handleClearSelection : Prog State Effect Req Resp unit :=
  update (setItems (List.map cleared)) ;;
  emit (ToastSuccess (lit "Selection cleared")
          (lit "All items have been reset to pending status.")).

End Local.

(** *** Submission *)

(** The [summary] object of the request body. *)
Record Summary : Type := {
  totalItems : nat;
  goodItems : nat;
  badItems : nat;
  flaggedItems : nat;
  completionDate : jsstring
}.

(** The body of [POST .../report/submit], lines 223-238. *)
Record Payload : Type := {
  reporterEmail : jsstring;
  title : jsstring;
  payloadComment : jsstring;
  evaluatedItems : list InspectionItem;
  summary : Summary;
  category : jsstring
}.

Inductive SubmitRequest : Type := SubmitReport (body : Payload).

(** The answer: [sub_success] is the truthiness of [data.success],
    [sub_message] is [data.message] when it is a string. *)
Record SubmitBody : Type := {
  sub_success : bool;
  sub_message : option jsstring
}.

(** The two readings of [new Date()] the request body uses. *)
Record Clock : Type := {
  localeDate : jsstring;    (* [new Date().toLocaleDateString()] *)
  isoNow : jsstring         (* [new Date().toISOString()] *)
}.

(** [(item.status === "bad" || item.status === "flagged") && !item.comment.trim()] *)
Definition needs_comment (item : InspectionItem) : bool :=
  (status_eqb (status item) bad || status_eqb (status item) flagged)
  && falsy (trim (comment item)).

Definition incomplete_toast : Effect :=
  ToastError (lit "Incomplete Form")
    (lit "Please mark all items before submitting!").

Definition comments_toast (n : nat) : Effect :=
  ToastError (lit "Comments Required")
    (lit "Please add comments for " ++ nat_to_string n
       ++ lit " item(s) marked as Bad or Flagged.").

Definition authentication_toast : Effect :=
  ToastError (lit "Authentication Error")
    (lit "Student email not found. Please refresh the page.").

Definition submitted_toast : Effect :=
  ToastSuccess (lit "Report Submitted Successfully!")
    (lit "Your inspection report has been submitted for review").

(** [data.message || "Failed to submit report."] *)
Definition failed_toast (message : option jsstring) : Effect :=
  ToastError (lit "Submission Failed")
    (match message with
     | Some m => or_else m (lit "Failed to submit report.")
     | None => lit "Failed to submit report."
     end).

Definition network_toast : Effect :=
  ToastError (lit "Network Error")
    (lit "An error occurred while submitting your report. Please try again.").

Definition payload_of (snap : State) (now : Clock) : Payload :=
  {| reporterEmail := studentEmail snap;
     title := lit "Classroom Inspection Report - " ++ localeDate now;
     payloadComment :=
       or_else (generalComment snap) (lit "Inspection completed successfully.");
     evaluatedItems := items snap;
     summary :=
       {| totalItems := length (items snap);
          goodItems := stat (items snap) good;
          badItems := stat (items snap) bad;
          flaggedItems := stat (items snap) flagged;
          completionDate := isoNow now |};
     category := lit "ONTIME" |}.

(** [handleSubmit], lines 185-269. [snap] is the render the handler was
    created in: [items], [stats], [generalComment] and [studentEmail] are
    read from it, while the setters act on the state current when they run. *)
Definition handleSubmit (snap : State) (now : Clock)
  : Prog State Effect SubmitRequest (Fetched SubmitBody) unit :=
  let hasUnmarked :=
    List.existsb (fun item => status_eqb (status item) pending) (items snap) in
  if hasUnmarked then emit incomplete_toast
  else
    let itemsNeedingComments := List.filter needs_comment (items snap) in
    if 0 <? length itemsNeedingComments
    then emit (comments_toast (length itemsNeedingComments))
    else if falsy (studentEmail snap) then emit authentication_toast
    else
      update (setIsSubmitting true) ;;
      finally
        (try_catch
           (response <- await (SubmitReport (payload_of snap now)) ;;
            data <- json_of response ;;
            if sub_success data then
              emit submitted_toast ;;
              update (setItems (List.map cleared)) ;;
              update (setGeneralComment [])
            else emit (failed_toast (sub_message data)))
           (emit (ConsoleError (lit "Error submitting report:")) ;;
            emit network_toast))
        (update (setIsSubmitting false)).

End SubmitPage.

(** ** The submission view: what is rendered, what the user does *)

Module SubmitView.
Import Js Async Async.Notations SubmitPage.

(** The "* Required" mark of a comment field, line 386:
    [item.status !== "good" && item.status !== "pending"]. *)
Definition comment_required (item : InspectionItem) : bool :=
  negb (status_eqb (status item) good) && negb (status_eqb (status item) pending).

(** The [error] class of a comment field, line 401:
    [item.status !== "good" && item.status !== "pending" && !item.comment]. *)
Definition comment_error (item : InspectionItem) : bool :=
  negb (status_eqb (status item) good) && negb (status_eqb (status item) pending)
  && falsy (comment item).

(** The controls of the form, lines 314-427. *)
Inductive FormEvent : Type :=
| StatusClicked (itemId : jsstring) (s : Status)   (* the three status buttons *)
| CommentTyped (itemId : jsstring) (c : jsstring)  (* the item's text area *)
| GeneralCommentTyped (c : jsstring)               (* line 418 *)
| MarkAllGoodClicked
| ClearClicked.

(** These controls call handlers that make no request. *)
Definition on_event (e : FormEvent) : Prog State Effect Empty_set unit unit :=
  match e with
  | StatusClicked itemId s => handleStatusChange itemId s
  | CommentTyped itemId c => handleCommentChange itemId c
  | GeneralCommentTyped c => update (setGeneralComment c)
  | MarkAllGoodClicked => handleMarkAllGood
  | ClearClicked => handleClearSelection
  end.

Definition offline : World State Empty_set unit :=
  {| respond := fun r : Empty_set => match r with end;
     meanwhile := fun _ st => st |}.

Definition form_step (st : State) (e : FormEvent) : State :=
  state (run offline (on_event e) st).

Definition form_steps (st : State) (es : list FormEvent) : State :=
  fold_left form_step es st.

(** The notifications among the effects of a run. *)
Definition is_toast (e : Effect) : bool :=
  match e with
  | ToastError _ _ | ToastSuccess _ _ => true
  | ConsoleError _ => false
  end.

Definition toasts {Req A} (r : Run State Effect Req A) : list Effect :=
  List.filter is_toast (effects r).

End SubmitView.


(** ** The report list view

    The second source file, the page component [ReportPage]; the line
    numbers below are its own. *)

Module ReportPage.
Import Js Async Async.Notations.

Inductive ReportStatus : Type := awaiting | approved | rejected.

(** [interface Report]; [itemEvaluated] is kept as the raw payload. *)
Record Report : Type := {
  id : jsstring;
  title : jsstring;
  submissionDate : jsstring;
  csApproved : bool;
  cpApproved : bool;
  status : ReportStatus;
  class : jsstring;
  generalComment : option jsstring;
  itemEvaluated : option jsstring
}.

(** [type FilterType] *)
Inductive FilterType : Type := all | daily | weekly | monthly.

Definition filter_eqb (a b : FilterType) : bool :=
  match a, b with
  | all, all | daily, daily | weekly, weekly | monthly, monthly => true
  | _, _ => false
  end.

(** [interface PaginationInfo]; the numbers are the server's. *)
Record PaginationInfo : Type := {
  currentPage : Z;
  totalPages : Z;
  totalReports : Z;
  hasNext : bool;
  hasPrev : bool
}.

(** The literal of lines 70-76, 128-134, 151-157, 168-174 and 183-189. *)
Definition default_pagination : PaginationInfo :=
  {| currentPage := 1; totalPages := 1; totalReports := 0;
     hasNext := false; hasPrev := false |}.

(** The [useState] cells the list handlers read and write. The cells of the
    detail modal and of the download button are written by other handlers
    only and are left out. *)
Record State : Type := {
  loading : bool;
  reports : list Report;
  activeFilter : FilterType;
  searchQuery : jsstring;
  studentEmail : jsstring;
  pagination : PaginationInfo
}.

Definition initial : State :=
  {| loading := true; reports := []; activeFilter := all; searchQuery := [];
     studentEmail := []; pagination := default_pagination |}.

Definition setLoading (b : bool) (st : State) : State :=
  {| loading := b; reports := reports st; activeFilter := activeFilter st;
     searchQuery := searchQuery st; studentEmail := studentEmail st;
     pagination := pagination st |}.

Definition setReports (l : list Report) (st : State) : State :=
  {| loading := loading st; reports := l; activeFilter := activeFilter st;
     searchQuery := searchQuery st; studentEmail := studentEmail st;
     pagination := pagination st |}.

Definition setActiveFilter (f : FilterType) (st : State) : State :=
  {| loading := loading st; reports := reports st; activeFilter := f;
     searchQuery := searchQuery st; studentEmail := studentEmail st;
     pagination := pagination st |}.

Definition setSearchQuery (q : jsstring) (st : State) : State :=
  {| loading := loading st; reports := reports st; activeFilter := activeFilter st;
     searchQuery := q; studentEmail := studentEmail st;
     pagination := pagination st |}.

Definition setStudentEmail (e : jsstring) (st : State) : State :=
  {| loading := loading st; reports := reports st; activeFilter := activeFilter st;
     searchQuery := searchQuery st; studentEmail := e;
     pagination := pagination st |}.

Definition setPagination (p : PaginationInfo) (st : State) : State :=
  {| loading := loading st; reports := reports st; activeFilter := activeFilter st;
     searchQuery := searchQuery st; studentEmail := studentEmail st;
     pagination := p |}.

Inductive Effect : Type :=
| ConsoleLog (label : jsstring)
| ConsoleError (label : jsstring)
| ToastError (title description : jsstring)
| ToastSuccess (title description : jsstring).

(** The query string of the listing request, lines 98-112, as
    [URLSearchParams] holds it: every value converted to a [USVString]. *)
Record ListRequest : Type := {
  q_studentEmail : jsstring;
  q_page : Z;
  q_limit : jsstring;
  q_filter : option FilterType;
  q_search : option jsstring
}.

(** [result.data]: each field is [Some] when it is present and truthy. *)
Record ListData : Type := {
  data_reports : option (list Report);
  data_pagination : option PaginationInfo
}.

(** The body of the listing answer: [list_success] is the truthiness of
    [result.success], [list_data] is [Some] when [result.data] is truthy. *)
Record ListBody : Type := {
  list_success : bool;
  list_data : option ListData
}.

Definition load_failure_toast : Effect :=
  ToastError (lit "Failed to Load Reports")
    (lit "Unable to fetch reports. Please try again later.").

Definition params (email : jsstring) (filter : FilterType) (search : jsstring)
  (page : Z) : ListRequest :=
  {| q_studentEmail := to_usv email;
     q_page := page;
     q_limit := lit "10";
     q_filter := if filter_eqb filter all then None else Some filter;
     q_search := if falsy search || falsy (trim search) then None
                 else Some (to_usv (trim search)) |}.

Definition clear_list : Prog State Effect ListRequest (Fetched ListBody) unit :=
  update (setReports []) ;;
  update (setPagination default_pagination).

(** [fetchReports], lines 88-193. [email] is the [studentEmail] of the render
    that created the closure. *)
Definition fetchReports (email : jsstring) (filter : FilterType)
  (search : jsstring) (page : Z)
  : Prog State Effect ListRequest (Fetched ListBody) unit :=
  if falsy email then emit (ConsoleLog (lit "Student email not available yet"))
  else
    update (setLoading true) ;;
    finally
      (try_catch
         (emit (ConsoleLog (lit "Fetching reports with params:")) ;;
          response <- await (params email filter search page) ;;
          match response with
          | Rejected => Throw
          | Resolved status body =>
              if (status =? 404)%Z then
                emit (ConsoleLog (lit "No reports found (404)")) ;;
                clear_list ;;
                update (setLoading false)
              else if negb (ok response) then
                emit (ConsoleError (lit "API error response:")) ;;
                Throw
              else
                result <- match body with Some b => Ret b | None => Throw end ;;
                emit (ConsoleLog (lit "API response:")) ;;
                match list_success result, list_data result with
                | true, Some data =>
                    let reportsData := default [] (data_reports data) in
                    let paginationData :=
                      default default_pagination (data_pagination data) in
                    update (setReports reportsData) ;;
                    update (setPagination paginationData) ;;
                    if (length reportsData =? 0)%nat
                    then emit (ConsoleLog (lit "No reports found in response data"))
                    else Ret tt
                | _, _ =>
                    emit (ConsoleLog (lit "API returned failure:")) ;;
                    clear_list
                end
          end)
         (emit (ConsoleError (lit "Error fetching reports:")) ;;
          emit load_failure_toast ;;
          clear_list))
      (update (setLoading false)).

(** [handlePageChange], lines 358-362. *)
Definition handlePageChange (snap : State) (newPage : Z)
  : Prog State Effect ListRequest (Fetched ListBody) unit :=
  if (1 <=? newPage)%Z && (newPage <=? totalPages (pagination snap))%Z
  then fetchReports (studentEmail snap) (activeFilter snap) (searchQuery snap) newPage
  else Ret tt.

(** *** The fetch effect and its timer, lines 196-209 *)

(** What [setTimeout] was given: the instant it is due and the arguments the
    callback passes to [fetchReports] (the page is the literal 1). *)
Record Timer : Type := {
  due : nat;
  timer_email : jsstring;
  timer_filter : FilterType;
  timer_search : jsstring
}.

(** [searchQuery ? 500 : 0], in milliseconds. *)
Definition debounce (search : jsstring) : nat :=
  if falsy search then 0 else 500.

(** One run of the effect at instant [now]: nothing without an identity,
    else a timer. *)
Definition fetch_effect (now : nat) (st : State) : option Timer :=
  if falsy (studentEmail st) then None
  else Some {| due := now + debounce (searchQuery st);
               timer_email := studentEmail st;
               timer_filter := activeFilter st;
               timer_search := searchQuery st |}.

(** The timer's callback. *)
Definition fire (t : Timer)
  : Prog State Effect ListRequest (Fetched ListBody) unit :=
  fetchReports (timer_email t) (timer_filter t) (timer_search t) 1.

(** The page together with the clock, the one timer of the effect that may be
    pending, and the listing requests made so far with their instants. *)
Record Session : Type := {
  view : State;
  clock : nat;
  timer : option Timer;
  sent : list (nat * ListRequest)
}.

Definition mounted : Session :=
  {| view := initial; clock := 0; timer := None; sent := [] |}.

(** What happens to a mounted page. A listing request made during an event is
    answered by the [reply] the event carries. *)
Inductive Event : Type :=
| IdentityRead (email : jsstring)      (* the mount effect, lines 82-85 *)
| FilterChange (f : FilterType)        (* [handleFilterChange] *)
| SearchChange (q : jsstring)          (* [handleSearchChange] *)
| PageChange (newPage : Z) (reply : Fetched ListBody)
| Elapse (ms : nat) (reply : Fetched ListBody).

(** A dependency changed: React runs the cleanup of the previous run
    ([clearTimeout]) and then the effect again. *)
Definition rerun (s : Session) (st : State) : Session :=
  {| view := st; clock := clock s;
     timer := fetch_effect (clock s) st; sent := sent s |}.

Definition perform (s : Session) (at_ : nat)
  (p : Prog State Effect ListRequest (Fetched ListBody) unit)
  (reply : Fetched ListBody) : State * list (nat * ListRequest) :=
  let r := run (quiet (fun _ => reply)) p (view s) in
  (state r, sent s ++ List.map (pair at_) (requests r)).

(** A state setter called with the value the cell already holds causes no
    re-render, so the effect does not run again. *)
Definition step (s : Session) (e : Event) : Session :=
  match e with
  | IdentityRead email =>
      if str_eqb email (studentEmail (view s)) then s
      else rerun s (setStudentEmail email (view s))
  | FilterChange f =>
      if filter_eqb f (activeFilter (view s)) then s
      else rerun s (setActiveFilter f (view s))
  | SearchChange q =>
      if str_eqb q (searchQuery (view s)) then s
      else rerun s (setSearchQuery q (view s))
  | PageChange newPage reply =>
      let '(st, out) :=
        perform s (clock s) (handlePageChange (view s) newPage) reply in
      {| view := st; clock := clock s; timer := timer s; sent := out |}
  | Elapse ms reply =>
      match timer s with
      | Some t =>
          if due t <=? clock s + ms then
            let '(st, out) := perform s (due t) (fire t) reply in
            {| view := st; clock := clock s + ms; timer := None; sent := out |}
          else
            {| view := view s; clock := clock s + ms; timer := timer s;
               sent := sent s |}
      | None =>
          {| view := view s; clock := clock s + ms; timer := None;
             sent := sent s |}
      end
  end.

Definition steps (s : Session) (es : list Event) : Session :=
  fold_left step es s.

(** The invariant of section 3 of the specification. *)
Definition pagination_ok (p : PaginationInfo) : Prop :=
  ((1 <= totalPages p)%Z -> (1 <= currentPage p <= totalPages p)%Z)
  /\ (hasPrev p = true <-> (currentPage p > 1)%Z)
  /\ (hasNext p = true <-> (currentPage p < totalPages p)%Z).

End ReportPage.

(** ** The report list view: pagination controls *)

Module ReportView.
Import Js Async Async.Notations ReportPage.





Definition page_after (page : Z) : option Z :=
  as_integer (add (of_Z page) (of_Z 1)).


(** [onClick={() => handlePageChange(pagination.currentPage + 1)}], line 541. *)
Definition next_clicked (snap : State)
  : option (Prog State Effect ListRequest (Fetched ListBody) unit) :=
  handlePageChange snap <$> page_after (currentPage (pagination snap)).

End ReportView.

(** ** The report list view: detail modal and download

    The cells of [ReportPage] that the list handlers leave alone, and the
    handlers that write them. *)

Module ReportModal.
Import Js Async Async.Notations.

Inductive ItemStatus : Type := good | bad | flagged.

(** One element of [ReportDetail.itemEvaluated], lines 42-47. *)
Record EvaluatedItem : Type := {
  item_id : jsstring;
  item_name : jsstring;
  item_status : ItemStatus;
  item_comment : jsstring
}.

(** [interface ReportDetail], lines 36-51. *)
Record ReportDetail : Type := {
  id : jsstring;
  title : jsstring;
  class : jsstring;
  createdAt : jsstring;
  generalComment : option jsstring;
  itemEvaluated : option (list EvaluatedItem);
  csApproved : bool;
  cpApproved : bool;
  status : ReportPage.ReportStatus
}.

(** Lines 69 and 77-80. *)
Record State : Type := {
  downloadingId : option jsstring;
  isModalOpen : bool;
  selectedReportId : option jsstring;
  reportDetails : option ReportDetail;
  loadingReportDetails : bool
}.

Definition initial : State :=
  {| downloadingId := None; isModalOpen := false; selectedReportId := None;
     reportDetails := None; loadingReportDetails := false |}.

Definition setDownloadingId (v : option jsstring) (st : State) : State :=
  {| downloadingId := v; isModalOpen := isModalOpen st;
     selectedReportId := selectedReportId st; reportDetails := reportDetails st;
     loadingReportDetails := loadingReportDetails st |}.

Definition setIsModalOpen (b : bool) (st : State) : State :=
  {| downloadingId := downloadingId st; isModalOpen := b;
     selectedReportId := selectedReportId st; reportDetails := reportDetails st;
     loadingReportDetails := loadingReportDetails st |}.

Definition setSelectedReportId (v : option jsstring) (st : State) : State :=
  {| downloadingId := downloadingId st; isModalOpen := isModalOpen st;
     selectedReportId := v; reportDetails := reportDetails st;
     loadingReportDetails := loadingReportDetails st |}.

Definition setReportDetails (v : option ReportDetail) (st : State) : State :=
  {| downloadingId := downloadingId st; isModalOpen := isModalOpen st;
     selectedReportId := selectedReportId st; reportDetails := v;
     loadingReportDetails := loadingReportDetails st |}.

Definition setLoadingReportDetails (b : bool) (st : State) : State :=
  {| downloadingId := downloadingId st; isModalOpen := isModalOpen st;
     selectedReportId := selectedReportId st; reportDetails := reportDetails st;
     loadingReportDetails := b |}.

(** Console lines, toasts, and the three steps of handing a file to the
    browser (lines 333-340): an object URL is made for the blob, an anchor
    with that URL and a [download] name is clicked, the URL is revoked. *)
Inductive Effect : Type :=
| ConsoleLog (label : jsstring)
| ConsoleError (label : jsstring)
| ToastError (title description : jsstring)
| ToastSuccess (title description : jsstring)
| ObjectUrlCreated (blob : list N)
| AnchorClicked (download : jsstring)
| ObjectUrlRevoked.

(** *** The detail fetch *)

Inductive DetailRequest : Type := GetReportById (reportId : jsstring).

(** The body of the detail answer: [detail_success] is the truthiness of
    [result.success], [detail_data] is [Some] when [result.data] is truthy,
    [detail_message] is [result.message] when it is a string. *)
Record DetailBody : Type := {
  detail_success : bool;
  detail_data : option ReportDetail;
  detail_message : option jsstring
}.

Definition not_found_toast : Effect :=
  ToastError (lit "Report Not Found")
    (lit "The requested report could not be found.").

(** [result.message || 'Report details are not available.'] *)
Definition not_available_toast (message : option jsstring) : Effect :=
  ToastError (lit "Report Not Available")
    (match message with
     | Some m => or_else m (lit "Report details are not available.")
     | None => lit "Report details are not available."
     end).

Definition detail_error_toast : Effect :=
  ToastError (lit "Error")
    (lit "Unable to load report details. Please try again later.").

(** [fetchReportDetails], lines 212-265. *)
Definition fetchReportDetails (reportId : jsstring)
  : Prog State Effect DetailRequest (Fetched DetailBody) unit :=
  update (setLoadingReportDetails true) ;;
  finally
    (try_catch
       (emit (ConsoleLog (lit "Fetching report details for ID:")) ;;
        response <- await (GetReportById reportId) ;;
        match response with
        | Rejected => Throw
        | Resolved status body =>
            if (status =? 404)%Z then
              update (setReportDetails None) ;;
              emit not_found_toast ;;
              update (setLoadingReportDetails false)
            else if negb (ok response) then
              emit (ConsoleError (lit "Report details API error:")) ;;
              Throw
            else
              result <- match body with Some b => Ret b | None => Throw end ;;
              emit (ConsoleLog (lit "Report details response:")) ;;
              match detail_success result, detail_data result with
              | true, Some data => update (setReportDetails (Some data))
              | _, _ =>
                  update (setReportDetails None) ;;
                  emit (not_available_toast (detail_message result))
              end
        end)
       (emit (ConsoleError (lit "Error loading report details:")) ;;
        update (setReportDetails None) ;;
        emit detail_error_toast))
    (update (setLoadingReportDetails false)).

(** [handleView], lines 268-272. The call of [fetchReportDetails] is not
    awaited: it runs up to its first [await] at once, and the handler has
    nothing after it. *)
Definition handleView (reportId : jsstring)
  : Prog State Effect DetailRequest (Fetched DetailBody) unit :=
  update (setSelectedReportId (Some reportId)) ;;
  update (setIsModalOpen true) ;;
  fetchReportDetails reportId.

Section Closing.
Context {Req Resp : Type}.

(** [handleCloseModal], lines 275-279. *)
Definition handleCloseModal : Prog State Effect Req Resp unit :=
  update (setIsModalOpen false) ;;
  update (setSelectedReportId None) ;;
  update (setReportDetails None).

(** [handleBackdropClick], lines 282-286; [on_overlay] is
    [e.target === e.currentTarget]. *)
Definition handleBackdropClick (on_overlay : bool)
  : Prog State Effect Req Resp unit :=
  if on_overlay then handleCloseModal else Ret tt.

(** [handleEscape], lines 290-294; [open] is the [isModalOpen] of the render
    whose effect registered the listener. *)
Definition handleEscape (open : bool) (key : jsstring)
  : Prog State Effect Req Resp unit :=
  if str_eqb key (lit "Escape") && open then handleCloseModal else Ret tt.

End Closing.

(** The "Try Again" button, line 646:
    [selectedReportId && fetchReportDetails(selectedReportId)]. *)
Definition retry_clicked (snap : State)
  : Prog State Effect DetailRequest (Fetched DetailBody) unit :=
  match selectedReportId snap with
  | Some reportId =>
      if falsy reportId then Ret tt else fetchReportDetails reportId
  | None => Ret tt
  end.

(** What the open modal shows, lines 565-650. *)
Inductive ModalBody : Type :=
| Spinner
| Details (d : ReportDetail)
| LoadFailure.

Definition modal_body (st : State) : option ModalBody :=
  if isModalOpen st then
    Some (if loadingReportDetails st then Spinner
          else match reportDetails st with
               | Some d => Details d
               | None => LoadFailure
               end)
  else None.

(** *** The download *)

Inductive DownloadRequest : Type := GetDownload (reportId : jsstring).

Definition download_started_toast : Effect :=
  ToastSuccess (lit "Download Started")
    (lit "Report is being downloaded successfully.").

Definition download_failed_toast : Effect :=
  ToastError (lit "Download Failed")
    (lit "Failed to download report. Please try again.").

(** [`report-${reportId}.pdf`] *)
Definition file_name (reportId : jsstring) : jsstring :=
  lit "report-" ++ reportId ++ lit ".pdf".

(** [handleDownload], lines 308-355. The answer carries the bytes of
    [response.blob()], or [None] when reading them rejects. *)
Definition handleDownload (reportId : jsstring)
  : Prog State Effect DownloadRequest (Fetched (list N)) unit :=
  update (setDownloadingId (Some reportId)) ;;
  finally
    (try_catch
       (emit (ConsoleLog (lit "Downloading report:")) ;;
        response <- await (GetDownload reportId) ;;
        match response with
        | Rejected => Throw
        | Resolved _ body =>
            if negb (ok response) then
              emit (ConsoleError (lit "Download error:")) ;;
              Throw
            else
              blob <- match body with Some b => Ret b | None => Throw end ;;
              emit (ObjectUrlCreated blob) ;;
              emit (AnchorClicked (file_name reportId)) ;;
              emit ObjectUrlRevoked ;;
              emit download_started_toast
        end)
       (emit (ConsoleError (lit "Download failed:")) ;;
        emit download_failed_toast))
    (update (setDownloadingId None)).

(** [disabled={downloadingId === report.id}], line 513. *)
Definition download_busy (st : State) (reportId : jsstring) : bool :=
  match downloadingId st with
  | Some d => str_eqb d reportId
  | None => false
  end.

(** *** The modal effect, lines 289-305 *)

(** [document.body.style.overflow]: what the page came with, or one of the
    two values the effect writes. *)
Inductive Overflow : Type := inherited | hidden | unset.

Record Document : Type := {
  overflow : Overflow;
  escape_listener : bool    (* [handleEscape] is registered on [keydown] *)
}.

(** The body of the effect. *)
Definition modal_effect (open : bool) (doc : Document) : Document :=
  if open then {| overflow := hidden; escape_listener := true |} else doc.

(** The function it returns, run before the next run of the effect. *)
Definition modal_cleanup (doc : Document) : Document :=
  {| overflow := unset; escape_listener := false |}.

(** The modal cells together with the document. *)
Record Screen : Type := {
  cells : State;
  document : Document
}.

(** After the first render: the effect ran with the modal closed. *)
Definition mounted : Screen :=
  {| cells := initial;
     document := modal_effect false
                   {| overflow := inherited; escape_listener := false |} |}.

Inductive Event : Type :=
| ViewClicked (reportId : jsstring) (reply : Fetched DetailBody)
| CloseClicked
| BackdropClicked (on_overlay : bool)
| KeyDown (key : jsstring)
| RetryClicked (reply : Fetched DetailBody)
| DownloadClicked (reportId : jsstring) (reply : Fetched (list N)).

(** The cells after the handler of an event has run, its request answered
    by the reply the event carries. A key reaches [handleEscape] only while
    the listener is registered, which the effect does with the modal open. *)
Definition handle (s : Screen) (e : Event) : State :=
  match e with
  | ViewClicked reportId reply =>
      state (run (quiet (fun _ => reply)) (handleView reportId) (cells s))
  | CloseClicked =>
      state (run (quiet (fun _ : DetailRequest => @Rejected DetailBody))
               handleCloseModal (cells s))
  | BackdropClicked on_overlay =>
      state (run (quiet (fun _ : DetailRequest => @Rejected DetailBody))
               (handleBackdropClick on_overlay) (cells s))
  | KeyDown key =>
      if escape_listener (document s) then
        state (run (quiet (fun _ : DetailRequest => @Rejected DetailBody))
                 (handleEscape true key) (cells s))
      else cells s
  | RetryClicked reply =>
      state (run (quiet (fun _ => reply)) (retry_clicked (cells s)) (cells s))
  | DownloadClicked reportId reply =>
      state (run (quiet (fun _ => reply)) (handleDownload reportId) (cells s))
  end.

(** The effect depends on [isModalOpen]: when the handler changed it, React
    runs the cleanup of the previous run and then the effect again. *)
Definition step (s : Screen) (e : Event) : Screen :=
  let st := handle s e in
  {| cells := st;
     document :=
       if Bool.eqb (isModalOpen st) (isModalOpen (cells s)) then document s
       else modal_effect (isModalOpen st) (modal_cleanup (document s)) |}.

Definition steps (s : Screen) (es : list Event) : Screen :=
  fold_left step es s.

(** Leaving the page runs the cleanup. *)
Definition unmount (s : Screen) : Document := modal_cleanup (document s).

End ReportModal.


(** * Properties *)

(** ** JavaScript values *)

Module JsProps.
Import Js.

Lemma str_eqb_eq (a b : jsstring) : str_eqb a b = true <-> a = b.
Proof.
  revert b; induction a as [|x a IH]; intros [|y b]; simpl; try easy.
  rewrite andb_true_iff, N.eqb_eq, IH. split.
  - intros [-> ->]; reflexivity.
  - intros [= -> ->]; auto.
Qed.

Lemma str_eqb_refl (a : jsstring) : str_eqb a a = true.
Proof. apply str_eqb_eq; reflexivity. Qed.

Lemma str_eqb_neq (a b : jsstring) : str_eqb a b = false <-> a <> b.
Proof.
  rewrite <- str_eqb_eq. destruct (str_eqb a b); split; congruence.
Qed.

Lemma falsy_nil (s : jsstring) : falsy s = true <-> s = [].
Proof. destruct s; simpl; split; congruence. Qed.

Lemma falsy_false (s : jsstring) : s <> [] -> falsy s = false.
Proof. destruct s; simpl; congruence. Qed.

(** A string is blank when every code unit of it is white space. *)
Definition blank (s : jsstring) : Prop :=
  Forall (fun c => is_white_space c = true) s.

Lemma trim_start_blank (s : jsstring) : trim_start s = [] <-> blank s.
Proof.
  unfold blank. induction s as [|c s IH]; simpl.
  - split; auto.
  - destruct (is_white_space c) eqn:E.
    + rewrite IH. split.
      * intros H; constructor; assumption.
      * intros H; inversion H; assumption.
    + split; [discriminate|].
      intros H; inversion H; congruence.
Qed.

Lemma trim_start_fixed (s : jsstring) :
  blank (trim_start s) -> trim_start s = [].
Proof.
  induction s as [|c s IH]; simpl; [reflexivity|].
  destruct (is_white_space c) eqn:E; [exact IH|].
  intros H; inversion H; congruence.
Qed.

(** [!s.trim()] holds exactly for the empty and the white-space-only strings. *)
Lemma trim_falsy_blank (s : jsstring) : falsy (trim s) = true <-> blank s.
Proof.
  rewrite falsy_nil. unfold trim, trim_end.
  rewrite <- trim_start_blank. split.
  - intros H. apply (f_equal (@rev N)) in H. rewrite rev_involutive in H.
    simpl in H. apply trim_start_blank in H.
    apply trim_start_fixed. unfold blank in *.
    apply Forall_rev in H. rewrite rev_involutive in H. exact H.
  - intros ->. reflexivity.
Qed.

Example trim_sample :
  trim (lit "  loose wire ") = lit "loose wire"
  /\ trim (9 :: 160 :: 8232 :: lit " ")%N = [].
Proof. split; reflexivity. Qed.

Example nat_to_string_sample :
  nat_to_string 0 = lit "0" /\ nat_to_string 12 = lit "12".
Proof. split; reflexivity. Qed.

(** [Math.round(2.5) = 3], [Math.round(-2.5) = -2], [Math.round(0.4) = 0]
    and [Math.round(NaN)] is NaN. *)
Example Math_round_sample :
  as_integer (Math_round (div (of_Z 5) (of_Z 2))) = Some 3%Z
  /\ as_integer (Math_round (div (of_Z (-5)) (of_Z 2))) = Some (-2)%Z
  /\ Math_round (div (of_Z 2) (of_Z 5)) = S754_zero false
  /\ Math_round (div (of_Z 0) (of_Z 0)) = S754_nan.
Proof. repeat split; vm_compute; reflexivity. Qed.

End JsProps.

(** ** Binary64 arithmetic

    What the division, the multiplication by one hundred and [Math.round]
    of the completion percentage compute, from the definitions of
    [SpecFloat]. Rounding to nearest is used through one consequence only:
    the result of an operation is one of the two numbers of the format that
    enclose the exact value. *)

Module DoubleProps.
Import Js.
Local Open Scope Z_scope.

Lemma digits2_pos_bounds (m : positive) :
  2 ^ (Zpos (digits2_pos m) - 1) <= Zpos m < 2 ^ Zpos (digits2_pos m).
Proof.
  induction m as [m IH|m IH|]; cbn [digits2_pos].
  - rewrite Pos2Z.inj_succ. change (Zpos m~1) with (2 * Zpos m + 1).
    replace (Z.succ (Zpos (digits2_pos m)) - 1) with (Z.succ (Zpos (digits2_pos m) - 1)) by lia.
    rewrite !Z.pow_succ_r by lia. lia.
  - rewrite Pos2Z.inj_succ. change (Zpos m~0) with (2 * Zpos m).
    replace (Z.succ (Zpos (digits2_pos m)) - 1) with (Z.succ (Zpos (digits2_pos m) - 1)) by lia.
    rewrite !Z.pow_succ_r by lia. lia.
  - simpl. lia.
Qed.

Lemma digits2_unique (m : positive) (d : Z) :
  2 ^ (d - 1) <= Zpos m < 2 ^ d -> Zpos (digits2_pos m) = d.
Proof.
  intros [Hl Hu]. pose proof (digits2_pos_bounds m) as [Bl Bu].
  set (d' := Zpos (digits2_pos m)) in *.
  assert (0 < d).
  { destruct (Z_lt_le_dec 0 d); [assumption|].
    assert (2 ^ d <= 1).
    { destruct (Z.eq_dec d 0) as [->|]; [simpl; lia|].
      rewrite Z.pow_neg_r by lia. lia. }
    lia. }
  assert (d' - 1 < d).
  { apply (Z.pow_lt_mono_r_iff 2); lia. }
  assert (d - 1 < d').
  { apply (Z.pow_lt_mono_r_iff 2); try lia. }
  lia.
Qed.

Lemma shr_1_m (mrs : shr_record) :
  0 <= shr_m mrs -> shr_m (shr_1 mrs) = shr_m mrs / 2.
Proof.
  destruct mrs as [m r s]. cbn [shr_m]. intros Hm.
  destruct m as [|p|p]; [reflexivity| |lia].
  destruct p as [p|p|]; cbn [shr_1 shr_m].
  - change (Zpos p~1) with (2 * Zpos p + 1).
    apply Z.div_unique with 1; lia.
  - change (Zpos p~0) with (2 * Zpos p).
    apply Z.div_unique with 0; lia.
  - reflexivity.
Qed.

Lemma iter_shr_m (p : positive) : forall mrs : shr_record,
  0 <= shr_m mrs ->
  shr_m (SpecFloat.iter_pos shr_1 p mrs) = shr_m mrs / 2 ^ Zpos p.
Proof.
  induction p as [p IH|p IH|]; intros mrs Hm; cbn [SpecFloat.iter_pos].
  - assert (H1 : 0 <= shr_m (shr_1 mrs)).
    { rewrite shr_1_m by assumption. apply Z.div_pos; lia. }
    assert (H2 : 0 <= shr_m (SpecFloat.iter_pos shr_1 p (shr_1 mrs))).
    { rewrite IH by assumption. apply Z.div_pos; [assumption|]. apply Z.pow_pos_nonneg; lia. }
    rewrite IH, IH, shr_1_m by assumption.
    rewrite !Z.div_div by (try lia; apply Z.pow_pos_nonneg; lia).
    f_equal. change (Zpos p~1) with (2 * Zpos p + 1).
    replace (2 * Zpos p + 1) with (1 + Zpos p + Zpos p) by lia.
    rewrite !Z.pow_add_r by lia. simpl (2 ^ 1). lia.
  - assert (H2 : 0 <= shr_m (SpecFloat.iter_pos shr_1 p mrs)).
    { rewrite IH by assumption. apply Z.div_pos; [assumption|]. apply Z.pow_pos_nonneg; lia. }
    rewrite IH, IH by assumption.
    rewrite !Z.div_div by (try lia; apply Z.pow_pos_nonneg; lia).
    f_equal. change (Zpos p~0) with (2 * Zpos p).
    replace (2 * Zpos p) with (Zpos p + Zpos p) by lia.
    rewrite !Z.pow_add_r by lia. lia.
  - rewrite shr_1_m by assumption. reflexivity.
Qed.

Lemma fexp_normal (x : Z) : -1074 <= x - 53 -> fexp prec emax x = x - 53.
Proof. intros H. unfold fexp, emin, prec, emax. lia. Qed.

Lemma Zdigits2_bounds (m d : Z) :
  0 < m -> (Zdigits2 m = d <-> 2 ^ (d - 1) <= m < 2 ^ d).
Proof.
  intros Hm. destruct m as [|p|p]; try lia. cbn [Zdigits2]. split.
  - intros <-. apply digits2_pos_bounds.
  - apply digits2_unique.
Qed.

Lemma shr_record_of_loc_m (m : Z) (l : location) :
  shr_m (shr_record_of_loc m l) = m.
Proof. destruct l as [|[]]; reflexivity. Qed.

Lemma round_nearest_even_cases (mx : Z) (lx : location) :
  round_nearest_even mx lx = mx \/ round_nearest_even mx lx = mx + 1.
Proof.
  destruct lx as [|[]]; cbn [round_nearest_even]; auto.
  destruct (Z.even mx); auto.
Qed.

Lemma shr_fexp_m (m e : Z) (l : location) (d : Z) :
  0 < m -> Zdigits2 m = d -> 53 <= d -> -1074 <= d + e - 53 ->
  exists mrs, shr_fexp prec emax m e l = (mrs, e + (d - 53))
              /\ shr_m mrs = m / 2 ^ (d - 53).
Proof.
  intros Hm Hd H53 Hmin. unfold shr_fexp. rewrite Hd, fexp_normal by lia.
  replace (d + e - 53 - e) with (d - 53) by lia.
  unfold shr. destruct (d - 53) as [|p|p] eqn:E; try lia.
  - eexists. split; [rewrite Z.add_0_r; reflexivity|].
    rewrite shr_record_of_loc_m. cbn. symmetry. apply Z.div_1_r.
  - eexists. split; [reflexivity|].
    rewrite iter_shr_m; rewrite shr_record_of_loc_m; [reflexivity|lia].
Qed.

Lemma round_aux_finite (m e : Z) (l : location) (d : Z) :
  0 < m -> Zdigits2 m = d -> 53 <= d ->
  -1074 <= d + e - 53 -> d + e - 53 < 971 ->
  exists c, (c = m / 2 ^ (d - 53) \/ c = m / 2 ^ (d - 53) + 1)
    /\ 2 ^ 52 <= m / 2 ^ (d - 53) < 2 ^ 53
    /\ binary_round_aux prec emax false m e l =
       if c <? 2 ^ 53 then S754_finite false (Z.to_pos c) (e + (d - 53))
       else S754_finite false (Z.to_pos (2 ^ 52)) (e + (d - 53) + 1).
Proof.
  intros Hm Hd H53 Hmin Hmax. unfold binary_round_aux.
  destruct (shr_fexp_m m e l d Hm Hd H53 Hmin) as (mrs & E & Hs).
  rewrite E.
  set (c := round_nearest_even (shr_m mrs) (loc_of_shr_record mrs)).
  set (sh := d - 53) in *.
  assert (Hf : 2 ^ 52 <= m / 2 ^ sh < 2 ^ 53).
  { apply Zdigits2_bounds in Hd; [|assumption].
    assert (P : 0 < 2 ^ sh) by (apply Z.pow_pos_nonneg; lia).
    replace (d - 1) with (52 + sh) in Hd by (unfold sh; lia).
    replace d with (53 + sh) in Hd by (unfold sh; lia).
    rewrite !Z.pow_add_r in Hd by lia. split.
    - apply Z.div_le_lower_bound; lia.
    - apply Z.div_lt_upper_bound; lia. }
  assert (Hc : c = m / 2 ^ sh \/ c = m / 2 ^ sh + 1).
  { unfold c. rewrite <- Hs. apply round_nearest_even_cases. }
  exists c. split; [exact Hc|]. split; [exact Hf|].
  assert (Hcb : 2 ^ 52 <= c <= 2 ^ 53) by lia.
  destruct (Z.ltb_spec c (2 ^ 53)) as [Hlt|Hge].
  - assert (Hd' : Zdigits2 c = 53).
    { apply Zdigits2_bounds; [lia|]. simpl (53 - 1). lia. }
    destruct (shr_fexp_m c (e + sh) loc_Exact 53) as (mrs2 & E2 & Hs2); try lia.
    rewrite E2. rewrite Hs2. simpl (53 - 53). rewrite Z.pow_0_r, Z.div_1_r.
    destruct c as [|pc|pc]; try lia.
    rewrite Z.add_0_r.
    replace (e + sh <=? emax - prec) with true; [reflexivity|].
    symmetry. apply Z.leb_le. unfold emax, prec. lia.
  - assert (Hc2 : c = 2 ^ 53) by lia.
    assert (Hd' : Zdigits2 c = 54).
    { apply Zdigits2_bounds; [lia|]. rewrite Hc2. simpl. lia. }
    destruct (shr_fexp_m c (e + sh) loc_Exact 54) as (mrs2 & E2 & Hs2); try lia.
    rewrite E2. rewrite Hs2. rewrite Hc2.
    change (2 ^ 53 / 2 ^ (54 - 53)) with (2 ^ 52).
    change (2 ^ 52) with (Zpos (Z.to_pos (2 ^ 52))) at 1.
    cbv iota beta.
    replace (e + sh + (54 - 53) <=? emax - prec) with true.
    + replace (e + sh + (54 - 53)) with (e + sh + 1) by lia. reflexivity.
    + symmetry. apply Z.leb_le. unfold emax, prec. lia.
Qed.

Lemma round_aux_exact (m e : Z) :
  0 < m -> Zdigits2 m = 53 -> -1074 <= e -> e <= 971 ->
  binary_round_aux prec emax false m e loc_Exact =
  S754_finite false (Z.to_pos m) e.
Proof.
  intros Hm Hd Hmin Hmax. unfold binary_round_aux.
  assert (S : shr_fexp prec emax m e loc_Exact
              = ({| shr_m := m; shr_r := false; shr_s := false |}, e)).
  { unfold shr_fexp. rewrite Hd, fexp_normal by lia.
    replace (53 + e - 53 - e) with 0 by lia. reflexivity. }
  rewrite S. cbn [shr_m loc_of_shr_record round_nearest_even]. rewrite S.
  cbn [shr_m]. destruct m as [|p|p]; try lia.
  replace (e <=? emax - prec) with true; [reflexivity|].
  symmetry. apply Z.leb_le. unfold emax, prec. lia.
Qed.

Lemma iter_xO (p k : positive) :
  Zpos (Pos.iter xO p k) = Zpos p * 2 ^ Zpos k.
Proof.
  induction k as [|k IH] using Pos.peano_ind.
  - cbn [Pos.iter]. change (Zpos p~0) with (2 * Zpos p). simpl (2 ^ 1). lia.
  - rewrite Pos.iter_succ. change (Zpos (Pos.iter xO p k)~0) with (2 * Zpos (Pos.iter xO p k)).
    rewrite IH, Pos2Z.inj_succ, Z.pow_succ_r by lia. lia.
Qed.

(** The double of an integer below 2^53 is that integer. *)
Lemma of_Z_exact (n : Z) :
  0 < n < 2 ^ 53 ->
  let j := 53 - Zdigits2 n in
  0 <= j <= 52
  /\ 2 ^ 52 <= n * 2 ^ j < 2 ^ 53
  /\ of_Z n = S754_finite false (Z.to_pos (n * 2 ^ j)) (- j).
Proof.
  intros [Hn Hu] j.
  destruct n as [|p|p]; try lia.
  assert (Hd := digits2_pos_bounds p).
  cbn [Zdigits2] in j. set (d := Zpos (digits2_pos p)) in *.
  assert (Hd1 : 1 <= d) by (unfold d; lia).
  assert (Hd53 : d <= 53).
  { destruct (Z_le_gt_dec d 53); [assumption|].
    assert (2 ^ 53 <= 2 ^ (d - 1)) by (apply Z.pow_le_mono_r; lia). lia. }
  assert (Hj : 0 <= j <= 52) by (unfold j; lia).
  assert (Hm : 2 ^ 52 <= Zpos p * 2 ^ j < 2 ^ 53).
  { assert (E52 : 2 ^ 52 = 2 ^ (d - 1) * 2 ^ j).
    { rewrite <- Z.pow_add_r by lia. f_equal. unfold j. lia. }
    assert (E53 : 2 ^ 53 = 2 ^ d * 2 ^ j).
    { rewrite <- Z.pow_add_r by lia. f_equal. unfold j. lia. }
    rewrite E52, E53.
    assert (0 < 2 ^ j) by (apply Z.pow_pos_nonneg; lia). nia. }
  split; [exact Hj|]. split; [exact Hm|].
  unfold of_Z, binary_normalize, binary_round.
  fold d. rewrite Z.add_0_r, fexp_normal by lia.
  unfold shl_align. rewrite Z.sub_0_r.
  destruct (d - 53) as [|q|q] eqn:E; try lia.
  - assert (j = 0) by (unfold j; lia).
    replace (- j) with 0 by lia. replace (Zpos p * 2 ^ j) with (Zpos p) by (subst j; replace (53 - d) with 0 by lia; lia).
    apply round_aux_exact; cbn [Zdigits2]; fold d; lia.
  - assert (Ej : j = Zpos q) by (unfold j; lia).
    replace (Zneg q) with (- j) by lia.
    assert (Em : Zpos p * 2 ^ j = Zpos (Pos.iter xO p q))
      by (rewrite Ej, iter_xO; reflexivity).
    rewrite Em in Hm |- *. cbn [Z.to_pos].
    apply round_aux_exact; try lia.
    apply Zdigits2_bounds; [lia|]. simpl (53 - 1). lia.
Qed.

(** Rounding a positive mantissa [m] that is the integer part of [N / D]:
    the result is a normal number within one unit in the last place of
    [N / D]. *)
Lemma round_aux_bracket (m e : Z) (l : location) (d N D : Z) :
  0 < m -> Zdigits2 m = d -> 53 <= d ->
  -1074 <= d + e - 53 -> d + e - 53 < 971 ->
  0 < D -> m * D <= N < (m + 1) * D ->
  exists mr sh,
    binary_round_aux prec emax false m e l = S754_finite false mr (e + sh)
    /\ d - 53 <= sh <= d - 52
    /\ 2 ^ 52 <= Zpos mr < 2 ^ 53
    /\ (Zpos mr - 1) * (D * 2 ^ sh) <= N <= (Zpos mr + 1) * (D * 2 ^ sh).
Proof.
  intros Hm Hd H53 Hmin Hmax HD HN.
  destruct (round_aux_finite m e l d Hm Hd H53 Hmin Hmax) as (c & Hc & Hf & R).
  set (s0 := d - 53) in *. set (f := m / 2 ^ s0) in *.
  assert (P : 0 < 2 ^ s0) by (apply Z.pow_pos_nonneg; lia).
  assert (F1 : f * 2 ^ s0 <= m).
  { unfold f. rewrite Z.mul_comm. apply Z.mul_div_le. exact P. }
  assert (F2 : m < (f + 1) * 2 ^ s0).
  { unfold f. rewrite Z.mul_comm. apply Z.mul_succ_div_gt. exact P. }
  set (X := D * 2 ^ s0).
  assert (HX : 0 < X) by (unfold X; nia).
  assert (B1 : f * X <= N) by (unfold X; nia).
  assert (B2 : N <= (f + 1) * X) by (unfold X; nia).
  destruct (Z.ltb_spec c (2 ^ 53)) as [Hlt|Hge].
  - assert (Hcp : 0 < c) by lia.
    exists (Z.to_pos c), s0. rewrite Z2Pos.id by exact Hcp.
    split; [exact R|]. split; [lia|]. split; [lia|].
    fold X. destruct Hc as [-> | ->]; nia.
  - assert (Hc2 : c = 2 ^ 53) by lia.
    exists (Z.to_pos (2 ^ 52)), (s0 + 1).
    rewrite Z.add_assoc. split; [exact R|]. split; [lia|].
    rewrite Z2Pos.id by lia. split; [lia|].
    rewrite Z.pow_add_r by lia. simpl (2 ^ 1).
    replace (D * (2 ^ s0 * 2)) with (2 * X) by (unfold X; ring).
    assert (Hf53 : f = 2 ^ 53 - 1) by lia.
    rewrite Hf53 in B1, B2.
    change (2 ^ 53) with (2 * 2 ^ 52) in B1, B2. lia.
Qed.

Lemma SFdiv_core_normal (m1 e1 m2 e2 : Z) :
  2 ^ 52 <= m1 < 2 ^ 53 -> 2 ^ 52 <= m2 < 2 ^ 53 ->
  -1074 <= e1 - e2 - 53 ->
  SFdiv_core_binary prec emax m1 e1 m2 e2 =
  (m1 * 2 ^ 53 / m2, e1 - e2 - 53, new_location m2 (m1 * 2 ^ 53 mod m2)).
Proof.
  intros H1 H2 He. unfold SFdiv_core_binary.
  assert (D1 : Zdigits2 m1 = 53) by (apply Zdigits2_bounds; simpl (53 - 1); lia).
  assert (D2 : Zdigits2 m2 = 53) by (apply Zdigits2_bounds; simpl (53 - 1); lia).
  rewrite D1, D2.
  replace (53 + e1 - (53 + e2)) with (e1 - e2) by lia.
  rewrite fexp_normal by lia.
  rewrite Z.min_l by lia.
  replace (e1 - e2 - (e1 - e2 - 53)) with 53 by lia.
  rewrite Z.shiftl_mul_pow2 by lia.
  unfold Z.div, Z.modulo.
  destruct (Z.div_eucl (m1 * 2 ^ 53) m2) as [q r]. reflexivity.
Qed.

(** The quotient of two integers below 2^53, as a double. *)
Lemma div_bracket (k n : Z) :
  0 < k <= n -> n < 2 ^ 53 ->
  exists mq E,
    div (of_Z k) (of_Z n) = S754_finite false mq (- E)
    /\ 51 <= E <= 105
    /\ 2 ^ 52 <= Zpos mq < 2 ^ 53
    /\ (Zpos mq - 1) * n <= k * 2 ^ E <= (Zpos mq + 1) * n.
Proof.
  intros [Hk Hkn] Hn.
  destruct (of_Z_exact k) as (Hjk & Bk & Ek); [lia|].
  destruct (of_Z_exact n) as (Hjn & Bn & En); [lia|].
  set (jk := 53 - Zdigits2 k) in *. set (jn := 53 - Zdigits2 n) in *.
  assert (Hj : jn <= jk).
  { destruct (Z_le_gt_dec jn jk); [assumption|].
    assert (2 ^ (jk + 1) <= 2 ^ jn) by (apply Z.pow_le_mono_r; lia).
    rewrite Z.pow_add_r in H by lia. simpl (2 ^ 1) in H.
    assert (0 < 2 ^ jk) by (apply Z.pow_pos_nonneg; lia).
    change (2 ^ 53) with (2 * 2 ^ 52) in Bn. nia. }
  rewrite Ek, En. unfold div. cbn [SFdiv xorb].
  set (m1 := k * 2 ^ jk) in *. set (m2 := n * 2 ^ jn) in *.
  rewrite !Z2Pos.id by lia.
  rewrite SFdiv_core_normal by lia.
  set (q := m1 * 2 ^ 53 / m2).
  assert (Hq : 2 ^ 52 <= q < 2 ^ 54).
  { unfold q. split.
    - apply Z.div_le_lower_bound; [lia|].
      change (2 ^ 53) with (2 * 2 ^ 52) in *. nia.
    - apply Z.div_lt_upper_bound; [lia|].
      change (2 ^ 54) with (2 * 2 ^ 53). nia. }
  assert (Q1 : q * m2 <= m1 * 2 ^ 53).
  { pose proof (Z.mul_div_le (m1 * 2 ^ 53) m2 ltac:(lia)) as H.
    fold q in H. lia. }
  assert (Q2 : m1 * 2 ^ 53 < (q + 1) * m2).
  { pose proof (Z.mul_succ_div_gt (m1 * 2 ^ 53) m2 ltac:(lia)) as H.
    fold q in H. lia. }
  assert (Hdq : exists dq, Zdigits2 q = dq /\ 53 <= dq <= 54).
  { destruct (Z_lt_le_dec q (2 ^ 53)).
    - exists 53. split; [|lia]. apply Zdigits2_bounds; simpl (53 - 1); lia.
    - exists 54. split; [|lia]. apply Zdigits2_bounds; simpl (54 - 1); lia. }
  destruct Hdq as (dq & Hdq & Bdq).
  destruct (round_aux_bracket q (- jk - - jn - 53)
              (new_location m2 (m1 * 2 ^ 53 mod m2)) dq (m1 * 2 ^ 53) m2)
    as (mr & sh & R & Hsh & Bmr & Br); try lia.
  exists mr, (jk - jn + 53 - sh).
  split; [rewrite R; f_equal; lia|].
  split; [lia|]. split; [exact Bmr|].
  set (E := jk - jn + 53 - sh).
  assert (P : 0 < 2 ^ (jn + sh)) by (apply Z.pow_pos_nonneg; lia).
  assert (A1 : m2 * 2 ^ sh = n * 2 ^ (jn + sh)).
  { unfold m2. rewrite Z.pow_add_r by lia. ring. }
  assert (A2 : m1 * 2 ^ 53 = k * 2 ^ E * 2 ^ (jn + sh)).
  { unfold m1. rewrite <- !Z.mul_assoc, <- !Z.pow_add_r by (unfold E; lia).
    f_equal. f_equal. unfold E. lia. }
  rewrite A1, A2 in Br. destruct Br as [Br1 Br2]. split.
  - apply (Z.mul_le_mono_pos_r _ _ (2 ^ (jn + sh))); [exact P|].
    rewrite <- Z.mul_assoc. exact Br1.
  - apply (Z.mul_le_mono_pos_r _ _ (2 ^ (jn + sh))); [exact P|].
    rewrite <- (Z.mul_assoc (Zpos mr + 1)). exact Br2.
Qed.

Lemma of_Z_100 : of_Z 100 = S754_finite false (Z.to_pos (100 * 2 ^ 46)) (-46).
Proof. reflexivity. Qed.

(** A normal number times one hundred. *)
Lemma mul100_bracket (mq : positive) (E : Z) :
  2 ^ 52 <= Zpos mq < 2 ^ 53 -> 0 <= E <= 200 ->
  exists my sh,
    mul (S754_finite false mq (- E)) (of_Z 100)
      = S754_finite false my (- (E + 46 - sh))
    /\ 52 <= sh <= 54
    /\ 2 ^ 52 <= Zpos my < 2 ^ 53
    /\ (Zpos my - 1) * 2 ^ sh <= Zpos mq * (100 * 2 ^ 46)
       <= (Zpos my + 1) * 2 ^ sh.
Proof.
  intros Bq HE. rewrite of_Z_100. unfold mul. cbn [SFmul xorb].
  set (M := Zpos mq * (100 * 2 ^ 46)).
  assert (EM : Zpos (mq * Z.to_pos (100 * 2 ^ 46)) = M) by reflexivity.
  rewrite EM.
  assert (BM : 2 ^ 104 <= M < 2 ^ 106).
  { unfold M. change (2 ^ 104) with (2 ^ 52 * (64 * 2 ^ 46)).
    change (2 ^ 106) with (2 ^ 53 * (128 * 2 ^ 46)).
    assert (0 < 2 ^ 46) by reflexivity. nia. }
  assert (Hd : exists d, Zdigits2 M = d /\ 105 <= d <= 106).
  { destruct (Z_lt_le_dec M (2 ^ 105)).
    - exists 105. split; [|lia]. apply Zdigits2_bounds; simpl (105 - 1); lia.
    - exists 106. split; [|lia]. apply Zdigits2_bounds; simpl (106 - 1); lia. }
  destruct Hd as (d & Hd & Bd).
  destruct (round_aux_bracket M (- E + -46) loc_Exact d M 1)
    as (my & sh & R & Hsh & Bmy & Br); try lia.
  exists my, sh. split; [rewrite R; f_equal; lia|].
  split; [lia|]. split; [exact Bmy|].
  rewrite !Z.mul_1_l in Br. exact Br.
Qed.

(** [Math.round] of a positive normal number below 2^52 is the integer
    [p] with [|y - p| <= 1/2] that [as_integer] reads back. *)
Lemma round_integer (my : positive) (Ey : Z) :
  1 <= Ey -> 2 ^ 52 <= Zpos my < 2 ^ 53 ->
  exists p, as_integer (Math_round (S754_finite false my (- Ey))) = Some p
    /\ 0 <= p
    /\ 2 * p * 2 ^ Ey - 2 ^ Ey <= 2 * Zpos my <= 2 * p * 2 ^ Ey + 2 ^ Ey.
Proof.
  intros HE Bm. destruct Ey as [|pe|pe]; try lia.
  change (- Zpos pe) with (Zneg pe). unfold Math_round. cbv beta iota zeta.
  change (Z.pow_pos 2 pe) with (2 ^ Zpos pe).
  set (d := 2 ^ Zpos pe).
  assert (Hd : 2 <= d).
  { unfold d. change 2 with (2 ^ 1) at 1. apply Z.pow_le_mono_r; lia. }
  pose proof (Z.div_mod (Zpos my) d ltac:(lia)) as DM.
  pose proof (Z.mod_pos_bound (Zpos my) d ltac:(lia)) as MB.
  set (q := Zpos my / d) in *. set (r := Zpos my mod d) in *.
  assert (Hq0 : 0 <= q) by (unfold q; apply Z.div_pos; lia).
  assert (Hq : q < 2 ^ 52).
  { change (2 ^ 53) with (2 * 2 ^ 52) in Bm. nia. }
  set (p := if d <=? 2 * r then q + 1 else q).
  assert (Hp : 0 <= p <= 2 ^ 52) by (unfold p; destruct (d <=? 2 * r); lia).
  assert (Hb : 2 * p * d - d <= 2 * Zpos my <= 2 * p * d + d).
  { unfold p. destruct (Z.leb_spec d (2 * r)); nia. }
  exists p. split; [|split; [lia|exact Hb]].
  clearbody p.
  destruct (Z.eq_dec p 0) as [E0|N0].
  - rewrite E0. reflexivity.
  - assert (Hpos : 0 < p < 2 ^ 53) by (change (2 ^ 53) with (2 * 2 ^ 52); lia).
    destruct (of_Z_exact p Hpos) as (Hj & Bp & Ep).
    set (j := 53 - Zdigits2 p) in *.
    transitivity (as_integer (of_Z p));
      [unfold of_Z; destruct p; [lia|reflexivity|reflexivity]|].
    rewrite Ep. unfold as_integer.
    assert (Pj : 0 < 2 ^ j) by (apply Z.pow_pos_nonneg; lia).
    rewrite Z2Pos.id by lia.
    destruct j as [|pj|pj] eqn:Ej; try lia.
    + change (- 0) with 0. cbn [cond_Zopp]. f_equal. simpl (2 ^ 0). lia.
    + change (- Zpos pj) with (Zneg pj). cbv iota beta.
      change (Z.pow_pos 2 pj) with (2 ^ Zpos pj).
      rewrite Z.mod_mul by lia. cbn [Z.eqb cond_Zopp].
      rewrite Z.div_mul by lia. reflexivity.
Qed.

End DoubleProps.

(** ** The submission view *)

Module SubmitProps.
Import Js Async Async.Notations SubmitPage JsProps.

(** *** Items and their edits *)

Lemma status_eqb_eq (a b : Status) : status_eqb a b = true <-> a = b.
Proof. destruct a, b; simpl; split; congruence. Qed.

(** An edit of one field keeps the other four. *)
Lemma with_status_fields (s : Status) (item : InspectionItem) :
  id (with_status s item) = id item
  /\ name (with_status s item) = name item
  /\ description (with_status s item) = description item
  /\ comment (with_status s item) = comment item
  /\ status (with_status s item) = s.
Proof. repeat split. Qed.

Lemma with_comment_fields (c : jsstring) (item : InspectionItem) :
  id (with_comment c item) = id item
  /\ name (with_comment c item) = name item
  /\ description (with_comment c item) = description item
  /\ status (with_comment c item) = status item
  /\ comment (with_comment c item) = c.
Proof. repeat split. Qed.

Lemma setItems_same (st : State) : setItems (fun l => l) st = st.
Proof. destruct st; reflexivity. Qed.

(** The list transformer both edit handlers share: [prev.map(item =>
    item.id === itemId ? edited : item)]. *)
Definition edit (itemId : jsstring) (f : InspectionItem -> InspectionItem)
  (l : list InspectionItem) : list InspectionItem :=
  List.map (fun item => if str_eqb (id item) itemId then f item else item) l.

Lemma edit_length itemId f l : length (edit itemId f l) = length l.
Proof. apply length_map. Qed.

Lemma edit_lookup itemId f (l : list InspectionItem) (i : nat) :
  edit itemId f l !! i =
  (fun item => if str_eqb (id item) itemId then f item else item) <$> l !! i.
Proof. apply list_lookup_fmap. Qed.

Lemma edit_absent itemId f (l : list InspectionItem) :
  Forall (fun item => id item <> itemId) l -> edit itemId f l = l.
Proof.
  induction 1 as [|item l Hne _ IH]; simpl; [reflexivity|].
  apply str_eqb_neq in Hne. rewrite Hne. f_equal. exact IH.
Qed.

(** With identifiers that are pairwise distinct, the edit is the update of
    one position. *)
Lemma edit_single itemId f (l : list InspectionItem) (i : nat) item :
  NoDup (List.map id l) -> l !! i = Some item -> id item = itemId ->
  (forall x, id (f x) = id x) ->
  edit itemId f l = <[i := f item]> l.
Proof.
  intros Hnd Hi Hid Hf. revert i Hnd Hi.
  induction l as [|x l IH]; intros i Hnd Hi; [discriminate|].
  simpl in Hnd. apply NoDup_cons in Hnd as [Hx Hnd].
  destruct i as [|i]; simpl in *.
  - injection Hi as ->. rewrite Hid, str_eqb_refl. f_equal.
    apply edit_absent. apply Forall_forall. intros y Hy Heq.
    apply Hx. rewrite Hid, <- Heq.
    apply (list_elem_of_fmap_2 id). exact Hy.
  - assert (Hne : id x <> itemId).
    { intros Heq. apply Hx. rewrite Heq, <- Hid.
      apply (list_elem_of_fmap_2 id).
      eapply list_elem_of_lookup_2. exact Hi. }
    apply str_eqb_neq in Hne. rewrite Hne. f_equal.
    apply IH; assumption.
Qed.

(** *** Validation *)

(** An item the comment check rejects: marked bad or flagged, with a comment
    that is empty or white space only. *)
Definition offending (item : InspectionItem) : Prop :=
  (status item = bad \/ status item = flagged) /\ blank (comment item).

Lemma needs_comment_offending (item : InspectionItem) :
  needs_comment item = true <-> offending item.
Proof.
  unfold needs_comment, offending.
  rewrite andb_true_iff, orb_true_iff, !status_eqb_eq, trim_falsy_blank.
  reflexivity.
Qed.

Lemma existsb_pending (l : list InspectionItem) :
  List.existsb (fun item => status_eqb (status item) pending) l = true
  <-> Exists (fun item => status item = pending) l.
Proof.
  rewrite existsb_exists, Exists_exists. split.
  - intros (x & Hx & He). exists x. apply list_elem_of_In in Hx.
    apply status_eqb_eq in He. auto.
  - intros (x & Hx & He). exists x. apply list_elem_of_In in Hx.
    apply status_eqb_eq in He. auto.
Qed.

Lemma no_pending (l : list InspectionItem) :
  Forall (fun item => status item <> pending) l ->
  List.existsb (fun item => status_eqb (status item) pending) l = false.
Proof.
  intros H. apply not_true_is_false. rewrite existsb_pending.
  rewrite Exists_exists. intros (x & Hx & He).
  rewrite Forall_forall in H. exact (H x Hx He).
Qed.

Lemma offenders_spec (l : list InspectionItem) (item : InspectionItem) :
  In item (List.filter needs_comment l) <-> In item l /\ offending item.
Proof. rewrite filter_In, needs_comment_offending. reflexivity. Qed.

Lemma offenders_some (l : list InspectionItem) :
  Exists offending l -> (0 <? length (List.filter needs_comment l)) = true.
Proof.
  rewrite Exists_exists. intros (x & Hx & Ho).
  apply list_elem_of_In in Hx.
  assert (Hin : In x (List.filter needs_comment l))
    by (apply offenders_spec; auto).
  apply Nat.ltb_lt. destruct (List.filter needs_comment l); [destruct Hin|].
  simpl; lia.
Qed.

Lemma offenders_none (l : list InspectionItem) :
  Forall (fun item => ~ offending item) l -> List.filter needs_comment l = [].
Proof.
  intros H. destruct (List.filter needs_comment l) as [|x t] eqn:E; [reflexivity|].
  assert (Hin : In x (List.filter needs_comment l)) by (rewrite E; left; reflexivity).
  apply offenders_spec in Hin as [Hin Ho].
  rewrite Forall_forall in H. apply list_elem_of_In in Hin.
  destruct (H x Hin Ho).
Qed.

Example comments_toast_text :
  comments_toast 2 =
  ToastError (lit "Comments Required")
    (lit "Please add comments for 2 item(s) marked as Bad or Flagged.").
Proof. reflexivity. Qed.

(** A rejection, as a run: the toast and nothing else. *)
Definition rejected_with (toast : Effect) (st : State)
  : Run State Effect SubmitRequest unit :=
  {| result := Some tt; state := st; actions := [Emitted toast] |}.



(** *** Submission outcomes *)

(** The form passes the three checks. *)
Definition passes (snap : State) : Prop :=
  Forall (fun item => status item <> pending) (items snap)
  /\ Forall (fun item => ~ offending item) (items snap)
  /\ studentEmail snap <> [].

Lemma cleared_baseline (l : list InspectionItem) :
  Forall (fun item => status item = pending /\ comment item = [])
    (List.map cleared l).
Proof. induction l; simpl; constructor; auto. Qed.

Lemma cleared_keeps (item : InspectionItem) :
  id (cleared item) = id item /\ name (cleared item) = name item
  /\ description (cleared item) = description item.
Proof. repeat split. Qed.



(** *** The catalog fetch *)

(** What [fetchItems] does with each answer. [form] is the state as it
    stands when the answer arrives. *)
Lemma fetchItems_outcomes
  (w : World State CatalogRequest (Fetched CatalogBody)) (st : State) :
  let r := run w fetchItems st in
  let form := meanwhile w GetAllItems st in
  requests r = [GetAllItems]
  /\ isLoading (state r) = false
  /\ match respond w GetAllItems with
     | Resolved _ (Some data) =>
         match cat_success data, cat_items data with
         | true, Some entries =>
             items (state r) = List.map project entries /\ effects r = []
         | _, _ =>
             items (state r) = fallback_catalog
             /\ effects r = [ConsoleError (lit "Failed to fetch items:")]
         end
     | _ =>
         items (state r) = items form
         /\ effects r = [ConsoleError (lit "Error fetching inspection items:");
                         connection_toast]
     end.
Proof.
  intros r form; subst r form. unfold fetchItems.
  cbn [bind update run try_catch finally await json_of].
  destruct (respond w GetAllItems) as [|code [data|]];
    cbn [bind update emit run try_catch finally json_of].
  - repeat split; reflexivity.
  - destruct (cat_success data), (cat_items data);
      cbn [bind update emit run try_catch finally]; repeat split; reflexivity.
  - repeat split; reflexivity.
Qed.

(** The fallback catalog: five items, all pending with an empty comment. *)
Lemma fallback_catalog_shape :
  length fallback_catalog = 5
  /\ Forall (fun item => status item = pending /\ comment item = [])
       fallback_catalog.
Proof. split; [reflexivity|]. repeat constructor. Qed.

(** Every answer of an invalid shape installs the fallback catalog and
    fires no toast. *)
Lemma fetchItems_invalid_shape (code : Z) (data : CatalogBody) (st : State) :
  cat_success data = false \/ cat_items data = None ->
  let r := run (quiet (fun _ => Resolved code (Some data))) fetchItems st in
  items (state r) = fallback_catalog
  /\ effects r = [ConsoleError (lit "Failed to fetch items:")].
Proof.
  intros Hbad r.
  pose proof (fetchItems_outcomes
    (quiet (fun _ => Resolved code (Some data))) st) as H.
  cbv zeta in H. fold r in H. destruct H as (_ & _ & H).
  cbn [respond quiet] in H.
  destruct (cat_success data), (cat_items data), Hbad; try congruence; exact H.
Qed.

(** C1, at the two failure modes on the freshly mounted page. When the fetch
    throws, the connection toast fires (it reads "... Using demo data.") but
    the items stay the empty list: the fallback catalog is not installed.
    When the answer has an invalid shape (here [success] false and no
    [items] array), the fallback catalog is installed but no toast fires. *)
Theorem fetchItems_failure_modes :
  (let r := run (quiet (fun _ => Rejected)) fetchItems initial in
   items (state r) = []
   /\ items (state r) <> fallback_catalog
   /\ effects r = [ConsoleError (lit "Error fetching inspection items:");
                   connection_toast])
  /\ (let r := run (quiet (fun _ => Resolved 200
                      (Some {| cat_success := false; cat_items := None |})))
                  fetchItems initial in
      items (state r) = fallback_catalog
      /\ effects r = [ConsoleError (lit "Failed to fetch items:")]).
Proof.
  split.
  - repeat split; try reflexivity. discriminate.
  - apply fetchItems_invalid_shape. left; reflexivity.
Qed.

(** *** Statistics *)

(** The number of items of a status, counted directly. *)
Definition count_status (k : Status) (l : list InspectionItem) : nat :=
  length (List.filter (fun item => status_eqb (status item) k) l).

Definition tally (acc : gmap Status nat) (item : InspectionItem)
  : gmap Status nat :=
  <[status item := default 0 (acc !! status item) + 1]> acc.

Lemma count_status_cons (k : Status) (a : InspectionItem) l :
  count_status k (a :: l) =
  (if status_eqb (status a) k then 1 else 0) + count_status k l.
Proof.
  unfold count_status. cbn [List.filter].
  destruct (status_eqb (status a) k); reflexivity.
Qed.

Lemma tally_lookup (l : list InspectionItem) (acc : gmap Status nat) (k : Status) :
  fold_left tally l acc !! k =
  if count_status k l =? 0 then acc !! k
  else Some (default 0 (acc !! k) + count_status k l).
Proof.
  revert acc. induction l as [|a l IH]; intros acc; [reflexivity|].
  cbn [fold_left]. rewrite IH, count_status_cons. unfold tally.
  destruct (decide (status a = k)) as [->|Hne].
  - assert (E : status_eqb k k = true) by (apply status_eqb_eq; reflexivity).
    rewrite E, lookup_insert_eq. cbn [default].
    destruct (count_status k l) as [|c]; cbn [Nat.eqb Nat.add];
      apply (f_equal Some); unfold Datatypes.id; lia.
  - assert (E : status_eqb (status a) k = false).
    { apply not_true_is_false. rewrite status_eqb_eq. exact Hne. }
    rewrite E, lookup_insert_ne by exact Hne. reflexivity.
Qed.

(** A key of [stats] is present exactly when some item has that status, and
    then holds their number. *)
Lemma stats_lookup (l : list InspectionItem) (k : Status) :
  stats l !! k =
  if count_status k l =? 0 then None else Some (count_status k l).
Proof.
  unfold stats. change (fold_left _ l ∅) with (fold_left tally l ∅).
  rewrite tally_lookup, lookup_empty. reflexivity.
Qed.

(** [stats.k || 0] is the number of items of status [k]. *)
Lemma stat_count (l : list InspectionItem) (k : Status) :
  stat l k = count_status k l.
Proof.
  unfold stat. rewrite stats_lookup.
  destruct (count_status k l); reflexivity.
Qed.

Lemma count_status_le (k : Status) (l : list InspectionItem) :
  count_status k l <= length l.
Proof. apply filter_length_le. Qed.

(** The four counts add up to the number of items. *)
Lemma count_status_total (l : list InspectionItem) :
  count_status good l + count_status bad l + count_status flagged l
  + count_status pending l = length l.
Proof.
  unfold count_status. induction l as [|a l IH]; [reflexivity|].
  cbn [List.filter length]. destruct (status a); cbn [status_eqb length]; lia.
Qed.

(** The percentage is a function of two counts. *)
Definition percent_of (done total : Z) : number :=
  Math_round (mul (div (of_Z done) (of_Z total)) (of_Z 100)).

Lemma progress_percentage_counts (l : list InspectionItem) :
  progress_percentage l =
  percent_of (Z.of_nat (length l) - Z.of_nat (count_status pending l))
             (Z.of_nat (length l)).
Proof.
  unfold progress_percentage, completion, percent_of, of_nat.
  rewrite stat_count. reflexivity.
Qed.


(** [p] is an integer closest to [100 * done / total]. *)
Definition nearest_percent (p done total : Z) : Prop :=
  (2 * total * p - total <= 200 * done <= 2 * total * p + total)%Z.

Section Percentage.
Import DoubleProps.
Local Open Scope Z_scope.

(** Three brackets, each within one unit in the last place, leave the
    rounded percentage within one half of [100 k / n]. *)
Lemma brackets_nearest (k n mq my p A B T : Z) :
  0 < n < 2 ^ 32 -> 0 <= k ->
  0 < A -> 0 < B -> B <= 256 * 2 ^ 46 -> 2 ^ 51 <= T ->
  A * B = T * 2 ^ 46 ->
  (mq - 1) * n <= k * T <= (mq + 1) * n ->
  (my - 1) * B <= mq * (100 * 2 ^ 46) <= (my + 1) * B ->
  2 * p * A - A <= 2 * my <= 2 * p * A + A ->
  nearest_percent p k n.
Proof.
  intros Hn Hk HA HB HB' HT HQ [H1a H1b] [H2a H2b] [H3a H3b].
  set (C := 2 ^ 46) in *.
  assert (HC : 0 < C) by reflexivity.
  assert (HQ0 : 0 < T * C) by nia.
  assert (S5 : 712 * n * C < T * C).
  { apply Z.mul_lt_mono_pos_r; [exact HC|].
    change (2 ^ 32) with 4294967296 in Hn.
    change (2 ^ 51) with 2251799813685248 in HT. lia. }
  assert (S4 : B * n <= 256 * C * n).
  { apply Z.mul_le_mono_nonneg_r; lia. }
  assert (Div : forall X, X * (T * C) < T * C -> X <= 0).
  { intros X HX. destruct (Z_le_gt_dec X 0); [assumption|].
    assert (1 * (T * C) <= X * (T * C))
      by (apply Z.mul_le_mono_nonneg_r; lia). lia. }
  unfold nearest_percent. split.
  - (* 2 n p - n <= 200 k *)
    assert (S1 : (2 * p - 1) * n * (T * C) <= 2 * my * (B * n)).
    { replace ((2 * p - 1) * n * (T * C)) with ((2 * p * A - A) * (B * n))
        by (rewrite <- HQ; ring).
      apply Z.mul_le_mono_nonneg_r; [nia|exact H3a]. }
    assert (S2 : my * B * n <= (mq * (100 * C) + B) * n).
    { apply Z.mul_le_mono_nonneg_r; lia. }
    assert (S3 : mq * n * (100 * C) <= (k * T + n) * (100 * C)).
    { apply Z.mul_le_mono_nonneg_r; lia. }
    assert (G : (2 * n * p - n - 200 * k) * (T * C) < T * C).
    { eapply Z.le_lt_trans; [|exact S5].
      replace ((2 * n * p - n - 200 * k) * (T * C))
        with ((2 * p - 1) * n * (T * C) - 200 * (k * T * C)) by ring.
      replace (2 * my * (B * n)) with (2 * (my * B * n)) in S1 by ring.
      replace ((mq * (100 * C) + B) * n)
        with (mq * n * (100 * C) + B * n) in S2 by ring.
      replace ((k * T + n) * (100 * C))
        with (100 * (k * T * C) + 100 * (n * C)) in S3 by ring.
      replace (256 * C * n) with (256 * (n * C)) in S4 by ring.
      replace (712 * n * C) with (712 * (n * C)) by ring.
      lia. }
    apply Div in G. lia.
  - (* 200 k <= 2 n p + n *)
    assert (S1 : 2 * my * (B * n) <= (2 * p + 1) * n * (T * C)).
    { replace ((2 * p + 1) * n * (T * C)) with ((2 * p * A + A) * (B * n))
        by (rewrite <- HQ; ring).
      apply Z.mul_le_mono_nonneg_r; [nia|exact H3b]. }
    assert (S2 : (mq * (100 * C) - B) * n <= my * B * n).
    { apply Z.mul_le_mono_nonneg_r; lia. }
    assert (S3 : (k * T - n) * (100 * C) <= mq * n * (100 * C)).
    { apply Z.mul_le_mono_nonneg_r; lia. }
    assert (G : (200 * k - 2 * n * p - n) * (T * C) < T * C).
    { eapply Z.le_lt_trans; [|exact S5].
      replace ((200 * k - 2 * n * p - n) * (T * C))
        with (200 * (k * T * C) - (2 * p + 1) * n * (T * C)) by ring.
      replace (2 * my * (B * n)) with (2 * (my * B * n)) in S1 by ring.
      replace ((mq * (100 * C) - B) * n)
        with (mq * n * (100 * C) - B * n) in S2 by ring.
      replace ((k * T - n) * (100 * C))
        with (100 * (k * T * C) - 100 * (n * C)) in S3 by ring.
      replace (256 * C * n) with (256 * (n * C)) in S4 by ring.
      replace (712 * n * C) with (712 * (n * C)) by ring.
      lia. }
    apply Div in G. lia.
Qed.

(** The percentage of [k] out of [n], for every [n] an array length can be. *)
Theorem percent_nearest (k n : Z) :
  0 <= k <= n -> 0 < n < 2 ^ 32 ->
  exists p, as_integer (percent_of k n) = Some p
            /\ 0 <= p <= 100 /\ nearest_percent p k n.
Proof.
  intros Hk Hn.
  assert (Range : forall p, nearest_percent p k n -> 0 <= p <= 100).
  { unfold nearest_percent. intros p [A B]. split.
    - destruct (Z_le_gt_dec 0 p); [assumption|]. nia.
    - destruct (Z_le_gt_dec p 100); [assumption|]. nia. }
  assert (Hn53 : n < 2 ^ 53).
  { eapply Z.lt_le_trans; [apply Hn|]. apply Z.pow_le_mono_r; lia. }
  destruct (Z.eq_dec k 0) as [->|Hk0].
  - exists 0. destruct (of_Z_exact n) as (_ & _ & En); [lia|].
    assert (N0 : nearest_percent 0 0 n) by (unfold nearest_percent; lia).
    split; [|split; [lia|exact N0]].
    unfold percent_of. rewrite En. reflexivity.
  - destruct (div_bracket k n) as (mq & E & Dv & HE & Bq & Br1); try lia.
    destruct (mul100_bracket mq E Bq) as (my & sh & Ml & Hsh & By & Br2); [lia|].
    destruct (round_integer my (E + 46 - sh)) as (p & Rd & Hp & Br3);
      [lia|exact By|].
    exists p. unfold percent_of. rewrite Dv, Ml.
    split; [exact Rd|].
    assert (PA : 0 < 2 ^ (E + 46 - sh)) by (apply Z.pow_pos_nonneg; lia).
    assert (PB : 0 < 2 ^ sh) by (apply Z.pow_pos_nonneg; lia).
    assert (PB' : 2 ^ sh <= 256 * 2 ^ 46).
    { change (256 * 2 ^ 46) with (2 ^ 54). apply Z.pow_le_mono_r; lia. }
    assert (PT : 2 ^ 51 <= 2 ^ E) by (apply Z.pow_le_mono_r; lia).
    assert (PQ : 2 ^ (E + 46 - sh) * 2 ^ sh = 2 ^ E * 2 ^ 46).
    { rewrite <- !Z.pow_add_r by lia. f_equal. lia. }
    assert (NP : nearest_percent p k n).
    { apply (brackets_nearest k n (Zpos mq) (Zpos my) p
               (2 ^ (E + 46 - sh)) (2 ^ sh) (2 ^ E)); try assumption; lia. }
    split; [apply Range; exact NP|exact NP].
Qed.

End Percentage.

(** The example of the specification: five items, three good, one bad with
    the comment "loose wire", one flagged with the comment "needs paint". *)
Definition example_items : list InspectionItem :=
  [ with_status good (fallback_item "1" "Classroom Cleanliness" "");
    with_status good (fallback_item "2" "Furniture Condition" "");
    with_comment (lit "loose wire")
      (with_status bad (fallback_item "3" "Electrical Safety" ""));
    with_status good (fallback_item "4" "Lighting System" "");
    with_comment (lit "needs paint")
      (with_status flagged (fallback_item "5" "Ventilation" "")) ].

Example example_statistics :
  stat example_items good = 3 /\ stat example_items bad = 1
  /\ stat example_items flagged = 1 /\ stat example_items pending = 0
  /\ stats example_items !! pending = None
  /\ as_integer (progress_percentage example_items) = Some 100%Z.
Proof. repeat split; vm_compute; reflexivity. Qed.

(** Ties: [100 * done / total] halfway between two integers. The double
    product may fall on either side of the half. *)
Example percent_ties :
  as_integer (percent_of 1 8) = Some 13%Z
  /\ as_integer (percent_of 29 200) = Some 14%Z.
Proof. split; vm_compute; reflexivity. Qed.

(** C8, as the code has it. For every items list the statistics are the
    numbers of items of each status in the current list (a status no item
    has is absent from the object and shown as 0), and the number displayed
    as completion percentage is [Math.round] of the binary64 value of
    [((total - pending) / total) * 100] on those numbers. For every
    non-empty list (an array has fewer than 2^32 elements) that number is an
    integer between 0 and 100 closest to [100 * (total - pending) / total],
    and it is 100 when no item is pending, as in the example of five items
    marked three good, one bad and one flagged. *)
Theorem completion_statistics (l : list InspectionItem) :
  let total := Z.of_nat (length l) in
  let done := (total - Z.of_nat (count_status pending l))%Z in
  (forall k, stat l k = count_status k l
             /\ stats l !! k =
                if count_status k l =? 0 then None else Some (count_status k l))
  /\ progress_percentage l = percent_of done total
  /\ (l <> [] -> (total < 2 ^ 32)%Z ->
      exists p, as_integer (progress_percentage l) = Some p
                /\ (0 <= p <= 100)%Z /\ nearest_percent p done total)
  /\ (l <> [] -> (total < 2 ^ 32)%Z -> count_status pending l = 0 ->
      as_integer (progress_percentage l) = Some 100%Z).
Proof.
  intros total done.
  assert (Hle := count_status_le pending l).
  assert (Near : l <> [] -> (total < 2 ^ 32)%Z ->
            exists p, as_integer (progress_percentage l) = Some p
                      /\ (0 <= p <= 100)%Z /\ nearest_percent p done total).
  { intros Hne Hlt. rewrite progress_percentage_counts.
    apply percent_nearest; subst total done; [lia|].
    destruct l; [congruence|]. cbn [length] in *. lia. }
  split; [intros k; split; [apply stat_count|apply stats_lookup]|].
  split; [apply progress_percentage_counts|].
  split; [exact Near|].
  intros Hne Hlt H0. destruct (Near Hne Hlt) as (p & Hp & _ & Hn).
  rewrite Hp. f_equal. unfold nearest_percent in Hn.
  assert (Hpos : (0 < total)%Z).
  { subst total. destruct l; [congruence|]. cbn [length]. lia. }
  assert (Hd : done = total) by (subst done; lia).
  rewrite Hd in Hn. nia.
Qed.

(** *** Instances *)

Definition sample_email : jsstring := lit "student@npc.rw".

Definition sample_clock : Clock :=
  {| localeDate := lit "11/2/2026"; isoNow := lit "2026-11-02T08:00:00.000Z" |}.

Definition sample_form (l : list InspectionItem) : State :=
  {| items := l; isLoading := false; isSubmitting := false;
     generalComment := lit "All checked."; studentEmail := sample_email |}.

(** One item still pending, another marked bad with an empty comment. *)
Definition unfinished_items : list InspectionItem :=
  [ fallback_item "1" "Classroom Cleanliness" "";
    with_status bad (fallback_item "2" "Furniture Condition" "") ].

Definition accepting : World State SubmitRequest (Fetched SubmitBody) :=
  quiet (fun _ => Resolved 200
                    (Some {| sub_success := true; sub_message := None |})).



Lemma example_marked :
  Forall (fun item => status item <> pending) example_items.
Proof. repeat constructor; discriminate. Defined.

Lemma example_commented :
  Forall (fun item => ~ offending item) example_items.
Proof.
  repeat constructor; intros [[H|H] B]; try discriminate H;
    apply trim_falsy_blank in B; discriminate B.
Defined.


Lemma example_passes : passes (sample_form example_items).
Proof.
  unfold passes. split; [exact example_marked|].
  split; [exact example_commented|discriminate].
Defined.


(** The example of the specification shows 100. *)
Lemma completion_statistics_witness :
  example_items <> []
  /\ (Z.of_nat (length example_items) < 2 ^ 32)%Z
  /\ count_status pending example_items = 0
  /\ as_integer (progress_percentage example_items) = Some 100%Z.
Proof.
  assert (H1 : example_items <> []) by discriminate.
  assert (H2 : (Z.of_nat (length example_items) < 2 ^ 32)%Z) by reflexivity.
  assert (H3 : count_status pending example_items = 0) by reflexivity.
  split; [exact H1|]. split; [exact H2|]. split; [exact H3|].
  exact (proj2 (proj2 (proj2 (completion_statistics example_items)))
           H1 H2 H3).
Defined.

(** *** Where the specification and the code differ *)

(** C8 at the empty list, which is the items state after a catalog fetch
    that threw: the number displayed as percentage is NaN, no integer. *)
Lemma empty_list_percentage :
  items (state (run (quiet (fun _ => Rejected)) fetchItems initial)) = []
  /\ progress_percentage [] = S754_nan
  /\ as_integer (progress_percentage []) = None.
Proof. repeat split. Qed.


Section LocalHandlers.
Context {Req Resp : Type}.
Variable w : World State Req Resp.

Lemma run_handleStatusChange itemId s st :
  run w (handleStatusChange (Req:=Req) (Resp:=Resp) itemId s) st =
  {| result := Some tt;
     state := setItems (edit itemId (with_status s)) st;
     actions := [] |}.
Proof. reflexivity. Qed.

Lemma run_handleCommentChange itemId c st :
  run w (handleCommentChange (Req:=Req) (Resp:=Resp) itemId c) st =
  {| result := Some tt;
     state := setItems (edit itemId (with_comment c)) st;
     actions := [] |}.
Proof. reflexivity. Qed.

(** C10. [handleStatusChange(id, status)] and [handleCommentChange(id, text)]
    make no network call and emit nothing; they touch the items cell only;
    item by item, the one whose identifier equals [id] gets the new status
    (resp. comment): afterwards its status is [status] (resp. its comment is
    [text]) and its identifier, name, description and comment (resp. status)
    are what they were; every other item is kept as it is; so with pairwise
    distinct identifiers exactly the position of the matching item is
    rewritten, and when no item has the identifier the whole state is
    unchanged. *)
Theorem local_edits_frame (itemId : jsstring) (s : Status) (c : jsstring)
  (st : State) :
  let r1 := run w (handleStatusChange (Req:=Req) (Resp:=Resp) itemId s) st in
  let r2 := run w (handleCommentChange (Req:=Req) (Resp:=Resp) itemId c) st in
  (actions r1 = [] /\ actions r2 = [])
  /\ (state r1 = setItems (fun _ => items (state r1)) st
      /\ state r2 = setItems (fun _ => items (state r2)) st)
  /\ (length (items (state r1)) = length (items st)
      /\ length (items (state r2)) = length (items st))
  /\ (forall i item, items st !! i = Some item ->
        items (state r1) !! i =
          Some (if decide (id item = itemId) then with_status s item else item)
        /\ items (state r2) !! i =
          Some (if decide (id item = itemId) then with_comment c item else item))
  /\ (forall i item, items st !! i = Some item -> id item = itemId ->
        exists marked noted,
          items (state r1) !! i = Some marked
          /\ items (state r2) !! i = Some noted
          /\ (status marked = s /\ comment marked = comment item
              /\ id marked = id item /\ name marked = name item
              /\ description marked = description item)
          /\ (comment noted = c /\ status noted = status item
              /\ id noted = id item /\ name noted = name item
              /\ description noted = description item))
  /\ (forall i item, items st !! i = Some item -> id item <> itemId ->
        items (state r1) !! i = Some item /\ items (state r2) !! i = Some item)
  /\ (NoDup (List.map id (items st)) ->
      forall i item, items st !! i = Some item -> id item = itemId ->
        items (state r1) = <[i := with_status s item]> (items st)
        /\ items (state r2) = <[i := with_comment c item]> (items st))
  /\ (Forall (fun item => id item <> itemId) (items st) ->
      state r1 = st /\ state r2 = st).
Proof.
  intros r1 r2; subst r1 r2.
  rewrite run_handleStatusChange, run_handleCommentChange.
  cbn [state actions items setItems].
  split; [split; reflexivity|].
  split; [split; reflexivity|].
  split; [split; apply edit_length|].
  split; [|split; [|split; [|split]]].
  - intros i item Hi.
    rewrite !edit_lookup, Hi.
    cbn [fmap option_fmap option_map].
    destruct (decide (id item = itemId)) as [He|He].
    + apply str_eqb_eq in He. rewrite He. split; reflexivity.
    + apply str_eqb_neq in He. rewrite He. split; reflexivity.
  - intros i item Hi He. exists (with_status s item), (with_comment c item).
    rewrite !edit_lookup, Hi. cbn [fmap option_fmap option_map].
    apply str_eqb_eq in He. rewrite He.
    split; [reflexivity|]. split; [reflexivity|].
    destruct item as [i0 n0 d0 s0 c0]. repeat split.
  - intros i item Hi He.
    rewrite !edit_lookup, Hi. cbn [fmap option_fmap option_map].
    apply str_eqb_neq in He. rewrite He. split; reflexivity.
  - intros Hnd i item Hi Hid. split.
    + apply edit_single; auto.
    + apply edit_single; auto.
  - intros Habs. unfold setItems.
    rewrite !edit_absent by assumption.
    split; destruct st; reflexivity.
Qed.

End LocalHandlers.

(** Two items with distinct identifiers: editing "2" rewrites the second
    position only, whose status becomes good with its name kept; editing "9"
    changes nothing. *)
Lemma local_edits_frame_witness :
  (NoDup (List.map id unfinished_items)
   /\ items (state (run accepting
              (handleStatusChange (lit "2") good) (sample_form unfinished_items)))
      = <[1 := with_status good
                (with_status bad (fallback_item "2" "Furniture Condition" ""))]>
          unfinished_items)
  /\ (exists marked noted,
        items (state (run accepting (handleStatusChange (lit "2") good)
                        (sample_form unfinished_items))) !! 1 = Some marked
        /\ items (state (run accepting
                           (handleCommentChange (lit "2") (lit "wobbly"))
                           (sample_form unfinished_items))) !! 1 = Some noted
        /\ status marked = good /\ name marked = lit "Furniture Condition"
        /\ comment noted = lit "wobbly" /\ status noted = bad)
  /\ (Forall (fun item => id item <> lit "9") unfinished_items
      /\ state (run accepting (handleCommentChange (lit "9") (lit "dusty"))
                 (sample_form unfinished_items))
         = sample_form unfinished_items).
Proof.
  assert (H : NoDup (List.map id unfinished_items)).
  { apply NoDup_ListNoDup. repeat constructor; simpl; intuition discriminate. }
  assert (A : Forall (fun item => id item <> lit "9") unfinished_items)
    by (repeat constructor; discriminate).
  split; [split; [exact H|]|split; [|split; [exact A|]]].
  - pose proof (local_edits_frame accepting (lit "2") good []
                  (sample_form unfinished_items)) as F.
    cbv zeta in F. destruct F as (_ & _ & _ & _ & _ & _ & F & _).
    exact (proj1 (F H 1 _ eq_refl eq_refl)).
  - pose proof (local_edits_frame accepting (lit "2") good (lit "wobbly")
                  (sample_form unfinished_items)) as F.
    cbv zeta in F. destruct F as (_ & _ & _ & _ & F & _).
    destruct (F 1 _ eq_refl eq_refl)
      as (marked & noted & M & N & (M1 & _ & _ & M4 & _)
          & (N1 & N2 & _)).
    exists marked, noted. split; [exact M|]. split; [exact N|].
    split; [exact M1|]. split; [exact M4|]. split; [exact N1|exact N2].
  - pose proof (local_edits_frame accepting (lit "9") good (lit "dusty")
                  (sample_form unfinished_items)) as F.
    cbv zeta in F. destruct F as (_ & _ & _ & _ & _ & _ & _ & F).
    exact (proj2 (F A)).
Defined.

End SubmitProps.

(** ** The report list view *)

Module ReportProps.
Import Js Async Async.Notations ReportPage JsProps.

Lemma filter_eqb_eq (a b : FilterType) : filter_eqb a b = true <-> a = b.
Proof. destruct a, b; simpl; split; congruence. Qed.

Lemma filter_eqb_neq (a b : FilterType) : a <> b -> filter_eqb a b = false.
Proof. intros H. apply not_true_is_false. rewrite filter_eqb_eq. exact H. Qed.

(** The notifications among the effects of a run. *)
Definition is_toast (e : Effect) : bool :=
  match e with
  | ToastError _ _ | ToastSuccess _ _ => true
  | ConsoleLog _ | ConsoleError _ => false
  end.

Definition toasts {A} (r : Run State Effect ListRequest A) : list Effect :=
  List.filter is_toast (effects r).

(** The list is emptied and the pagination is the default one. *)
Definition cleared (st : State) : Prop :=
  reports st = [] /\ pagination st = default_pagination.

(** *** [fetchReports], answer by answer *)

Section FetchReports.
Variable w : World State ListRequest (Fetched ListBody).
Variables (email : jsstring) (filter : FilterType) (search : jsstring) (page : Z).
Variable st : State.

Let request := params email filter search page.
Let r := run w (fetchReports email filter search page) st.

(** Without an identity nothing is requested and nothing changes. *)
Lemma fetchReports_gated :
  email = [] ->
  r = {| result := Some tt; state := st;
         actions := [Emitted (ConsoleLog (lit "Student email not available yet"))] |}.
Proof. intros E. subst r. rewrite E. reflexivity. Qed.

Lemma fetchReports_outcomes :
  email <> [] ->
  requests r = [request]
  /\ loading (state r) = false
  /\ match respond w request with
     | Rejected => cleared (state r) /\ toasts r = [load_failure_toast]
     | Resolved status body =>
         if (status =? 404)%Z then cleared (state r) /\ toasts r = []
         else if negb (ok (Resolved status body))
         then cleared (state r) /\ toasts r = [load_failure_toast]
         else
           match body with
           | None => cleared (state r) /\ toasts r = [load_failure_toast]
           | Some b =>
               match list_success b, list_data b with
               | true, Some data =>
                   reports (state r) = default [] (data_reports data)
                   /\ pagination (state r) =
                      default default_pagination (data_pagination data)
                   /\ toasts r = []
               | _, _ => cleared (state r) /\ toasts r = []
               end
           end
     end.
Proof using Type*.
  intros He. subst r. unfold fetchReports, clear_list.
  rewrite (falsy_false _ He).
  cbn [bind update emit run try_catch finally await]. fold request.
  destruct (respond w request) as [|status body];
    cbn [bind update emit run try_catch finally].
  - repeat split; reflexivity.
  - destruct (status =? 404)%Z;
      cbn [bind update emit run try_catch finally];
      [repeat split; reflexivity|].
    destruct (negb (ok (Resolved status body)));
      cbn [bind update emit run try_catch finally];
      [repeat split; reflexivity|].
    destruct body as [b|];
      cbn [bind update emit run try_catch finally];
      [|repeat split; reflexivity].
    destruct (list_success b), (list_data b) as [data|];
      cbn [bind update emit run try_catch finally];
      try (repeat split; reflexivity).
    destruct (length (default [] (data_reports data)) =? 0)%nat;
      cbn [bind update emit run try_catch finally];
      repeat split; reflexivity.
Qed.

End FetchReports.

(** C6. When the listing request is answered with status 404, [fetchReports]
    leaves [reports] empty and [pagination] equal to
    [{currentPage: 1, totalPages: 1, totalReports: 0, hasNext: false,
    hasPrev: false}], shows no notification (its effects are three console
    lines) and ends with [loading] false. *)
Theorem fetchReports_not_found
  (w : World State ListRequest (Fetched ListBody))
  (email : jsstring) (filter : FilterType) (search : jsstring) (page : Z)
  (st : State) (body : option ListBody) :
  email <> [] ->
  respond w (params email filter search page) = Resolved 404 body ->
  let r := run w (fetchReports email filter search page) st in
  reports (state r) = []
  /\ pagination (state r) =
     {| currentPage := 1; totalPages := 1; totalReports := 0;
        hasNext := false; hasPrev := false |}
  /\ toasts r = []
  /\ (forall e, In e (effects r) -> exists label, e = ConsoleLog label)
  /\ loading (state r) = false.
Proof.
  intros He Hr r.
  destruct (fetchReports_outcomes w email filter search page st He)
    as (_ & Hl & H).
  rewrite Hr in H. cbn [Z.eqb Pos.eqb] in H. destruct H as ((Hrep & Hpag) & Ht).
  repeat split; try assumption.
  subst r. unfold fetchReports, clear_list. rewrite (falsy_false _ He).
  cbn [bind update emit run try_catch finally await]. rewrite Hr.
  cbn [Z.eqb Pos.eqb bind update emit run try_catch finally].
  intros e [<-|[<-|[]]]; eexists; reflexivity.
Qed.

(** C2, as the code has it. An answer with a 2xx status whose body has
    [success] false empties [reports] and resets [pagination] to the default;
    it shows no notification: the failure is written to the console only. *)
Theorem fetchReports_reported_failure
  (w : World State ListRequest (Fetched ListBody))
  (email : jsstring) (filter : FilterType) (search : jsstring) (page : Z)
  (st : State) (status : Z) (body : ListBody) :
  email <> [] ->
  (200 <= status <= 299)%Z ->
  list_success body = false ->
  respond w (params email filter search page) = Resolved status (Some body) ->
  let r := run w (fetchReports email filter search page) st in
  reports (state r) = []
  /\ pagination (state r) = default_pagination
  /\ toasts r = []
  /\ In (ConsoleLog (lit "API returned failure:")) (effects r)
  /\ loading (state r) = false.
Proof.
  intros He Hs Hb Hr r.
  destruct (fetchReports_outcomes w email filter search page st He)
    as (_ & Hl & H).
  rewrite Hr in H.
  assert (H404 : (status =? 404)%Z = false) by (apply Z.eqb_neq; lia).
  assert (Hok : ok (Resolved status (Some body)) = true).
  { unfold ok. apply andb_true_iff. split; apply Z.leb_le; lia. }
  rewrite H404, Hok, Hb in H. cbn [negb] in H.
  destruct H as ((Hrep & Hpag) & Ht).
  repeat split; try assumption.
  subst r. unfold fetchReports, clear_list. rewrite (falsy_false _ He).
  cbn [bind update emit run try_catch finally await]. rewrite Hr, H404.
  unfold ok in Hok. unfold ok. rewrite Hok.
  cbn [negb bind update emit run try_catch finally]. rewrite Hb.
  destruct (list_data body);
    cbn [bind update emit run try_catch finally];
    right; right; left; reflexivity.
Qed.


(** *** The pagination invariant *)

Lemma default_pagination_ok : pagination_ok default_pagination.
Proof.
  unfold pagination_ok, default_pagination; simpl.
  repeat split; intros; try lia; try discriminate.
Qed.

(** The pagination a listing answer makes [fetchReports] install: the one of
    a 2xx answer with [success] and [data], and none otherwise. *)
Definition supplied (reply : Fetched ListBody) : option PaginationInfo :=
  match reply with
  | Resolved status (Some b) =>
      if negb (status =? 404)%Z && ok reply && list_success b
      then match list_data b with
           | Some data => data_pagination data
           | None => None
           end
      else None
  | _ => None
  end.

Definition well_formed (reply : Fetched ListBody) : Prop :=
  forall p, supplied reply = Some p -> pagination_ok p.

Ltac by_cleared H :=
  let E := fresh in destruct H as [[_ E] _]; rewrite E; reflexivity.

(** After one run of [fetchReports] the pagination is the one supplied by
    the answer, the default one, or (without an identity) the previous one. *)
Lemma fetchReports_pagination (reply : Fetched ListBody)
  (email : jsstring) (filter : FilterType) (search : jsstring) (page : Z)
  (st : State) :
  let r := run (quiet (fun _ => reply)) (fetchReports email filter search page) st in
  pagination (state r) =
  if falsy email then pagination st
  else default default_pagination (supplied reply).
Proof.
  intros r. destruct email as [|c email].
  - reflexivity.
  - assert (He : c :: email <> []) by discriminate.
    destruct (fetchReports_outcomes (quiet (fun _ => reply))
                (c :: email) filter search page st He) as (_ & _ & H).
    fold r in H. cbn [respond quiet] in H. cbn [falsy].
    destruct reply as [|status body]; [by_cleared H|].
    unfold supplied.
    destruct (status =? 404)%Z; cbn [negb andb];
      [destruct body; by_cleared H|].
    destruct (ok (Resolved status body)); cbn [negb andb] in *;
      [|destruct body; by_cleared H].
    destruct body as [b|]; [|by_cleared H].
    destruct (list_success b), (list_data b) as [data|]; try by_cleared H.
    destruct H as (_ & -> & _). reflexivity.
Qed.

Lemma fetchReports_keeps_invariant (reply : Fetched ListBody)
  (email : jsstring) (filter : FilterType) (search : jsstring) (page : Z)
  (st : State) :
  pagination_ok (pagination st) -> well_formed reply ->
  pagination_ok (pagination (state
    (run (quiet (fun _ => reply)) (fetchReports email filter search page) st))).
Proof.
  intros Hst Hr. rewrite fetchReports_pagination.
  destruct (falsy email); [exact Hst|].
  destruct (supplied reply) as [p|] eqn:E; cbn [default].
  - apply Hr. exact E.
  - apply default_pagination_ok.
Qed.

(** The events of a session whose listing answers carry a pagination that
    satisfies the invariant. *)
Definition event_ok (e : Event) : Prop :=
  match e with
  | PageChange _ reply | Elapse _ reply => well_formed reply
  | _ => True
  end.

Lemma step_keeps_invariant (s : Session) (e : Event) :
  pagination_ok (pagination (view s)) -> event_ok e ->
  pagination_ok (pagination (view (step s e))).
Proof.
  intros Hs He. destruct e as [email|f|q|newPage reply|ms reply];
    cbn [step event_ok] in *.
  - destruct (str_eqb email (studentEmail (view s))); exact Hs.
  - destruct (filter_eqb f (activeFilter (view s))); exact Hs.
  - destruct (str_eqb q (searchQuery (view s))); exact Hs.
  - unfold perform, handlePageChange. cbn [view].
    destruct ((1 <=? newPage)%Z && (newPage <=? totalPages (pagination (view s)))%Z).
    + apply fetchReports_keeps_invariant; assumption.
    + exact Hs.
  - destruct (timer s) as [t|]; [|exact Hs].
    destruct (due t <=? clock s + ms); [|exact Hs].
    unfold perform, fire. cbn [view].
    apply fetchReports_keeps_invariant; assumption.
Qed.

(** C9, as the code has it. The pagination state satisfies the invariant
    (current page within [1, totalPages] when totalPages >= 1, hasPrev iff
    currentPage > 1, hasNext iff currentPage < totalPages) in the initial
    state and after every sequence of events (identity read, filter change,
    search change, page change, timer firing), provided every pagination
    object a successful listing answer carries satisfies it: the view
    installs the server's object as it is, and its own default otherwise. *)
Theorem pagination_invariant (es : list Event) :
  Forall event_ok es ->
  pagination_ok (pagination (view (steps mounted es))).
Proof.
  unfold steps.
  assert (G : forall s, pagination_ok (pagination (view s)) ->
              Forall event_ok es ->
              pagination_ok (pagination (view (fold_left step es s)))).
  { induction es as [|e es IH]; intros s Hs Hes; [exact Hs|].
    apply Forall_cons in Hes as [He Hes]. cbn [fold_left].
    apply IH; [|exact Hes]. apply step_keeps_invariant; assumption. }
  apply G. apply default_pagination_ok.
Qed.


(** *** The fetch effect and the debounce timer *)

Lemma debounce_cases (q : jsstring) :
  (q = [] -> debounce q = 0) /\ (q <> [] -> debounce q = 500).
Proof.
  unfold debounce. destruct q; cbn [falsy]; split; intros H;
    try reflexivity; try discriminate H.
  destruct H; reflexivity.
Qed.

(** Firing a timer makes exactly the listing request of its arguments, for
    page 1. *)
Lemma fire_requests (net : ListRequest -> Fetched ListBody) (t : Timer) (st : State) :
  timer_email t <> [] ->
  requests (run (quiet net) (fire t) st) =
  [params (timer_email t) (timer_filter t) (timer_search t) 1].
Proof.
  intros He. unfold fire.
  destruct (fetchReports_outcomes (quiet net) (timer_email t) (timer_filter t)
              (timer_search t) 1 st He) as (H & _). exact H.
Qed.

(** The list handlers never write the cells the effect depends on. *)
Lemma fetchReports_keeps_deps (net : ListRequest -> Fetched ListBody)
  email filter search page (st : State) :
  let st' := state (run (quiet net) (fetchReports email filter search page) st) in
  studentEmail st' = studentEmail st
  /\ activeFilter st' = activeFilter st
  /\ searchQuery st' = searchQuery st.
Proof.
  cbv zeta. unfold fetchReports, clear_list. destruct (falsy email).
  - repeat split; reflexivity.
  - cbn [bind update emit run try_catch finally await quiet respond meanwhile].
    destruct (net (params email filter search page)) as [|status body];
      cbn [bind update emit run try_catch finally];
      [repeat split; reflexivity|].
    destruct (status =? 404)%Z;
      cbn [bind update emit run try_catch finally];
      [repeat split; reflexivity|].
    destruct (negb (ok (Resolved status body)));
      cbn [bind update emit run try_catch finally];
      [repeat split; reflexivity|].
    destruct body as [b|];
      cbn [bind update emit run try_catch finally];
      [|repeat split; reflexivity].
    destruct (list_success b), (list_data b) as [data|];
      cbn [bind update emit run try_catch finally];
      try (repeat split; reflexivity).
    destruct (length (default [] (data_reports data)) =? 0)%nat;
      cbn [bind update emit run try_catch finally];
      repeat split; reflexivity.
Qed.

(** Time passing over a pending timer of the effect. *)
Lemma elapse_pending (s : Session) (t : Timer) (ms : nat) reply :
  timer s = Some t -> timer_email t <> [] ->
  let s' := step s (Elapse ms reply) in
  clock s' = clock s + ms
  /\ studentEmail (view s') = studentEmail (view s)
  /\ activeFilter (view s') = activeFilter (view s)
  /\ searchQuery (view s') = searchQuery (view s)
  /\ sent s' = sent s ++
       (if due t <=? clock s + ms
        then [(due t, params (timer_email t) (timer_filter t) (timer_search t) 1)]
        else []).
Proof.
  intros Ht He. cbn [step]. rewrite Ht.
  destruct (due t <=? clock s + ms).
  - unfold perform. cbn [clock view sent].
    rewrite (fire_requests _ t _ He). cbn [List.map].
    split; [reflexivity|].
    destruct (fetchReports_keeps_deps (fun _ => reply) (timer_email t)
                (timer_filter t) (timer_search t) 1 (view s)) as (A & B & C).
    repeat split; assumption.
  - cbn [clock view sent]. rewrite app_nil_r. repeat split.
Qed.

(** C3, as the code has it. With an identity present, changing the active
    filter cancels the pending timer and schedules one re-fetch with the new
    filter, the current search string and page 1; its delay is that of the
    search string: none when the search string is empty, the 500 ms debounce
    window when it is not. So the request has gone out after [ms]
    milliseconds exactly when [ms] reaches that delay. *)
Theorem filter_change_refetch (s : Session) (f : FilterType) (ms : nat)
  (reply : Fetched ListBody) :
  studentEmail (view s) <> [] ->
  f <> activeFilter (view s) ->
  let q := searchQuery (view s) in
  let s1 := step s (FilterChange f) in
  let s2 := step s1 (Elapse ms reply) in
  activeFilter (view s1) = f
  /\ timer s1 = Some {| due := clock s + debounce q;
                        timer_email := studentEmail (view s);
                        timer_filter := f; timer_search := q |}
  /\ sent s1 = sent s
  /\ sent s2 = sent s ++
       (if debounce q <=? ms
        then [(clock s + debounce q, params (studentEmail (view s)) f q 1)]
        else [])
  /\ q_page (params (studentEmail (view s)) f q 1) = 1%Z
  /\ (q = [] -> debounce q = 0)
  /\ (q <> [] -> debounce q = 500).
Proof.
  intros He Hf q s1 s2.
  assert (E1 : s1 = rerun s (setActiveFilter f (view s))).
  { subst s1. cbn [step]. rewrite (filter_eqb_neq _ _ Hf). reflexivity. }
  assert (T1 : timer s1 = Some {| due := clock s + debounce q;
                                  timer_email := studentEmail (view s);
                                  timer_filter := f; timer_search := q |}).
  { rewrite E1. unfold rerun, fetch_effect. cbn [timer view studentEmail
      setActiveFilter searchQuery activeFilter].
    rewrite (falsy_false _ He). reflexivity. }
  split; [rewrite E1; reflexivity|].
  split; [exact T1|].
  split; [rewrite E1; reflexivity|].
  split; [|split; [reflexivity|apply debounce_cases]].
  destruct (elapse_pending s1 _ ms reply T1 He) as (_ & _ & _ & _ & H).
  fold s2 in H. rewrite H. rewrite E1. cbn [sent rerun clock due timer_email
    timer_filter timer_search].
  replace (clock s + debounce q <=? clock s + ms) with (debounce q <=? ms).
  - reflexivity.
  - destruct (Nat.leb_spec (debounce q) ms);
      destruct (Nat.leb_spec (clock s + debounce q) (clock s + ms));
      try reflexivity; lia.
Qed.

(** Typing: each keystroke sets the search text, then some time passes. *)
Definition keystroke (k : jsstring * nat * Fetched ListBody) : list Event :=
  let '(q, gap, reply) := k in [SearchChange q; Elapse gap reply].

Definition typing (keys : list (jsstring * nat * Fetched ListBody)) : list Event :=
  List.concat (List.map keystroke keys).

Definition elapsed (keys : list (jsstring * nat * Fetched ListBody)) : nat :=
  list_sum (List.map (fun k => snd (fst k)) keys).

(** Each text differs from the one before it. *)
Fixpoint changes (prev : jsstring) (qs : list jsstring) : Prop :=
  match qs with
  | [] => True
  | q :: rest => q <> prev /\ changes q rest
  end.

Lemma search_change_rerun (s : Session) (q : jsstring) :
  q <> searchQuery (view s) ->
  step s (SearchChange q) = rerun s (setSearchQuery q (view s)).
Proof.
  intros H. cbn [step]. apply str_eqb_neq in H. rewrite H. reflexivity.
Qed.

Lemma steps_app (s : Session) (a b : list Event) :
  steps s (a ++ b) = steps (steps s a) b.
Proof. apply fold_left_app. Qed.

Lemma last_nonempty {A} (a : A) (l : list A) (d d' : A) (x : A) :
  List.last (x :: a :: l) d = List.last (a :: l) d'.
Proof.
  cbn [List.last]. revert a. induction l as [|b l IH]; intros a; [reflexivity|].
  cbn [List.last] in *. apply IH.
Qed.

Lemma typing_cons q gap reply keys :
  typing ((q, gap, reply) :: keys) =
  SearchChange q :: Elapse gap reply :: typing keys.
Proof. reflexivity. Qed.

(** While the user types non-empty texts less than 500 ms apart, nothing is
    requested. *)
Lemma typing_quiet (keys : list (jsstring * nat * Fetched ListBody)) :
  forall s : Session,
  studentEmail (view s) <> [] ->
  changes (searchQuery (view s)) (List.map (fun k => fst (fst k)) keys) ->
  Forall (fun k => fst (fst k) <> [] /\ snd (fst k) < 500) keys ->
  let s' := steps s (typing keys) in
  sent s' = sent s
  /\ clock s' = clock s + elapsed keys
  /\ studentEmail (view s') = studentEmail (view s)
  /\ activeFilter (view s') = activeFilter (view s)
  /\ searchQuery (view s') =
     List.last (List.map (fun k => fst (fst k)) keys) (searchQuery (view s)).
Proof.
  induction keys as [|[[q gap] reply] keys IH]; intros s He Hc Hk.
  - cbn. repeat split. lia.
  - cbn [List.map fst snd changes] in Hc. destruct Hc as [Hq Hc].
    apply Forall_cons in Hk as [[Hne Hgap] Hk]. cbn [fst snd] in Hne, Hgap.
    rewrite typing_cons. intros s'.
    set (s1 := step s (SearchChange q)).
    assert (E1 : s1 = rerun s (setSearchQuery q (view s)))
      by (apply search_change_rerun; exact Hq).
    set (t := {| due := clock s + 500; timer_email := studentEmail (view s);
                 timer_filter := activeFilter (view s); timer_search := q |}).
    assert (T1 : timer s1 = Some t).
    { rewrite E1. unfold rerun, fetch_effect. cbn [timer view studentEmail
        setSearchQuery searchQuery activeFilter].
      rewrite (falsy_false _ He). unfold debounce.
      rewrite (falsy_false _ Hne). reflexivity. }
    destruct (elapse_pending s1 t gap reply T1 He) as (C2 & M2 & F2 & Q2 & S2).
    set (s2 := step s1 (Elapse gap reply)) in *.
    assert (Hno : (due t <=? clock s1 + gap) = false).
    { apply Nat.leb_gt. rewrite E1. cbn [due t clock rerun]. lia. }
    rewrite Hno, app_nil_r in S2.
    assert (V1 : view s1 = setSearchQuery q (view s)) by (rewrite E1; reflexivity).
    rewrite V1 in M2, F2, Q2.
    cbn [studentEmail activeFilter searchQuery setSearchQuery] in M2, F2, Q2.
    assert (He2 : studentEmail (view s2) <> []) by (rewrite M2; exact He).
    assert (Hc2 : changes (searchQuery (view s2))
                    (List.map (fun k => fst (fst k)) keys))
      by (rewrite Q2; exact Hc).
    specialize (IH s2 He2 Hc2 Hk). cbv zeta in IH.
    change (steps s (SearchChange q :: Elapse gap reply :: typing keys))
      with (steps s2 (typing keys)) in s'.
    subst s'. destruct IH as (A & B & C & D & E).
    rewrite A, B, C, D, E, S2, C2, M2, F2, Q2.
    assert (K1 : clock s1 = clock s) by (rewrite E1; reflexivity).
    assert (K2 : sent s1 = sent s) by (rewrite E1; reflexivity).
    rewrite K1, K2. unfold elapsed, list_sum.
    cbn [List.map fst snd fold_right].
    repeat split; try lia.
    destruct keys as [|k keys]; [reflexivity|].
    cbn [List.map]. symmetry. apply last_nonempty.
Qed.

(** C7. With an identity present: the user types texts [keys], each
    non-empty, each different from the one before and less than 500 ms after
    it, and then the text [q]; [wait] milliseconds later the requests made
    since the typing began are: none while [wait] is below the delay of [q],
    and exactly one afterwards, sent at the instant of the last change plus
    that delay. That request is for the final text [q]: its [search] is the
    trimmed [q] as [URLSearchParams] holds it, which is [q] itself for a
    text without surrounding white space and unpaired surrogates, and is
    absent for the empty [q]; it carries the filter and the identity of the
    page and asks for page 1. The delay is 500 ms for a non-empty [q] and
    zero for the empty one, whose request goes out at once.

    The deferral is that of non-empty texts only: the intermediate texts
    are assumed non-empty because an empty one is requested at once, so
    that a burst passing through the empty text makes a request of its own
    ([burst_through_empty_text]). *)
Theorem search_debounce (s : Session)
  (keys : list (jsstring * nat * Fetched ListBody)) (q : jsstring)
  (wait : nat) (reply : Fetched ListBody) :
  studentEmail (view s) <> [] ->
  changes (searchQuery (view s)) (List.map (fun k => fst (fst k)) keys ++ [q]) ->
  Forall (fun k => fst (fst k) <> [] /\ snd (fst k) < 500) keys ->
  let s' := steps s (typing keys ++ [SearchChange q; Elapse wait reply]) in
  let last_change := clock s + elapsed keys in
  let request :=
    params (studentEmail (view s)) (activeFilter (view s)) q 1 in
  sent s' = sent s ++
    (if debounce q <=? wait
     then [(last_change + debounce q, request)]
     else [])
  /\ (q = [] -> debounce q = 0)
  /\ (q <> [] -> debounce q = 500)
  /\ q_search request
     = (if falsy (trim q) then None else Some (to_usv (trim q)))
  /\ (q <> [] -> trim q = q -> to_usv q = q -> q_search request = Some q)
  /\ (q = [] -> q_search request = None)
  /\ q_filter request
     = (if filter_eqb (activeFilter (view s)) all then None
        else Some (activeFilter (view s)))
  /\ q_studentEmail request = to_usv (studentEmail (view s))
  /\ q_page request = 1%Z
  /\ q_limit request = lit "10".
Proof.
  intros He Hc Hk s' last_change request.
  assert (Q : q_search request
              = (if falsy (trim q) then None else Some (to_usv (trim q)))).
  { subst request. unfold params. cbn [q_search].
    destruct q; reflexivity. }
  split; [|split; [apply debounce_cases|split; [apply debounce_cases|]]].
  2: { split; [exact Q|]. split; [|split; [|repeat split]].
       - intros Hq Ht Hu. rewrite Q, Ht, (falsy_false _ Hq), Hu. reflexivity.
       - intros ->. reflexivity. }
  assert (Hc1 : changes (searchQuery (view s)) (List.map (fun k => fst (fst k)) keys)
                /\ q <> List.last (List.map (fun k => fst (fst k)) keys)
                          (searchQuery (view s))).
  { clear -Hc. generalize dependent (searchQuery (view s)).
    induction (List.map (fun k => fst (fst k)) keys) as [|a l IH]; intros p Hc.
    - cbn in *. tauto.
    - cbn [app changes] in Hc. destruct Hc as [Ha Hc].
      destruct (IH a Hc) as [H1 H2]. split; [split; assumption|].
      destruct l; [exact H2|].
      rewrite (last_nonempty _ _ p a). exact H2. }
  destruct Hc1 as [Hc1 Hq].
  destruct (typing_quiet keys s He Hc1 Hk) as (A & B & C & D & E).
  subst s'. rewrite steps_app.
  set (s0 := steps s (typing keys)) in *.
  change (steps s0 [SearchChange q; Elapse wait reply])
    with (step (step s0 (SearchChange q)) (Elapse wait reply)).
  rewrite <- E in Hq.
  set (s1 := step s0 (SearchChange q)).
  assert (E1 : s1 = rerun s0 (setSearchQuery q (view s0)))
    by (apply search_change_rerun; exact Hq).
  set (t := {| due := clock s0 + debounce q; timer_email := studentEmail (view s0);
               timer_filter := activeFilter (view s0); timer_search := q |}).
  assert (He0 : studentEmail (view s0) <> []) by (rewrite C; exact He).
  assert (T1 : timer s1 = Some t).
  { rewrite E1. unfold rerun, fetch_effect. cbn [timer view studentEmail
      setSearchQuery searchQuery activeFilter].
    rewrite (falsy_false _ He0). reflexivity. }
  destruct (elapse_pending s1 t wait reply T1 He0) as (_ & _ & _ & _ & S2).
  rewrite S2. rewrite E1. cbn [sent rerun clock due t timer_email timer_filter
    timer_search]. rewrite A, B, C, D. fold last_change. fold request.
  replace (last_change + debounce q <=? last_change + wait)
    with (debounce q <=? wait).
  - reflexivity.
  - destruct (Nat.leb_spec (debounce q) wait);
      destruct (Nat.leb_spec (last_change + debounce q) (last_change + wait));
      try reflexivity; lia.
Qed.


(** *** Instances *)

Definition sample_email : jsstring := lit "student@npc.rw".

Definition not_found : Fetched ListBody := Resolved 404 None.

Definition refused : Fetched ListBody :=
  Resolved 200 (Some {| list_success := false; list_data := None |}).

Definition page_of (current total : Z) (next prev : bool) : Fetched ListBody :=
  Resolved 200
    (Some {| list_success := true;
             list_data :=
               Some {| data_reports := None;
                       data_pagination :=
                         Some {| currentPage := current; totalPages := total;
                                 totalReports := 15; hasNext := next;
                                 hasPrev := prev |} |} |}).

(** The page once the identity has been read and the first listing made. *)
Definition loaded : Session :=
  steps mounted [IdentityRead sample_email; Elapse 0 not_found].

(** The same with "roof" typed in the search box and its listing made. *)
Definition searching : Session :=
  steps loaded [SearchChange (lit "roof"); Elapse 500 not_found].

Lemma sample_email_present : sample_email <> [].
Proof. discriminate. Defined.

Lemma fetchReports_not_found_witness :
  sample_email <> []
  /\ let r := run (quiet (fun _ => not_found))
                (fetchReports sample_email all [] 1) initial in
     reports (state r) = [] /\ pagination (state r) = default_pagination
     /\ toasts r = [].
Proof.
  split; [exact sample_email_present|].
  destruct (fetchReports_not_found (quiet (fun _ => not_found)) sample_email
              all [] 1 initial None sample_email_present eq_refl)
    as (H1 & H2 & H3 & _).
  cbv zeta. repeat split; assumption.
Defined.

Lemma fetchReports_reported_failure_witness :
  sample_email <> [] /\ (200 <= 200 <= 299)%Z
  /\ let r := run (quiet (fun _ => refused))
                (fetchReports sample_email all [] 1) initial in
     reports (state r) = [] /\ pagination (state r) = default_pagination
     /\ toasts r = [].
Proof.
  assert (Hs : (200 <= 200 <= 299)%Z) by lia.
  split; [exact sample_email_present|]. split; [exact Hs|].
  destruct (fetchReports_reported_failure (quiet (fun _ => refused)) sample_email
              all [] 1 initial 200
              {| list_success := false; list_data := None |}
              sample_email_present Hs eq_refl eq_refl)
    as (H1 & H2 & H3 & _).
  cbv zeta. repeat split; assumption.
Defined.

Lemma page_of_well_formed : well_formed (page_of 2 3 true true).
Proof.
  intros p [= <-]. unfold pagination_ok; simpl.
  repeat split; intros; try lia; reflexivity.
Defined.

Lemma pagination_invariant_witness :
  Forall event_ok [IdentityRead sample_email; Elapse 0 (page_of 2 3 true true)]
  /\ pagination_ok (pagination (view
       (steps mounted [IdentityRead sample_email;
                       Elapse 0 (page_of 2 3 true true)]))).
Proof.
  assert (H : Forall event_ok
                [IdentityRead sample_email; Elapse 0 (page_of 2 3 true true)]).
  { constructor; [exact I|].
    constructor; [exact page_of_well_formed|constructor]. }
  split; [exact H|]. exact (pagination_invariant _ H).
Defined.

Lemma loaded_identity : studentEmail (view loaded) <> [].
Proof. discriminate. Defined.

Lemma filter_change_refetch_witness :
  studentEmail (view loaded) <> [] /\ daily <> activeFilter (view loaded)
  /\ sent (steps loaded [FilterChange daily; Elapse 0 not_found]) =
     sent loaded ++ [(0, params sample_email daily [] 1)].
Proof.
  assert (Hf : daily <> activeFilter (view loaded)) by discriminate.
  split; [exact loaded_identity|]. split; [exact Hf|].
  destruct (filter_change_refetch loaded daily 0 not_found loaded_identity Hf)
    as (_ & _ & _ & H & _).
  exact H.
Defined.

Lemma search_debounce_witness :
  studentEmail (view loaded) <> []
  /\ sent (steps loaded
             (typing [(lit "r", 120, not_found); (lit "ro", 90, not_found);
                      (lit "roo", 200, not_found)]
              ++ [SearchChange (lit "roof"); Elapse 500 not_found])) =
     sent loaded ++
       [(910, {| q_studentEmail := lit "student@npc.rw"; q_page := 1;
                 q_limit := lit "10"; q_filter := None;
                 q_search := Some (lit "roof") |})].
Proof.
  split; [exact loaded_identity|].
  refine (proj1 (search_debounce loaded
            [(lit "r", 120, not_found); (lit "ro", 90, not_found);
             (lit "roo", 200, not_found)]
            (lit "roof") 500 not_found loaded_identity _ _)).
  - simpl. repeat split; discriminate.
  - repeat constructor; simpl; try discriminate; lia.
Defined.

(** A burst that passes through the empty text: "r", then the box cleared
    50 ms later, then "ro" 50 ms later. The empty text is requested at
    once, and "ro" 500 ms after it was typed: two requests. *)
Example burst_through_empty_text :
  List.map (fun tq => (fst tq, q_search (snd tq)))
    (skipn (length (sent loaded))
       (sent (steps loaded
                (typing [(lit "r", 50, not_found); ([], 50, not_found)]
                 ++ [SearchChange (lit "ro"); Elapse 500 not_found]))))
  = [(50, None); (600, Some (lit "ro"))].
Proof. vm_compute. reflexivity. Qed.

(** *** Where the specification and the code differ *)

(** C2: a 200 answer with [success] false shows no failure notification. *)
Lemma reported_failure_is_silent :
  let r := run (quiet (fun _ => refused))
             (fetchReports sample_email all [] 1) initial in
  requests r = [params sample_email all [] 1]
  /\ ~ (exists title description, In (ToastError title description) (effects r)).
Proof.
  split; [reflexivity|].
  intros (title & description & H). simpl in H.
  repeat destruct H as [H|H]; try discriminate H. exact H.
Qed.

(** C3: with "roof" in the search box, 499 ms after the filter was changed
    to daily no request has been made yet; it goes out at 500 ms. *)
Lemma filter_change_is_debounced :
  searchQuery (view searching) = lit "roof"
  /\ sent (steps searching [FilterChange daily; Elapse 0 not_found])
     = sent searching
  /\ sent (steps searching [FilterChange daily; Elapse 499 not_found])
     = sent searching
  /\ sent (steps searching [FilterChange daily; Elapse 500 not_found])
     = sent searching ++ [(1000, params sample_email daily (lit "roof") 1)].
Proof.
  split; [|split; [|split]]; vm_compute; reflexivity.
Qed.

(** C9: the view installs whatever pagination the server sends; page 3 of 2
    with [hasPrev] false breaks every part of the invariant. *)
Lemma server_pagination_is_trusted :
  let s := steps mounted [IdentityRead sample_email;
                          Elapse 0 (page_of 3 2 true false)] in
  pagination (view s) =
    {| currentPage := 3; totalPages := 2; totalReports := 15;
       hasNext := true; hasPrev := false |}
  /\ ~ pagination_ok (pagination (view s)).
Proof.
  split; [reflexivity|].
  intros (H & _). simpl in H. lia.
Qed.


End ReportProps.

(** * Further properties *)

(** ** The submission view: editing, loading, submitting *)

Module SubmitMore.
Import Js Async Async.Notations SubmitPage SubmitView JsProps SubmitProps.

(** *** What the controls do to the items *)

Lemma form_step_items (st : State) (e : FormEvent) :
  items (form_step st e) =
  match e with
  | StatusClicked itemId s => edit itemId (with_status s) (items st)
  | CommentTyped itemId c => edit itemId (with_comment c) (items st)
  | GeneralCommentTyped _ => items st
  | MarkAllGoodClicked => List.map (with_status good) (items st)
  | ClearClicked => List.map cleared (items st)
  end.
Proof. destruct e; reflexivity. Qed.

Lemma cleared_edit itemId (f : InspectionItem -> InspectionItem) l :
  (forall x, cleared (f x) = cleared x) ->
  List.map cleared (edit itemId f l) = List.map cleared l.
Proof.
  intros Hf. unfold edit. rewrite List.map_map. apply List.map_ext.
  intros x. destruct (str_eqb (id x) itemId); [apply Hf|reflexivity].
Qed.

Lemma cleared_step (st : State) (e : FormEvent) :
  List.map cleared (items (form_step st e)) = List.map cleared (items st).
Proof.
  rewrite form_step_items. destruct e.
  - apply cleared_edit. reflexivity.
  - apply cleared_edit. reflexivity.
  - reflexivity.
  - rewrite List.map_map. reflexivity.
  - rewrite List.map_map. reflexivity.
Qed.

Lemma cleared_steps (es : list FormEvent) (st : State) :
  List.map cleared (items (form_steps st es)) = List.map cleared (items st).
Proof.
  revert st. induction es as [|e es IH]; intros st; [reflexivity|].
  unfold form_steps in *. cbn [fold_left]. rewrite IH. apply cleared_step.
Qed.

Lemma cleared_fixes (l : list InspectionItem) :
  Forall (fun item => status item = pending /\ comment item = []) l ->
  List.map cleared l = l.
Proof.
  induction 1 as [|x l [Hs Hc] _ IH]; [reflexivity|].
  cbn [List.map]. rewrite IH. f_equal.
  destruct x as [i n d s c]. cbn in Hs, Hc. subst. reflexivity.
Qed.

Lemma project_baseline (entries : list CatalogEntry) :
  Forall (fun item => status item = pending /\ comment item = [])
    (List.map project entries).
Proof. induction entries; cbn [List.map]; constructor; auto. Qed.

(** The identifiers, names and descriptions of a list, in order. *)
Definition labels (l : list InspectionItem) : list (jsstring * jsstring * jsstring) :=
  List.map (fun item => (id item, name item, description item)) l.

Lemma labels_cleared (l : list InspectionItem) :
  labels (List.map cleared l) = labels l.
Proof. unfold labels. rewrite List.map_map. reflexivity. Qed.

(** The controls of the form never add, remove or reorder items and never
    touch an identifier, a name or a description, whatever the form holds;
    and "Clear Selection" after any editing gives the list the page started
    from, when that one was all pending without comments, as a loaded
    catalog is. *)
Theorem edits_keep_catalog (st : State) (es : list FormEvent) :
  let st' := form_steps st es in
  labels (items st') = labels (items st)
  /\ length (items st') = length (items st)
  /\ (Forall (fun item => status item = pending /\ comment item = [])
        (items st) ->
      items (form_step st' ClearClicked) = items st).
Proof.
  intros st'.
  assert (E : List.map cleared (items st') = List.map cleared (items st))
    by apply cleared_steps.
  split; [|split].
  - rewrite <- (labels_cleared (items st')), E. apply labels_cleared.
  - rewrite <- (length_map cleared (items st')), E. apply length_map.
  - intros Hb. rewrite form_step_items, E. apply cleared_fixes. exact Hb.
Qed.

(** "Clear Selection" twice is "Clear Selection" once, whatever the form
    holds: the items are all pending without comments, the other cells are
    kept, and each click shows its toast. *)
Theorem clear_selection_idempotent (st : State) :
  let once := run offline handleClearSelection st in
  let twice := run offline handleClearSelection (state once) in
  state twice = state once
  /\ items (state once) = List.map cleared (items st)
  /\ Forall (fun item => status item = pending /\ comment item = [])
       (items (state once))
  /\ generalComment (state once) = generalComment st
  /\ actions twice = actions once
  /\ length (toasts once) = 1.
Proof.
  cbv zeta. cbn [run handleClearSelection bind update emit state after actions
    result].
  repeat split.
  - unfold setItems. cbn [items isLoading isSubmitting generalComment studentEmail].
    f_equal. rewrite List.map_map. reflexivity.
  - apply cleared_baseline.
Qed.

(** A status click and a comment edit commute, on the same item or on two;
    the one never changes a comment, the other never changes a status. *)
Theorem status_and_comment_commute (st : State) (a b : jsstring)
  (s : Status) (c : jsstring) :
  form_steps st [StatusClicked a s; CommentTyped b c]
  = form_steps st [CommentTyped b c; StatusClicked a s]
  /\ List.map comment (items (form_step st (StatusClicked a s)))
     = List.map comment (items st)
  /\ List.map status (items (form_step st (CommentTyped b c)))
     = List.map status (items st).
Proof.
  split; [|split].
  - unfold form_steps, form_step. cbn [fold_left run on_event handleStatusChange
      handleCommentChange update state]. unfold setItems.
    cbn [items isLoading isSubmitting generalComment studentEmail]. f_equal.
    rewrite !List.map_map. apply List.map_ext. intros x.
    destruct (str_eqb (id x) a) eqn:Ea, (str_eqb (id x) b) eqn:Eb;
      cbn [id with_status with_comment]; rewrite ?Ea, ?Eb; reflexivity.
  - rewrite form_step_items. unfold edit. rewrite List.map_map.
    apply List.map_ext. intros x. destruct (str_eqb (id x) a); reflexivity.
  - rewrite form_step_items. unfold edit. rewrite List.map_map.
    apply List.map_ext. intros x. destruct (str_eqb (id x) b); reflexivity.
Qed.

(** *** Submitting *)

Lemma count_status_none (k : Status) (l : list InspectionItem) :
  Forall (fun item => status item <> k) l -> count_status k l = 0.
Proof.
  induction 1 as [|x l Hx _ IH]; [reflexivity|].
  rewrite count_status_cons, IH.
  destruct (status_eqb (status x) k) eqn:E; [|reflexivity].
  apply status_eqb_eq in E. contradiction.
Qed.

(** The first check of [handleSubmit] that fails, if any. *)
Definition verdict (snap : State) : option Effect :=
  if List.existsb (fun item => status_eqb (status item) pending) (items snap)
  then Some incomplete_toast
  else if 0 <? length (List.filter needs_comment (items snap))
  then Some (comments_toast (length (List.filter needs_comment (items snap))))
  else if falsy (studentEmail snap) then Some authentication_toast
  else None.

Lemma verdict_passes (snap : State) : verdict snap = None <-> passes snap.
Proof.
  unfold verdict, passes. split.
  - destruct (List.existsb _ (items snap)) eqn:E1; [discriminate|].
    destruct (0 <? length (List.filter needs_comment (items snap))) eqn:E2;
      [discriminate|].
    destruct (falsy (studentEmail snap)) eqn:E3; [discriminate|]. intros _.
    split; [|split].
    + apply Forall_forall. intros x Hx Hs.
      assert (T : List.existsb (fun item => status_eqb (status item) pending)
                    (items snap) = true).
      { apply existsb_pending, Exists_exists. eauto. }
      congruence.
    + apply Forall_forall. intros x Hx Ho.
      assert (T : (0 <? length (List.filter needs_comment (items snap))) = true).
      { apply offenders_some, Exists_exists. eauto. }
      congruence.
    + intros H. rewrite H in E3. discriminate.
  - intros (Hp & Ho & He).
    rewrite (no_pending _ Hp), (offenders_none _ Ho), (falsy_false _ He).
    reflexivity.
Qed.

Lemma handleSubmit_rejected (snap : State) (now : Clock)
  (w : World State SubmitRequest (Fetched SubmitBody)) (st : State) toast :
  verdict snap = Some toast ->
  run w (handleSubmit snap now) st = rejected_with toast st.
Proof.
  unfold verdict, handleSubmit.
  destruct (List.existsb _ (items snap)); [intros [= <-]; reflexivity|].
  destruct (0 <? length (List.filter needs_comment (items snap)));
    [intros [= <-]; reflexivity|].
  destruct (falsy (studentEmail snap)); [intros [= <-]; reflexivity|].
  discriminate.
Qed.

Lemma verdict_toast (snap : State) toast :
  verdict snap = Some toast -> is_toast toast = true.
Proof.
  unfold verdict.
  destruct (List.existsb _ (items snap)); [intros [= <-]; reflexivity|].
  destruct (0 <? length (List.filter needs_comment (items snap)));
    [intros [= <-]; reflexivity|].
  destruct (falsy (studentEmail snap)); [intros [= <-]; reflexivity|].
  discriminate.
Qed.

(** The run of a form that passes the checks, whatever the answer. *)
Lemma handleSubmit_sent (snap : State) (now : Clock)
  (w : World State SubmitRequest (Fetched SubmitBody)) (st : State) :
  verdict snap = None ->
  let request := SubmitReport (payload_of snap now) in
  let r := run w (handleSubmit snap now) st in
  let form := meanwhile w request (setIsSubmitting true st) in
  result r = Some tt
  /\ requests r = [request]
  /\ length (toasts r) = 1
  /\ isSubmitting (state r) = false
  /\ isLoading (state r) = isLoading form
  /\ studentEmail (state r) = studentEmail form.
Proof.
  unfold verdict, handleSubmit.
  destruct (List.existsb _ (items snap)); [discriminate|].
  destruct (0 <? length (List.filter needs_comment (items snap)));
    [discriminate|].
  destruct (falsy (studentEmail snap)); [discriminate|]. intros _.
  cbv zeta.
  cbn [bind update run try_catch finally await json_of].
  destruct (respond w (SubmitReport (payload_of snap now))) as [|code [body|]];
    cbn [bind update emit run try_catch finally json_of];
    try (repeat split; reflexivity).
  destruct (sub_success body);
    cbn [bind update emit run try_catch finally]; repeat split; reflexivity.
Qed.

(** Every call of [handleSubmit] ends normally, whatever the server does,
    shows exactly one toast and makes at most one request: none, with the
    state untouched, when a check fails, and one when all checks pass, after
    which [isSubmitting] is false again. *)
Theorem handleSubmit_contained (snap : State) (now : Clock)
  (w : World State SubmitRequest (Fetched SubmitBody)) (st : State) :
  let r := run w (handleSubmit snap now) st in
  result r = Some tt
  /\ length (toasts r) = 1
  /\ (passes snap ->
      requests r = [SubmitReport (payload_of snap now)]
      /\ isSubmitting (state r) = false)
  /\ (~ passes snap -> requests r = [] /\ state r = st).
Proof.
  intros r. subst r. destruct (verdict snap) as [toast|] eqn:V.
  - rewrite (handleSubmit_rejected _ _ _ _ _ V).
    unfold rejected_with, toasts, effects, requests.
    cbn [result actions omap list_omap state List.filter].
    rewrite (verdict_toast _ _ V).
    split; [reflexivity|]. split; [reflexivity|]. split.
    + intros P. apply verdict_passes in P. congruence.
    + intros _. split; reflexivity.
  - destruct (handleSubmit_sent snap now w st V) as (A & B & C & D & _).
    split; [exact A|]. split; [exact C|]. split.
    + intros _. split; assumption.
    + intros N. destruct N. apply verdict_passes. exact V.
Qed.

(** The report that is sent: the items of the render that was submitted,
    its identity, the general comment or the default text when that is the
    empty string, the category ONTIME, and a summary whose good, bad and
    flagged counts are those of the items and add up to [totalItems]. *)
Theorem submitted_payload (snap : State) (now : Clock)
  (w : World State SubmitRequest (Fetched SubmitBody)) (st : State) :
  passes snap ->
  exists p,
    requests (run w (handleSubmit snap now) st) = [SubmitReport p]
    /\ evaluatedItems p = items snap
    /\ reporterEmail p = studentEmail snap /\ reporterEmail p <> []
    /\ category p = lit "ONTIME"
    /\ payloadComment p <> []
    /\ (generalComment snap <> [] -> payloadComment p = generalComment snap)
    /\ totalItems (summary p) = length (items snap)
    /\ goodItems (summary p) = count_status good (items snap)
    /\ badItems (summary p) = count_status bad (items snap)
    /\ flaggedItems (summary p) = count_status flagged (items snap)
    /\ goodItems (summary p) + badItems (summary p) + flaggedItems (summary p)
       = totalItems (summary p).
Proof.
  intros P. pose proof P as (Hp & _ & He).
  apply verdict_passes in P.
  destruct (handleSubmit_sent snap now w st P) as (_ & R & _).
  exists (payload_of snap now). split; [exact R|].
  unfold payload_of. cbn [evaluatedItems reporterEmail category payloadComment
    summary totalItems goodItems badItems flaggedItems].
  rewrite !stat_count.
  assert (H0 : count_status pending (items snap) = 0)
    by (apply count_status_none; exact Hp).
  pose proof (count_status_total (items snap)) as T.
  repeat split; try reflexivity; try assumption; try lia.
  - unfold or_else. destruct (generalComment snap); discriminate.
  - intros Hg. unfold or_else. rewrite (falsy_false _ Hg). reflexivity.
Qed.

(** After "Mark All Good" every item is good with its comment as it was,
    and with an identity present a submission passes all checks: the report
    goes out with every item counted as good. *)
Theorem mark_all_good_then_submit (st : State) (now : Clock)
  (w : World State SubmitRequest (Fetched SubmitBody)) :
  studentEmail st <> [] ->
  let marked := form_step st MarkAllGoodClicked in
  Forall (fun item => status item = good) (items marked)
  /\ List.map comment (items marked) = List.map comment (items st)
  /\ passes marked
  /\ exists p,
       requests (run w (handleSubmit marked now) marked) = [SubmitReport p]
       /\ goodItems (summary p) = length (items st)
       /\ badItems (summary p) = 0 /\ flaggedItems (summary p) = 0.
Proof.
  intros He marked.
  assert (I : items marked = List.map (with_status good) (items st))
    by apply form_step_items.
  assert (G : Forall (fun item => status item = good) (items marked)).
  { rewrite I. apply Forall_forall. intros x Hx.
    apply list_elem_of_In, in_map_iff in Hx as (y & <- & _). reflexivity. }
  assert (P : passes marked).
  { split; [|split].
    - eapply Forall_impl; [exact G|]. cbv beta. intros x ->. discriminate.
    - eapply Forall_impl; [exact G|]. cbv beta.
      intros x Hx [[H|H] _]; congruence.
    - exact He. }
  split; [exact G|]. split.
  - rewrite I, List.map_map. reflexivity.
  - split; [exact P|].
    apply verdict_passes in P.
    destruct (handleSubmit_sent marked now w marked P) as (_ & R & _).
    exists (payload_of marked now). split; [exact R|].
    unfold payload_of. cbn [summary goodItems badItems flaggedItems].
    rewrite !stat_count.
    assert (L : length (items marked) = length (items st))
      by (rewrite I; apply length_map).
    assert (N : forall k, k <> good -> count_status k (items marked) = 0).
    { intros k Hk. apply count_status_none.
      eapply Forall_impl; [exact G|]. cbv beta. intros x -> E. auto. }
    pose proof (count_status_total (items marked)) as T.
    rewrite (N bad), (N flagged), (N pending) in T by discriminate.
    rewrite (N bad), (N flagged) by discriminate.
    lia.
Qed.


(** A form without items passes every check: with an identity present an
    empty report is sent, its summary all zeros. *)
Theorem empty_form_is_submitted (snap : State) (now : Clock)
  (w : World State SubmitRequest (Fetched SubmitBody)) (st : State) :
  items snap = [] -> studentEmail snap <> [] ->
  exists p,
    requests (run w (handleSubmit snap now) st) = [SubmitReport p]
    /\ evaluatedItems p = []
    /\ totalItems (summary p) = 0 /\ goodItems (summary p) = 0
    /\ badItems (summary p) = 0 /\ flaggedItems (summary p) = 0.
Proof.
  intros Hi He.
  assert (V : verdict snap = None).
  { unfold verdict. rewrite Hi, (falsy_false _ He). reflexivity. }
  destruct (handleSubmit_sent snap now w st V) as (_ & R & _).
  exists (payload_of snap now). split; [exact R|].
  unfold payload_of. cbn [evaluatedItems summary totalItems goodItems badItems
    flaggedItems]. rewrite Hi. repeat split.
Qed.

(** *** Loading the catalog *)

Lemma project_lookup (entries : list CatalogEntry) (i : nat) :
  List.map project entries !! i = project <$> entries !! i.
Proof. apply list_lookup_fmap. Qed.

Lemma description_or_default_filled (d : option jsstring) :
  description_or_default d <> []
  /\ (forall s, d = Some s -> s <> [] -> description_or_default d = s).
Proof.
  split.
  - destruct d as [[|c s]|]; discriminate.
  - intros s -> Hs. cbn. unfold or_else. rewrite (falsy_false _ Hs).
    reflexivity.
Qed.

(** A well-shaped answer, whatever its HTTP status, gives the form one item
    per catalog entry, in order, with the entry's identifier and name,
    pending, without comment, and a description that is never empty (the
    entry's, or the default text); nothing is shown to the user; all items
    count as pending; and submitting the non-empty fresh form is rejected
    as incomplete. *)
Theorem catalog_loaded
  (w : World State CatalogRequest (Fetched CatalogBody)) (st : State)
  (code : Z) (data : CatalogBody) (entries : list CatalogEntry) :
  respond w GetAllItems = Resolved code (Some data) ->
  cat_success data = true -> cat_items data = Some entries ->
  let r := run w fetchItems st in
  let form := items (state r) in
  effects r = []
  /\ length form = length entries
  /\ (forall i e, entries !! i = Some e ->
        exists item, form !! i = Some item
          /\ id item = entry_id e /\ name item = entry_name e
          /\ status item = pending /\ comment item = []
          /\ description item <> []
          /\ (forall d, entry_description e = Some d -> d <> [] ->
                description item = d))
  /\ stat form pending = length entries
  /\ (entries <> [] ->
      forall now w' st',
        run w' (handleSubmit (state r) now) st'
        = rejected_with incomplete_toast st').
Proof.
  intros Hr Hs Hi r form.
  destruct (fetchItems_outcomes w st) as (_ & _ & H).
  fold r in H. rewrite Hr, Hs, Hi in H. destruct H as [HI HE].
  fold form in HI.
  split; [exact HE|]. split; [rewrite HI; apply length_map|]. split; [|split].
  - intros i e Hie. exists (project e). rewrite HI, project_lookup, Hie.
    split; [reflexivity|]. repeat split; cbn [description project];
      apply description_or_default_filled.
  - rewrite stat_count, HI. unfold count_status.
    rewrite (List.forallb_filter_id _ (List.map project entries)).
    + apply length_map.
    + apply forallb_forall. intros x Hx.
      apply in_map_iff in Hx as (y & <- & _). reflexivity.
  - intros Hne now w' st'. apply handleSubmit_rejected.
    unfold verdict. fold form. rewrite HI.
    destruct entries as [|e entries]; [congruence|]. reflexivity.
Qed.

(** [fetchItems] always ends normally with [isLoading] false, makes exactly
    one request, never touches the general comment, the identity or
    [isSubmitting], and shows a toast exactly when the request or the
    reading of its body threw. *)
Theorem fetchItems_contained
  (w : World State CatalogRequest (Fetched CatalogBody)) (st : State) :
  let r := run w fetchItems st in
  let form := meanwhile w GetAllItems st in
  result r = Some tt
  /\ requests r = [GetAllItems]
  /\ isLoading (state r) = false
  /\ generalComment (state r) = generalComment form
  /\ studentEmail (state r) = studentEmail form
  /\ isSubmitting (state r) = isSubmitting form
  /\ toasts r =
     match respond w GetAllItems with
     | Resolved _ (Some _) => []
     | _ => [connection_toast]
     end.
Proof.
  cbv zeta. unfold fetchItems.
  cbn [bind update run try_catch finally await json_of].
  destruct (respond w GetAllItems) as [|code [data|]];
    cbn [bind update emit run try_catch finally json_of];
    try (repeat split; reflexivity).
  destruct (cat_success data), (cat_items data);
    cbn [bind update emit run try_catch finally]; repeat split; reflexivity.
Qed.

(** *** What is rendered *)

(** The red border of a comment field and the check at submission do not
    agree on blank comments: a field is marked required exactly for bad and
    flagged items, every field shown in error is rejected at submission,
    but an item whose comment is white space only is rejected without its
    field being shown in error. *)
Theorem highlight_and_validation (item : InspectionItem) :
  (comment_required item = true <-> status item = bad \/ status item = flagged)
  /\ (comment_error item = true -> needs_comment item = true)
  /\ (needs_comment item = true /\ comment_error item = false
      <-> (status item = bad \/ status item = flagged)
          /\ comment item <> [] /\ blank (comment item)).
Proof.
  unfold comment_required, comment_error.
  rewrite needs_comment_offending. unfold offending.
  destruct item as [i n d s c]. cbn [status comment].
  split; [|split].
  - destruct s; cbn; intuition congruence.
  - destruct s; cbn; try discriminate; intros H; apply falsy_nil in H;
      subst c; (split; [auto|constructor]).
  - destruct s, c as [|x c]; cbn; split; intros H; try tauto;
      try (destruct H as [[[H|H] _] _]; discriminate H);
      try (destruct H as [[H|H] _]; discriminate H);
      try (destruct H as [_ H]; discriminate H);
      try (destruct H as [_ [H _]]; congruence);
      try (destruct H as (A & _ & B); split; [split; [exact A|exact B]|reflexivity]);
      try (destruct H as [[A B] _]; split; [exact A|split; [discriminate|exact B]]).
Qed.

Lemma count_status_zero (k : Status) (l : list InspectionItem) :
  count_status k l = 0 <-> Forall (fun item => status item <> k) l.
Proof.
  split; [|apply count_status_none].
  induction l as [|x l IH]; [constructor|].
  rewrite count_status_cons. destruct (status_eqb (status x) k) eqn:E.
  - discriminate.
  - intros H. constructor; [|apply IH; exact H].
    intros Hk. apply status_eqb_eq in Hk. congruence.
Qed.

(** The four numbers of the statistics card add up to the number of items,
    and a key is missing from the [stats] object exactly when no item has
    that status. *)
Theorem statistics_add_up (l : list InspectionItem) :
  stat l good + stat l bad + stat l flagged + stat l pending = length l
  /\ (forall k, stats l !! k = None
                <-> Forall (fun item => status item <> k) l).
Proof.
  split.
  - rewrite !stat_count. apply count_status_total.
  - intros k. rewrite stats_lookup, <- count_status_zero.
    destruct (count_status k l); cbn; split; congruence.
Qed.

Section Extremes.
Local Open Scope Z_scope.

(** The two ends of the progress bar: a form with nothing marked shows 0;
    100 is shown only when at most one item in 200 is pending, and 0 only
    when at most one item in 200 is marked; so below 200 items 100 means
    that nothing is pending and 0 that nothing is marked. *)
Theorem percentage_extremes (l : list InspectionItem) :
  l <> [] -> Z.of_nat (length l) < 2 ^ 32 ->
  let total := Z.of_nat (length l) in
  let waiting := Z.of_nat (count_status pending l) in
  let shown := as_integer (progress_percentage l) in
  (waiting = total -> shown = Some 0)
  /\ (shown = Some 100 -> 200 * waiting <= total)
  /\ (shown = Some 0 -> 200 * (total - waiting) <= total)
  /\ (total < 200 -> (shown = Some 100 <-> waiting = 0))
  /\ (total < 200 -> (shown = Some 0 <-> waiting = total)).
Proof.
  intros Hne Hlt total waiting shown.
  assert (Hpos : 0 < total).
  { subst total. destruct l; [congruence|]. cbn [length]. lia. }
  assert (Hw : 0 <= waiting <= total).
  { subst waiting total. pose proof (count_status_le pending l). lia. }
  destruct (percent_nearest (total - waiting) total) as (p & Hp & Hr & Hn);
    [lia|lia|].
  assert (S : shown = Some p).
  { subst shown. rewrite progress_percentage_counts. exact Hp. }
  unfold nearest_percent in Hn. rewrite S.
  repeat split.
  - intros E. f_equal. nia.
  - intros [= ->]. lia.
  - intros [= ->]. lia.
  - intros [= ->]. lia.
  - intros E. f_equal. nia.
  - intros [= ->]. lia.
  - intros E. f_equal. nia.
Qed.

End Extremes.


(** *** Instances *)

Definition sample_edits : list FormEvent :=
  [ StatusClicked (lit "2") bad; CommentTyped (lit "2") (lit "broken leg");
    GeneralCommentTyped (lit "Checked."); MarkAllGoodClicked ].

Lemma fallback_catalog_baseline :
  Forall (fun item => status item = pending /\ comment item = [])
    fallback_catalog.
Proof. repeat constructor. Defined.

Lemma edits_keep_catalog_witness :
  Forall (fun item => status item = pending /\ comment item = [])
    (items (sample_form fallback_catalog))
  /\ (let st' := form_steps (sample_form fallback_catalog) sample_edits in
      labels (items st') = labels fallback_catalog
      /\ length (items st') = 5
      /\ items (form_step st' ClearClicked) = fallback_catalog)
  /\ labels (items (form_steps (sample_form example_items) sample_edits))
     = labels example_items.
Proof.
  split; [exact fallback_catalog_baseline|].
  destruct (edits_keep_catalog (sample_form fallback_catalog) sample_edits)
    as (A & B & C).
  split.
  - split; [exact A|]. split; [exact B|]. exact (C fallback_catalog_baseline).
  - exact (proj1 (edits_keep_catalog (sample_form example_items)
                    sample_edits)).
Defined.

Lemma handleSubmit_contained_witness :
  (passes (sample_form example_items)
   /\ let r := run accepting
                 (handleSubmit (sample_form example_items) sample_clock)
                 (sample_form example_items) in
      requests r
      = [SubmitReport (payload_of (sample_form example_items) sample_clock)]
      /\ isSubmitting (state r) = false)
  /\ (~ passes (sample_form unfinished_items)
      /\ let r := run accepting
                    (handleSubmit (sample_form unfinished_items) sample_clock)
                    (sample_form unfinished_items) in
         requests r = [] /\ state r = sample_form unfinished_items).
Proof.
  assert (N : ~ passes (sample_form unfinished_items)).
  { intros (H & _). inversion H as [|x l Hx _]. apply Hx. reflexivity. }
  split; (split; [first [exact example_passes | exact N]|]).
  - exact (proj1 (proj2 (proj2 (handleSubmit_contained
             (sample_form example_items) sample_clock accepting
             (sample_form example_items)))) example_passes).
  - exact (proj2 (proj2 (proj2 (handleSubmit_contained
             (sample_form unfinished_items) sample_clock accepting
             (sample_form unfinished_items)))) N).
Defined.

Lemma submitted_payload_witness :
  passes (sample_form example_items)
  /\ exists p,
       requests (run accepting
                   (handleSubmit (sample_form example_items) sample_clock)
                   (sample_form example_items)) = [SubmitReport p]
       /\ evaluatedItems p = example_items
       /\ payloadComment p = lit "All checked."
       /\ totalItems (summary p) = 5 /\ goodItems (summary p) = 3
       /\ badItems (summary p) = 1 /\ flaggedItems (summary p) = 1.
Proof.
  split; [exact example_passes|].
  destruct (submitted_payload (sample_form example_items) sample_clock
              accepting (sample_form example_items) example_passes)
    as (p & R & I & _ & _ & _ & _ & G & T & C1 & C2 & C3 & _).
  exists p. split; [exact R|]. split; [exact I|].
  split; [apply G; discriminate|].
  rewrite T, C1, C2, C3. repeat split.
Defined.

Lemma mark_all_good_then_submit_witness :
  studentEmail (sample_form unfinished_items) <> []
  /\ let marked := form_step (sample_form unfinished_items) MarkAllGoodClicked in
     passes marked
     /\ exists p,
          requests (run accepting (handleSubmit marked sample_clock) marked)
          = [SubmitReport p]
          /\ goodItems (summary p) = 2.
Proof.
  assert (E : studentEmail (sample_form unfinished_items) <> [])
    by discriminate.
  split; [exact E|].
  destruct (mark_all_good_then_submit (sample_form unfinished_items)
              sample_clock accepting E) as (_ & _ & P & p & R & G & _).
  split; [exact P|]. exists p. split; [exact R|exact G].
Defined.

Lemma empty_form_is_submitted_witness :
  items (sample_form []) = [] /\ studentEmail (sample_form []) <> []
  /\ exists p,
       requests (run accepting (handleSubmit (sample_form []) sample_clock)
                   (sample_form [])) = [SubmitReport p]
       /\ evaluatedItems p = [] /\ totalItems (summary p) = 0.
Proof.
  assert (E : studentEmail (sample_form []) <> []) by discriminate.
  split; [reflexivity|]. split; [exact E|].
  destruct (empty_form_is_submitted (sample_form []) sample_clock accepting
              (sample_form []) eq_refl E) as (p & R & I & T & _).
  exists p. split; [exact R|]. split; [exact I|exact T].
Defined.

(** A catalog of two entries, the second without description, served with
    the status 500. *)
Definition sample_entries : list CatalogEntry :=
  [ {| entry_id := lit "7"; entry_name := lit "Whiteboard";
       entry_description := Some (lit "Surface and markers") |};
    {| entry_id := lit "9"; entry_name := lit "Door";
       entry_description := None |} ].

Definition sample_catalog : CatalogBody :=
  {| cat_success := true; cat_items := Some sample_entries |}.

Definition serving : World State CatalogRequest (Fetched CatalogBody) :=
  quiet (fun _ => Resolved 500 (Some sample_catalog)).

Lemma catalog_loaded_witness :
  respond serving GetAllItems = Resolved 500 (Some sample_catalog)
  /\ cat_success sample_catalog = true
  /\ cat_items sample_catalog = Some sample_entries
  /\ let r := run serving fetchItems initial in
     effects r = [] /\ length (items (state r)) = 2
     /\ stat (items (state r)) pending = 2
     /\ run accepting (handleSubmit (state r) sample_clock) (state r)
        = rejected_with incomplete_toast (state r).
Proof.
  split; [reflexivity|]. split; [reflexivity|]. split; [reflexivity|].
  destruct (catalog_loaded serving initial 500 sample_catalog sample_entries
              eq_refl eq_refl eq_refl) as (E & L & _ & S & R).
  split; [exact E|]. split; [exact L|]. split; [exact S|].
  apply R. discriminate.
Defined.

(** A bad item whose comment is two spaces. *)
Definition blank_commented : InspectionItem :=
  with_comment (lit "  ")
    (with_status bad (fallback_item "2" "Furniture Condition" "")).

Lemma highlight_and_validation_witness :
  ((status blank_commented = bad \/ status blank_commented = flagged)
   /\ comment blank_commented <> [] /\ blank (comment blank_commented))
  /\ needs_comment blank_commented = true
  /\ comment_error blank_commented = false
  /\ comment_required blank_commented = true.
Proof.
  assert (H : (status blank_commented = bad \/ status blank_commented = flagged)
              /\ comment blank_commented <> []
              /\ blank (comment blank_commented)).
  { split; [left; reflexivity|]. split; [discriminate|].
    apply trim_falsy_blank. reflexivity. }
  split; [exact H|].
  destruct (highlight_and_validation blank_commented) as (R & _ & B).
  destruct (proj2 B H) as [N E].
  split; [exact N|]. split; [exact E|].
  apply R. left. reflexivity.
Defined.

Lemma percentage_extremes_witness :
  example_items <> [] /\ (Z.of_nat (length example_items) < 2 ^ 32)%Z
  /\ (as_integer (progress_percentage example_items) = Some 100%Z
      <-> Z.of_nat (count_status pending example_items) = 0%Z)
  /\ as_integer (progress_percentage fallback_catalog) = Some 0%Z.
Proof.
  assert (A : example_items <> []) by discriminate.
  assert (B : (Z.of_nat (length example_items) < 2 ^ 32)%Z)
    by (vm_compute; reflexivity).
  assert (C : fallback_catalog <> []) by discriminate.
  assert (D : (Z.of_nat (length fallback_catalog) < 2 ^ 32)%Z)
    by (vm_compute; reflexivity).
  split; [exact A|]. split; [exact B|]. split.
  - apply (proj1 (proj2 (proj2 (proj2 (percentage_extremes example_items A B))))).
    vm_compute. reflexivity.
  - apply (proj1 (percentage_extremes fallback_catalog C D)).
    vm_compute. reflexivity.
Defined.


End SubmitMore.

(** ** [String.prototype.trim] *)

Module TrimProps.
Import Js JsProps.

Lemma blank_app (a b : jsstring) : blank a -> blank b -> blank (a ++ b).
Proof. unfold blank. intros. apply Forall_app; auto. Qed.

Lemma blank_rev (a : jsstring) : blank a -> blank (rev a).
Proof. unfold blank. apply Forall_rev. Qed.

Lemma trim_start_blank_app (a s : jsstring) :
  blank a -> trim_start (a ++ s) = trim_start s.
Proof.
  induction 1 as [|c a Hc _ IH]; [reflexivity|].
  cbn [app trim_start]. rewrite Hc. exact IH.
Qed.

Lemma trim_start_app_blank (s b : jsstring) :
  blank b ->
  trim_start (s ++ b) =
  match trim_start s with [] => [] | _ :: _ => trim_start s ++ b end.
Proof.
  intros Hb. induction s as [|c s IH].
  - cbn. apply trim_start_blank. exact Hb.
  - cbn [app trim_start]. destruct (is_white_space c); [exact IH|reflexivity].
Qed.

Lemma trim_end_app_blank (s b : jsstring) :
  blank b -> trim_end (s ++ b) = trim_end s.
Proof.
  intros Hb. unfold trim_end. rewrite rev_app_distr.
  rewrite trim_start_blank_app by (apply blank_rev; exact Hb). reflexivity.
Qed.

(** White space around a string does not change what [trim] returns. *)
Lemma trim_surrounded (a s b : jsstring) :
  blank a -> blank b -> trim (a ++ s ++ b) = trim s.
Proof.
  intros Ha Hb. unfold trim.
  rewrite trim_start_blank_app by exact Ha.
  rewrite trim_start_app_blank by exact Hb.
  destruct (trim_start s) as [|c t] eqn:E; [reflexivity|].
  apply trim_end_app_blank. exact Hb.
Qed.

Lemma trim_start_split (s : jsstring) :
  exists a, s = a ++ trim_start s /\ blank a
    /\ (forall c t, trim_start s = c :: t -> is_white_space c = false).
Proof.
  induction s as [|c s (a & E & Ha & Hh)].
  - exists []. repeat split; [constructor|discriminate].
  - cbn [trim_start]. destruct (is_white_space c) eqn:W.
    + exists (c :: a). split; [cbn; f_equal; exact E|].
      split; [constructor; assumption|exact Hh].
    + exists []. split; [reflexivity|]. split; [constructor|].
      intros c' t [= <- _]. exact W.
Qed.

Lemma trim_end_split (s : jsstring) :
  exists b, s = trim_end s ++ b /\ blank b
    /\ (forall t c, trim_end s = t ++ [c] -> is_white_space c = false).
Proof.
  destruct (trim_start_split (rev s)) as (a & E & Ha & Hh).
  exists (rev a). unfold trim_end. split; [|split].
  - rewrite <- rev_app_distr, <- E, rev_involutive. reflexivity.
  - apply blank_rev. exact Ha.
  - intros t c Ht. apply (f_equal (@rev N)) in Ht.
    rewrite rev_involutive, rev_app_distr in Ht. cbn in Ht.
    eapply Hh. exact Ht.
Qed.

(** [trim] cuts a blank prefix and a blank suffix, and what is left neither
    starts nor ends with white space. *)
Lemma trim_split (s : jsstring) :
  exists a b, s = a ++ trim s ++ b /\ blank a /\ blank b
    /\ (forall c t, trim s = c :: t -> is_white_space c = false)
    /\ (forall t c, trim s = t ++ [c] -> is_white_space c = false).
Proof.
  destruct (trim_start_split s) as (a & Ea & Ha & Hh).
  destruct (trim_end_split (trim_start s)) as (b & Eb & Hb & Hl).
  exists a, b. fold (trim s) in Eb, Hl.
  split; [rewrite <- Eb; exact Ea|]. split; [exact Ha|]. split; [exact Hb|].
  split; [|exact Hl].
  intros c t Ht. rewrite Ht in Eb. eapply Hh. exact Eb.
Qed.

Lemma trim_idempotent (s : jsstring) : trim (trim s) = trim s.
Proof.
  destruct (trim_split s) as (a & b & E & Ha & Hb & _).
  rewrite E at 2. symmetry. apply trim_surrounded; assumption.
Qed.

Example trim_split_sample :
  trim (lit "  roof leak ") = lit "roof leak"
  /\ trim (lit " ") = [] /\ trim (lit "a") = lit "a".
Proof. repeat split. Qed.

End TrimProps.

(** ** The [USVString] conversion *)

Module UsvProps.
Import Js JsProps TrimProps.

(** A string without unpaired surrogates: the conversion leaves it as it is. *)
Definition scalar (s : jsstring) : Prop := to_usv s = s.

Lemma white_plain (c : N) :
  is_white_space c = true ->
  is_high_surrogate c = false /\ is_low_surrogate c = false.
Proof.
  intros H. destruct c as [|p]; [discriminate H|].
  repeat (destruct p as [p|p|]; cbn in H; try discriminate H);
    split; reflexivity.
Qed.

Lemma to_usv_plain (c : N) (t : jsstring) :
  is_high_surrogate c = false -> is_low_surrogate c = false ->
  to_usv (c :: t) = c :: to_usv t.
Proof. intros H L. cbn [to_usv]. rewrite H, L. reflexivity. Qed.

Lemma to_usv_nil (s : jsstring) : to_usv s = [] <-> s = [].
Proof.
  split; [|intros ->; reflexivity].
  destruct s as [|c [|d u]]; [reflexivity| |]; cbn [to_usv];
    destruct (is_high_surrogate c); try destruct (is_low_surrogate d);
    try destruct (is_low_surrogate c); discriminate.
Qed.

(** The conversion replaces code units one by one. *)
Lemma to_usv_length (s : jsstring) : length (to_usv s) = length s.
Proof.
  assert (H : forall n (t : jsstring), length t <= n ->
                length (to_usv t) = length t).
  { induction n as [|n IH]; intros t Ht.
    - destruct t; [reflexivity|cbn in Ht; lia].
    - destruct t as [|c [|d u]]; [reflexivity| |].
      + cbn [to_usv]. destruct (is_high_surrogate c); [reflexivity|].
        destruct (is_low_surrogate c); reflexivity.
      + cbn [length] in Ht.
        assert (E1 : length (to_usv (d :: u)) = length (d :: u))
          by (apply IH; cbn [length]; lia).
        assert (E2 : length (to_usv u) = length u) by (apply IH; lia).
        cbn [to_usv] in *.
        destruct (is_high_surrogate c).
        * destruct (is_low_surrogate d); cbn [length] in *; lia.
        * destruct (is_low_surrogate c); cbn [length] in *; lia. }
  apply (H (length s)). lia.
Qed.

Lemma to_usv_blank (a : jsstring) : blank a -> to_usv a = a.
Proof.
  induction 1 as [|c a Hc _ IH]; [reflexivity|].
  destruct (white_plain c Hc) as [H L].
  rewrite to_usv_plain by assumption. f_equal. exact IH.
Qed.

Lemma to_usv_blank_app (a s : jsstring) :
  blank a -> to_usv (a ++ s) = a ++ to_usv s.
Proof.
  induction 1 as [|c a Hc _ IH]; [reflexivity|].
  destruct (white_plain c Hc) as [H L].
  cbn [app]. rewrite to_usv_plain by assumption. f_equal. exact IH.
Qed.

Lemma to_usv_app_blank (t b : jsstring) :
  blank b -> to_usv (t ++ b) = to_usv t ++ b.
Proof.
  intros Hb.
  assert (H : forall n (s : jsstring), length s <= n ->
                to_usv (s ++ b) = to_usv s ++ b).
  { induction n as [|n IH]; intros s Hs.
    - destruct s; [|cbn in Hs; lia]. cbn [app to_usv].
      apply to_usv_blank. exact Hb.
    - destruct s as [|c [|d u]].
      + cbn [app to_usv]. apply to_usv_blank. exact Hb.
      + cbn [app]. destruct b as [|w b'].
        * symmetry. apply app_nil_r.
        * pose proof (to_usv_blank _ Hb) as Eb.
          inversion Hb as [|? ? Hw Hb']; subst.
          destruct (white_plain w Hw) as [_ Lw].
          change (to_usv (c :: w :: b')) with
            (if is_high_surrogate c then
               if is_low_surrogate w then c :: w :: to_usv b'
               else 65533%N :: to_usv (w :: b')
             else if is_low_surrogate c then 65533%N :: to_usv (w :: b')
             else c :: to_usv (w :: b')).
          rewrite Lw, Eb. cbn [to_usv].
          destruct (is_high_surrogate c); [|destruct (is_low_surrogate c)];
            reflexivity.
      + cbn [length] in Hs.
        assert (E1 : to_usv ((d :: u) ++ b) = to_usv (d :: u) ++ b)
          by (apply IH; cbn [length]; lia).
        assert (E2 : to_usv (u ++ b) = to_usv u ++ b) by (apply IH; lia).
        cbn [app] in E1 |- *.
        change (to_usv (c :: d :: u ++ b)) with
          (if is_high_surrogate c then
             if is_low_surrogate d then c :: d :: to_usv (u ++ b)
             else 65533%N :: to_usv (d :: u ++ b)
           else if is_low_surrogate c then 65533%N :: to_usv (d :: u ++ b)
           else c :: to_usv (d :: u ++ b)).
        change (to_usv (c :: d :: u)) with
          (if is_high_surrogate c then
             if is_low_surrogate d then c :: d :: to_usv u
             else 65533%N :: to_usv (d :: u)
           else if is_low_surrogate c then 65533%N :: to_usv (d :: u)
           else c :: to_usv (d :: u)).
        rewrite E1, E2.
        destruct (is_high_surrogate c);
          [destruct (is_low_surrogate d)|destruct (is_low_surrogate c)];
          reflexivity. }
  apply (H (length t)). lia.
Qed.

(** Trimming a string without unpaired surrogates leaves none. *)
Lemma scalar_trim (s : jsstring) : scalar s -> scalar (trim s).
Proof.
  unfold scalar. intros H.
  destruct (trim_split s) as (a & b & E & Ha & Hb & _).
  assert (H' : to_usv (a ++ trim s ++ b) = a ++ trim s ++ b)
    by (rewrite <- E; exact H).
  rewrite to_usv_blank_app, to_usv_app_blank in H' by assumption.
  apply app_inv_head in H'. apply app_inv_tail in H'. exact H'.
Qed.

Lemma scalar_lit_sample :
  scalar (lit "student@npc.rw") /\ scalar (lit "roof leak")
  /\ to_usv (lit "a" ++ [55357%N] ++ lit "b") = lit "a" ++ [65533%N] ++ lit "b"
  /\ scalar (lit "a" ++ [55357; 56832]%N ++ lit "b").
Proof. repeat split. Qed.

End UsvProps.

(** ** Sums and differences of integers as numbers *)

Module SumProps.
Import Js DoubleProps.
Local Open Scope Z_scope.










Example sums_sample :
  as_integer (add (of_Z 2) (of_Z 1)) = Some 3
  /\ as_integer (sub (of_Z 2) (of_Z 1)) = Some 1
  /\ as_integer (add (of_Z (2 ^ 53)) (of_Z 1)) = Some (2 ^ 53).
Proof. repeat split; vm_compute; reflexivity. Qed.

End SumProps.



(** ** The report list view: requests, pages, identity *)

Module ReportMore.
Import Js Async Async.Notations ReportPage ReportView JsProps TrimProps
  UsvProps SumProps ReportProps.

(** *** The query of a listing request *)

(** The query is built from the trimmed search text, each value as
    [URLSearchParams] holds it (an unpaired surrogate replaced by U+FFFD):
    [filter] is left out exactly for "all", [search] exactly for a text
    that is empty or white space only; a search that is sent is the trimmed
    text converted, non-empty and as long as the trimmed text; for a text
    without unpaired surrogates it is the text typed without a blank prefix
    and a blank suffix, and neither starts nor ends with white space; white
    space typed around a text does not change the request. The limit is
    always 10. *)
Theorem query_is_normalised (email : jsstring) (filter : FilterType)
  (search : jsstring) (page : Z) :
  let q := params email filter search page in
  q_studentEmail q = to_usv email /\ q_page q = page /\ q_limit q = lit "10"
  /\ (scalar email -> q_studentEmail q = email)
  /\ (q_filter q = None <-> filter = all)
  /\ (forall f, q_filter q = Some f -> f = filter)
  /\ (q_search q = None <-> blank search)
  /\ (forall t, q_search q = Some t ->
        t = to_usv (trim search) /\ t <> []
        /\ length t = length (trim search)
        /\ (exists a b, search = a ++ trim search ++ b /\ blank a /\ blank b)
        /\ (scalar search ->
            t = trim search /\ trim t = t
            /\ (exists a b, search = a ++ t ++ b /\ blank a /\ blank b)
            /\ (forall c u, t = c :: u -> is_white_space c = false)
            /\ (forall u c, t = u ++ [c] -> is_white_space c = false)))
  /\ (forall a b, blank a -> blank b ->
        params email filter (a ++ search ++ b) page = q).
Proof.
  intros q. subst q. unfold params.
  cbn [q_studentEmail q_page q_limit q_filter q_search].
  assert (F : forall s, falsy s || falsy (trim s) = falsy (trim s)).
  { intros [|c s]; reflexivity. }
  rewrite F.
  split; [reflexivity|]. split; [reflexivity|]. split; [reflexivity|].
  split; [intros H; exact H|].
  split; [|split; [|split; [|split]]].
  - destruct filter; cbn; split; congruence.
  - destruct filter; cbn; congruence.
  - rewrite <- trim_falsy_blank. destruct (falsy (trim search)); split; congruence.
  - intros t. destruct (falsy (trim search)) eqn:E; [discriminate|].
    intros [= <-].
    destruct (trim_split search) as (a & b & Es & Ha & Hb & Hh & Hl).
    split; [reflexivity|].
    split; [intros H; apply (proj1 (to_usv_nil _)) in H; rewrite H in E; discriminate|].
    split; [apply to_usv_length|].
    split; [exists a, b; auto|].
    intros Hs. apply scalar_trim in Hs. unfold scalar in Hs. rewrite Hs.
    split; [reflexivity|]. split; [apply trim_idempotent|].
    split; [exists a, b; auto|]. split; assumption.
  - intros a b Ha Hb. rewrite F, trim_surrounded by assumption. reflexivity.
Qed.

(** *** [fetchReports] and [handlePageChange] *)

Lemma fetchReports_requests
  (w : World State ListRequest (Fetched ListBody))
  (email : jsstring) (filter : FilterType) (search : jsstring) (page : Z)
  (st : State) :
  requests (run w (fetchReports email filter search page) st) =
  if falsy email then [] else [params email filter search page].
Proof.
  destruct email as [|c email]; [reflexivity|].
  assert (He : c :: email <> []) by discriminate.
  destruct (fetchReports_outcomes w (c :: email) filter search page st He)
    as (H & _). exact H.
Qed.

Ltac settle :=
  repeat split; first [ reflexivity | congruence | (cbn; lia) ].

(** [fetchReports] always ends normally, whatever the answer; it makes at
    most one request and shows at most one toast; without an identity it
    requests nothing and leaves the state as it is; with one it ends with
    [loading] false; and it never writes the identity, the filter or the
    search text. *)
Theorem fetchReports_contained
  (w : World State ListRequest (Fetched ListBody))
  (email : jsstring) (filter : FilterType) (search : jsstring) (page : Z)
  (st : State) :
  let request := params email filter search page in
  let r := run w (fetchReports email filter search page) st in
  let form := if falsy email then st
              else meanwhile w request (setLoading true st) in
  result r = Some tt
  /\ length (requests r) <= 1 /\ length (toasts r) <= 1
  /\ (email = [] -> state r = st /\ requests r = [])
  /\ (email <> [] -> loading (state r) = false)
  /\ studentEmail (state r) = studentEmail form
  /\ activeFilter (state r) = activeFilter form
  /\ searchQuery (state r) = searchQuery form.
Proof.
  cbv zeta. unfold fetchReports, clear_list.
  destruct email as [|c0 email0].
  - cbn. repeat split; try lia. congruence.
  - cbn [falsy].
    cbn [bind update emit run try_catch finally await].
    destruct (respond w (params (c0 :: email0) filter search page))
      as [|status body];
      cbn [bind update emit run try_catch finally]; [settle|].
    destruct (status =? 404)%Z;
      cbn [bind update emit run try_catch finally]; [settle|].
    destruct (negb (ok (Resolved status body)));
      cbn [bind update emit run try_catch finally]; [settle|].
    destruct body as [b|];
      cbn [bind update emit run try_catch finally]; [|settle].
    destruct (list_success b), (list_data b) as [data|];
      cbn [bind update emit run try_catch finally]; try settle.
    destruct (length (default [] (data_reports data)) =? 0)%nat;
      cbn [bind update emit run try_catch finally]; settle.
Qed.

(** A 2xx answer with [success] and [data] replaces the list and the
    pagination by what the server sent, an absent list counting as empty
    and an absent pagination as the default one; nothing is shown. *)
Theorem fetchReports_success
  (w : World State ListRequest (Fetched ListBody))
  (email : jsstring) (filter : FilterType) (search : jsstring) (page : Z)
  (st : State) (status : Z) (body : ListBody) (data : ListData) :
  email <> [] ->
  (200 <= status <= 299)%Z ->
  list_success body = true -> list_data body = Some data ->
  respond w (params email filter search page) = Resolved status (Some body) ->
  let r := run w (fetchReports email filter search page) st in
  reports (state r) = default [] (data_reports data)
  /\ pagination (state r) = default default_pagination (data_pagination data)
  /\ toasts r = []
  /\ loading (state r) = false.
Proof.
  intros He Hs Hb Hd Hr r.
  destruct (fetchReports_outcomes w email filter search page st He)
    as (_ & Hl & H).
  fold r in H, Hl. rewrite Hr in H.
  assert (H404 : (status =? 404)%Z = false) by (apply Z.eqb_neq; lia).
  assert (Hok : ok (Resolved status (Some body)) = true).
  { unfold ok. apply andb_true_iff. split; apply Z.leb_le; lia. }
  rewrite H404, Hok, Hb, Hd in H. cbn [negb] in H.
  destruct H as (A & B & C). repeat split; assumption.
Qed.

Lemma page_change_guard_requests
  (w : World State ListRequest (Fetched ListBody))
  (snap : State) (newPage : Z) (st : State) :
  let r := run w (handlePageChange snap newPage) st in
  ((newPage < 1 \/ totalPages (pagination snap) < newPage)%Z ->
   r = {| result := Some tt; state := st; actions := [] |})
  /\ ((1 <= newPage <= totalPages (pagination snap))%Z ->
      studentEmail snap <> [] ->
      requests r = [params (studentEmail snap) (activeFilter snap)
                      (searchQuery snap) newPage]).
Proof.
  intros r. subst r. unfold handlePageChange. split.
  - intros H.
    replace ((1 <=? newPage)%Z && (newPage <=? totalPages (pagination snap))%Z)
      with false; [reflexivity|].
    symmetry. apply andb_false_iff. rewrite !Z.leb_gt. lia.
  - intros H He.
    replace ((1 <=? newPage)%Z && (newPage <=? totalPages (pagination snap))%Z)
      with true.
    + rewrite fetchReports_requests, (falsy_false _ He). reflexivity.
    + symmetry. apply andb_true_iff. rewrite !Z.leb_le. lia.
Qed.

(** [handlePageChange] ignores a page outside [1, totalPages]: nothing is
    requested, shown or changed. For a page inside, with an identity
    present, it requests that page with the filter and search text of the
    render. *)
Theorem page_change_guard
  (w : World State ListRequest (Fetched ListBody))
  (snap : State) (newPage : Z) (st : State) :
  let r := run w (handlePageChange snap newPage) st in
  ((newPage < 1 \/ totalPages (pagination snap) < newPage)%Z ->
   r = {| result := Some tt; state := st; actions := [] |})
  /\ ((1 <= newPage <= totalPages (pagination snap))%Z ->
      studentEmail snap <> [] ->
      requests r = [params (studentEmail snap) (activeFilter snap)
                      (searchQuery snap) newPage]).
Proof. apply page_change_guard_requests. Qed.




(** *** Requests over a whole session *)

Lemma params_surrounded (email : jsstring) (filter : FilterType)
  (search a b : jsstring) (page : Z) :
  blank a -> blank b ->
  params email filter (a ++ search ++ b) page = params email filter search page.
Proof.
  intros Ha Hb. unfold params.
  assert (F : forall s, falsy s || falsy (trim s) = falsy (trim s)).
  { intros [|c s]; reflexivity. }
  rewrite !F, trim_surrounded by assumption. reflexivity.
Qed.

(** What every listing request has. *)
Definition request_ok (q : ListRequest) : Prop :=
  q_studentEmail q <> [] /\ q_limit q = lit "10" /\ (1 <= q_page q)%Z
  /\ q_filter q <> Some all /\ q_search q <> Some [].

(** The identity of a request is one that was read from the storage, as
    [URLSearchParams] holds it. *)
Definition identity_read (es : list Event) (q : ListRequest) : Prop :=
  exists email,
    In (IdentityRead email) es /\ email <> []
    /\ q_studentEmail q = to_usv email.

Lemma identity_read_more (es : list Event) (e : Event) (q : ListRequest) :
  identity_read es q -> identity_read (es ++ [e]) q.
Proof.
  intros (email & H & Hne & E). exists email.
  split; [apply in_or_app; auto|]. split; assumption.
Qed.

Lemma params_ok (email : jsstring) (filter : FilterType) (search : jsstring)
  (page : Z) :
  email <> [] -> (1 <= page)%Z -> request_ok (params email filter search page).
Proof.
  intros He Hp. unfold request_ok, params.
  cbn [q_studentEmail q_limit q_page q_filter q_search].
  repeat split; try assumption.
  - intros H. apply (proj1 (to_usv_nil _)) in H. contradiction.
  - destruct filter; cbn; congruence.
  - destruct (falsy search); cbn [orb]; [congruence|].
    destruct (falsy (trim search)) eqn:E; [congruence|].
    intros [= H]. apply (proj1 (to_usv_nil _)) in H. rewrite H in E. discriminate.
Qed.

(** The requests of a session, each made under an identity that was read. *)
Definition session_ok (es : list Event) (s : Session) : Prop :=
  (studentEmail (view s) = []
   \/ In (IdentityRead (studentEmail (view s))) es)
  /\ (forall t, timer s = Some t ->
        timer_email t <> [] /\ In (IdentityRead (timer_email t)) es)
  /\ Forall (fun tq => request_ok (snd tq) /\ identity_read es (snd tq))
       (sent s).

Lemma session_ok_more (es : list Event) (e : Event) (s : Session) :
  session_ok es s -> session_ok (es ++ [e]) s.
Proof.
  intros (A & B & C). split; [|split].
  - destruct A as [A|A]; [left; exact A|right; apply in_or_app; auto].
  - intros t Ht. destruct (B t Ht) as [B1 B2].
    split; [exact B1|apply in_or_app; auto].
  - eapply Forall_impl; [exact C|]. cbv beta. intros tq [H1 H2].
    split; [exact H1|apply identity_read_more; exact H2].
Qed.

Lemma rerun_ok (es : list Event) (s : Session) (st : State) :
  session_ok es s ->
  (studentEmail st = [] \/ In (IdentityRead (studentEmail st)) es) ->
  session_ok es (rerun s st).
Proof.
  intros (_ & _ & C) A. split; [exact A|]. split; [|exact C].
  unfold rerun, fetch_effect. cbn [timer].
  destruct (studentEmail st) as [|c e] eqn:E; cbn [falsy]; [discriminate|].
  intros t [= <-]. cbn [timer_email]. split; [discriminate|].
  destruct A as [A|A]; [discriminate A|exact A].
Qed.

Lemma perform_ok (es : list Event) (s : Session) (at_ : nat)
  (email : jsstring) (filter : FilterType) (search : jsstring) (page : Z)
  (reply : Fetched ListBody) :
  session_ok es s -> (1 <= page)%Z ->
  (email = [] \/ In (IdentityRead email) es) ->
  let '(st, out) := perform s at_ (fetchReports email filter search page) reply in
  studentEmail st = studentEmail (view s)
  /\ Forall (fun tq => request_ok (snd tq) /\ identity_read es (snd tq)) out.
Proof.
  intros (_ & _ & C) Hp He. unfold perform.
  destruct (fetchReports_keeps_deps (fun _ => reply) email filter search page
              (view s)) as (K & _).
  split; [exact K|].
  apply Forall_app. split; [exact C|].
  rewrite fetchReports_requests.
  destruct email as [|c e]; cbn [falsy List.map]; constructor; [|constructor].
  cbn [snd]. split.
  - apply params_ok; [discriminate|exact Hp].
  - destruct He as [He|He]; [discriminate He|].
    exists (c :: e). split; [exact He|]. split; [discriminate|reflexivity].
Qed.

Lemma step_ok (es : list Event) (s : Session) (e : Event) :
  session_ok es s -> session_ok (es ++ [e]) (step s e).
Proof.
  intros H. pose proof (session_ok_more es e s H) as H'.
  destruct e as [email|f|q|newPage reply|ms reply]; cbn [step].
  - destruct (str_eqb email (studentEmail (view s))); [exact H'|].
    apply rerun_ok; [exact H'|]. right. cbn [studentEmail setStudentEmail].
    apply in_or_app. right. left. reflexivity.
  - destruct (filter_eqb f (activeFilter (view s))); [exact H'|].
    apply rerun_ok; [exact H'|]. apply H'.
  - destruct (str_eqb q (searchQuery (view s))); [exact H'|].
    apply rerun_ok; [exact H'|]. apply H'.
  - unfold handlePageChange.
    destruct ((1 <=? newPage)%Z && (newPage <=? totalPages (pagination (view s)))%Z)
      eqn:G.
    + apply andb_true_iff in G as [G _]. apply Z.leb_le in G.
      pose proof (perform_ok (es ++ [PageChange newPage reply]) s (clock s)
                    (studentEmail (view s)) (activeFilter (view s))
                    (searchQuery (view s)) newPage reply H' G (proj1 H')) as P.
      destruct (perform s (clock s) _ reply) as [st out]. destruct P as [P1 P2].
      split; [|split].
      * cbn [view]. rewrite P1. apply H'.
      * cbn [timer]. apply H'.
      * exact P2.
    + unfold perform. cbn [run state requests actions omap list_omap List.map].
      rewrite app_nil_r. destruct s; exact H'.
  - destruct (timer s) as [t|] eqn:T.
    + destruct (due t <=? clock s + ms).
      * destruct (proj1 (proj2 H') t T) as [T1 T2]. unfold fire.
        pose proof (perform_ok (es ++ [Elapse ms reply]) s (due t)
                      (timer_email t) (timer_filter t) (timer_search t) 1
                      reply H' ltac:(lia) (or_intror T2)) as P.
        destruct (perform s (due t) _ reply) as [st out]. destruct P as [P1 P2].
        split; [|split].
        -- cbn [view]. rewrite P1. apply H'.
        -- cbn [timer]. discriminate.
        -- exact P2.
      * destruct H' as (A & B & C). split; [exact A|]. split; [|exact C].
        cbn [timer]. rewrite <- T. exact B.
    + destruct H' as (A & B & C). split; [exact A|]. split; [|exact C].
      cbn [timer]. discriminate.
Qed.

Lemma steps_ok (es : list Event) : session_ok es (steps mounted es).
Proof.
  induction es as [|e es IH] using rev_ind.
  - split; [left; reflexivity|]. split; [discriminate|constructor].
  - rewrite steps_app. apply step_ok. exact IH.
Qed.

(** Whatever happens to the mounted page, every listing request that is
    ever made carries a non-empty identity, one that was read from the
    storage (as [URLSearchParams] holds it: the very identity read when
    that one has no unpaired surrogate), a limit of 10 and a page of at
    least 1, never the filter "all" and never an empty search; as long as
    no identity was read, nothing is requested. *)
Theorem requests_carry_identity (es : list Event) :
  let s := steps mounted es in
  Forall (fun tq =>
            request_ok (snd tq)
            /\ exists email,
                 In (IdentityRead email) es /\ email <> []
                 /\ q_studentEmail (snd tq) = to_usv email
                 /\ (scalar email ->
                     In (IdentityRead (q_studentEmail (snd tq))) es))
    (sent s)
  /\ ((forall email, In (IdentityRead email) es -> email = []) -> sent s = []).
Proof.
  intros s. destruct (steps_ok es) as (_ & _ & C). fold s in C.
  split.
  - eapply Forall_impl; [exact C|]. cbv beta.
    intros tq [H1 (email & Hin & Hne & E)]. split; [exact H1|].
    exists email. repeat split; try assumption.
    intros Hs. rewrite E, Hs. exact Hin.
  - intros Hno.
    destruct (sent s) as [|tq l]; [reflexivity|].
    apply Forall_cons in C as [[_ (email & Hin & Hne & _)] _].
    destruct Hne. apply Hno. exact Hin.
Qed.

(** White space typed after the search text starts the debounce again and,
    500 ms later, repeats the request the text before it made: the query
    is built from the trimmed text. *)
Theorem blank_typing_repeats_request (s : Session) (b : jsstring)
  (reply : Fetched ListBody) :
  studentEmail (view s) <> [] -> b <> [] -> blank b ->
  let q := searchQuery (view s) in
  let s' := steps s [SearchChange (q ++ b); Elapse 500 reply] in
  sent s' = sent s ++
    [(clock s + 500,
      params (studentEmail (view s)) (activeFilter (view s)) q 1)]
  /\ sent (steps s [SearchChange (q ++ b); Elapse 499 reply]) = sent s.
Proof.
  intros He Hb Hbl q s'.
  assert (Hq : q ++ b <> q).
  { intros E. rewrite <- (app_nil_r q) in E at 2.
    apply app_inv_head in E. contradiction. }
  pose proof (search_change_rerun s (q ++ b) Hq) as E1.
  set (t := {| due := clock s + 500; timer_email := studentEmail (view s);
               timer_filter := activeFilter (view s);
               timer_search := q ++ b |}).
  assert (T1 : timer (step s (SearchChange (q ++ b))) = Some t).
  { rewrite E1. unfold rerun, fetch_effect. cbn [timer view studentEmail
      setSearchQuery searchQuery activeFilter].
    rewrite (falsy_false _ He). unfold debounce.
    assert (Hn : q ++ b <> []) by (destruct q, b; try discriminate; congruence).
    rewrite (falsy_false _ Hn). reflexivity. }
  assert (P : params (studentEmail (view s)) (activeFilter (view s)) (q ++ b) 1
              = params (studentEmail (view s)) (activeFilter (view s)) q 1).
  { apply (params_surrounded _ _ q [] b); [constructor|exact Hbl]. }
  split.
  - destruct (elapse_pending _ t 500 reply T1 He) as (_ & _ & _ & _ & S).
    subst s'. unfold steps. cbn [fold_left]. rewrite S, E1.
    cbn [sent rerun clock due t timer_email timer_filter timer_search].
    rewrite Nat.leb_refl, P. reflexivity.
  - destruct (elapse_pending _ t 499 reply T1 He) as (_ & _ & _ & _ & S).
    unfold steps. cbn [fold_left]. rewrite S, E1.
    cbn [sent rerun clock due t]. 
    replace (clock s + 500 <=? clock s + 499) with false
      by (symmetry; apply Nat.leb_gt; lia).
    apply app_nil_r.
Qed.


(** *** Instances *)

(** "  roof leak " is sent as "roof leak"; a text with a lone high
    surrogate after "a" is sent with U+FFFD in its place. *)
Lemma query_is_normalised_witness :
  q_search (params sample_email weekly (lit "  roof leak ") 1)
  = Some (lit "roof leak")
  /\ scalar (lit "  roof leak ")
  /\ (exists a b, lit "  roof leak " = a ++ lit "roof leak" ++ b
                  /\ blank a /\ blank b)
  /\ q_filter (params sample_email weekly (lit "  roof leak ") 1) = Some weekly
  /\ q_search (params sample_email all (lit " a" ++ [55357%N] ++ lit " ") 1)
     = Some (lit "a" ++ [65533%N]).
Proof.
  assert (E : q_search (params sample_email weekly (lit "  roof leak ") 1)
              = Some (lit "roof leak")) by (vm_compute; reflexivity).
  assert (S : scalar (lit "  roof leak ")) by reflexivity.
  split; [exact E|]. split; [exact S|].
  destruct (query_is_normalised sample_email weekly (lit "  roof leak ") 1)
    as (_ & _ & _ & _ & _ & _ & _ & T & _).
  destruct (T _ E) as (_ & _ & _ & _ & U).
  destruct (U S) as (_ & _ & X & _).
  split; [exact X|]. split; [reflexivity|].
  vm_compute. reflexivity.
Defined.

Lemma fetchReports_contained_witness :
  sample_email <> []
  /\ loading (state (run (quiet (fun _ => refused))
                       (fetchReports sample_email all [] 1) initial)) = false
  /\ state (run (quiet (fun _ => refused)) (fetchReports [] all [] 1) initial)
     = initial.
Proof.
  split; [exact sample_email_present|]. split.
  - exact (proj1 (proj2 (proj2 (proj2 (proj2
             (fetchReports_contained (quiet (fun _ => refused)) sample_email
                all [] 1 initial))))) sample_email_present).
  - exact (proj1 (proj1 (proj2 (proj2 (proj2
             (fetchReports_contained (quiet (fun _ => refused)) [] all [] 1
                initial)))) eq_refl)).
Defined.

Definition second_page : PaginationInfo :=
  {| currentPage := 2; totalPages := 3; totalReports := 15; hasNext := true;
     hasPrev := true |}.

Definition second_page_body : ListBody :=
  {| list_success := true;
     list_data := Some {| data_reports := None;
                          data_pagination := Some second_page |} |}.

Lemma fetchReports_success_witness :
  sample_email <> [] /\ (200 <= 200 <= 299)%Z
  /\ let r := run (quiet (fun _ => Resolved 200 (Some second_page_body)))
                (fetchReports sample_email all [] 2) initial in
     reports (state r) = [] /\ pagination (state r) = second_page
     /\ toasts r = [].
Proof.
  assert (B : (200 <= 200 <= 299)%Z) by lia.
  split; [exact sample_email_present|]. split; [exact B|].
  destruct (fetchReports_success
              (quiet (fun _ => Resolved 200 (Some second_page_body)))
              sample_email all [] 2 initial 200 second_page_body
              {| data_reports := None; data_pagination := Some second_page |}
              sample_email_present B eq_refl eq_refl eq_refl)
    as (R & P & T & _).
  cbv zeta. split; [exact R|]. split; [exact P|exact T].
Defined.

Definition sample_report : Report :=
  {| ReportPage.id := lit "r1"; title := lit "Room 12";
     submissionDate := lit "2026-11-02T08:00:00.000Z"; csApproved := true;
     cpApproved := false; status := awaiting; class := lit "L5 SOD";
     generalComment := None; itemEvaluated := None |}.

(** The list showing the second of three pages. *)
Definition browsing : State :=
  setPagination second_page
    (setReports [sample_report]
       (setLoading false (setStudentEmail sample_email initial))).

Lemma page_change_guard_witness :
  (run (quiet (fun _ => not_found)) (handlePageChange browsing 4) browsing
   = {| result := Some tt; state := browsing; actions := [] |})
  /\ requests (run (quiet (fun _ => not_found)) (handlePageChange browsing 3)
                 browsing)
     = [params sample_email all [] 3].
Proof.
  destruct (page_change_guard (quiet (fun _ => not_found)) browsing 4 browsing)
    as (A & _).
  destruct (page_change_guard (quiet (fun _ => not_found)) browsing 3 browsing)
    as (_ & B).
  split.
  - apply A. right. cbn. lia.
  - apply B; [cbn; lia|discriminate].
Defined.



(** From 2^53 pages on the sum is no longer exact: on page 2^53 of
    2^53 + 2, "Next" requests the current page again. *)
Example next_beyond_exact_range :
  let far := setPagination
               {| currentPage := 2 ^ 53; totalPages := 2 ^ 53 + 2;
                  totalReports := 15; hasNext := true; hasPrev := true |}
               browsing in
  pagination_ok (pagination far)
  /\ exists click,
       next_clicked far = Some click
       /\ requests (run (quiet (fun _ => not_found)) click far)
          = [params sample_email all [] (2 ^ 53)].
Proof.
  split.
  - split; [|split]; cbn; [lia|split; [lia|reflexivity]..].
  - eexists. split; vm_compute; reflexivity.
Qed.


Lemma requests_carry_identity_witness :
  (forall email,
     In (IdentityRead email)
        [FilterChange weekly; SearchChange (lit "roof");
         Elapse 500 not_found; IdentityRead []] -> email = [])
  /\ sent (steps mounted
             [FilterChange weekly; SearchChange (lit "roof");
              Elapse 500 not_found; IdentityRead []]) = [].
Proof.
  assert (H : forall email,
            In (IdentityRead email)
               [FilterChange weekly; SearchChange (lit "roof");
                Elapse 500 not_found; IdentityRead []] -> email = []).
  { intros email [H|[H|[H|[H|[]]]]]; try discriminate H.
    injection H as <-. reflexivity. }
  split; [exact H|].
  exact (proj2 (requests_carry_identity _) H).
Defined.

Lemma blank_typing_repeats_request_witness :
  studentEmail (view searching) <> [] /\ lit " " <> [] /\ blank (lit " ")
  /\ sent (steps searching [SearchChange (lit "roof "); Elapse 500 not_found])
     = sent searching ++ [(1000, params sample_email all (lit "roof") 1)]
  /\ List.map snd (sent searching)
     = [params sample_email all [] 1; params sample_email all (lit "roof") 1].
Proof.
  assert (E : studentEmail (view searching) <> [])
    by (vm_compute; discriminate).
  assert (N : lit " " <> []) by discriminate.
  assert (B : blank (lit " ")) by (apply trim_falsy_blank; reflexivity).
  split; [exact E|]. split; [exact N|]. split; [exact B|]. split.
  - exact (proj1 (blank_typing_repeats_request searching (lit " ") not_found
                    E N B)).
  - vm_compute. reflexivity.
Defined.


End ReportMore.

(** ** The report list view: detail modal and download *)

Module ModalMore.
Import Js Async Async.Notations ReportModal JsProps.

Definition is_toast (e : Effect) : bool :=
  match e with
  | ToastError _ _ | ToastSuccess _ _ => true
  | _ => false
  end.

Definition toasts {Req A} (r : Run State Effect Req A) : list Effect :=
  List.filter is_toast (effects r).

(** The detail an answer makes the modal show, if any: the [data] of a 2xx
    answer with [success]. *)
Definition delivered (reply : Fetched DetailBody) : option ReportDetail :=
  match reply with
  | Resolved status (Some b) =>
      if negb (status =? 404)%Z && ok reply && detail_success b
      then detail_data b else None
  | _ => None
  end.

(** The toast an answer causes. *)
Definition complaint (reply : Fetched DetailBody) : list Effect :=
  match reply with
  | Rejected => [detail_error_toast]
  | Resolved status body =>
      if (status =? 404)%Z then [not_found_toast]
      else if negb (ok reply) then [detail_error_toast]
      else match body with
           | None => [detail_error_toast]
           | Some b =>
               match detail_success b, detail_data b with
               | true, Some _ => []
               | _, _ => [not_available_toast (detail_message b)]
               end
           end
  end.

Ltac run_all :=
  cbn [bind update emit run try_catch finally await after state result
       actions].

Lemma fetchReportDetails_run
  (w : World State DetailRequest (Fetched DetailBody)) (reportId : jsstring)
  (st : State) :
  let request := GetReportById reportId in
  let r := run w (fetchReportDetails reportId) st in
  let form := meanwhile w request (setLoadingReportDetails true st) in
  result r = Some tt
  /\ requests r = [request]
  /\ state r = setLoadingReportDetails false
                 (setReportDetails (delivered (respond w request)) form)
  /\ toasts r = complaint (respond w request).
Proof.
  cbv zeta. unfold fetchReportDetails, delivered, complaint. run_all.
  destruct (respond w (GetReportById reportId)) as [|status body]; run_all;
    [repeat split; reflexivity|].
  destruct (status =? 404)%Z; run_all; cbn [negb andb];
    [destruct body; repeat split; reflexivity|].
  destruct (ok (Resolved status body)) eqn:O; cbn [negb andb]; run_all;
    [|destruct body; repeat split; reflexivity].
  destruct body as [b|]; run_all; [|repeat split; reflexivity].
  destruct (detail_success b), (detail_data b) as [d|]; run_all;
    repeat split; reflexivity.
Qed.


(** The answer of a detail request is stored without looking at the modal:
    when the user closed the modal, or opened another report, while the
    request was in flight, the detail that arrives is stored all the same,
    next to whatever selection the modal has by then. *)
Theorem late_detail_is_stored
  (w : World State DetailRequest (Fetched DetailBody)) (reportId : jsstring)
  (st : State) (d : ReportDetail) :
  delivered (respond w (GetReportById reportId)) = Some d ->
  let r := run w (handleView reportId) st in
  let form := meanwhile w (GetReportById reportId)
                (setLoadingReportDetails true
                   (setIsModalOpen true
                      (setSelectedReportId (Some reportId) st))) in
  reportDetails (state r) = Some d
  /\ isModalOpen (state r) = isModalOpen form
  /\ selectedReportId (state r) = selectedReportId form
  /\ toasts r = [].
Proof.
  intros Hd r form. subst r. unfold handleView. run_all.
  destruct (fetchReportDetails_run w reportId
              (setIsModalOpen true (setSelectedReportId (Some reportId) st)))
    as (_ & _ & C & D).
  cbv zeta in C, D. rewrite C, D. fold form. rewrite Hd.
  repeat split.
  unfold delivered, complaint in *.
  destruct (respond w (GetReportById reportId)) as [|status [b|]];
    try discriminate.
  destruct (status =? 404)%Z; cbn [negb andb] in *; [discriminate|].
  destruct (ok _); cbn [negb andb] in *; [|discriminate].
  destruct (detail_success b), (detail_data b); try discriminate. reflexivity.
Qed.

(** *** The download *)

(** The bytes an answer hands over: those of a 2xx answer whose body could
    be read. *)
Definition payload (reply : Fetched (list N)) : option (list N) :=
  match reply with
  | Resolved status (Some blob) => if ok reply then Some blob else None
  | _ => None
  end.

Lemma handleDownload_run
  (w : World State DownloadRequest (Fetched (list N))) (reportId : jsstring)
  (st : State) :
  let request := GetDownload reportId in
  let r := run w (handleDownload reportId) st in
  let form := meanwhile w request (setDownloadingId (Some reportId) st) in
  result r = Some tt
  /\ requests r = [request]
  /\ state r = setDownloadingId None form
  /\ List.filter (fun e => negb (match e with ConsoleLog _ | ConsoleError _ => true
                                 | _ => false end)) (effects r)
     = match payload (respond w request) with
       | Some blob => [ObjectUrlCreated blob; AnchorClicked (file_name reportId);
                       ObjectUrlRevoked; download_started_toast]
       | None => [download_failed_toast]
       end.
Proof.
  cbv zeta. unfold handleDownload, payload. run_all.
  destruct (respond w (GetDownload reportId)) as [|status body]; run_all;
    [repeat split; reflexivity|].
  destruct (ok (Resolved status body)) eqn:O; cbn [negb]; run_all;
    [|destruct body; repeat split; reflexivity].
  destruct body as [b|]; run_all; repeat split; reflexivity.
Qed.


(** There is one busy mark for all rows: when a download ends, no row is
    marked busy any more, also when another download was started meanwhile
    and is still in flight. *)
Theorem download_mark_is_shared
  (w : World State DownloadRequest (Fetched (list N))) (reportId : jsstring)
  (st : State) (other : jsstring) :
  let started := setDownloadingId (Some reportId) st in
  let r := run w (handleDownload reportId) st in
  (download_busy started other = true <-> other = reportId)
  /\ downloadingId (state r) = None
  /\ download_busy (state r) other = false.
Proof.
  cbv zeta. destruct (handleDownload_run w reportId st) as (_ & _ & C & _).
  cbv zeta in C. rewrite C. split; [|split; reflexivity].
  unfold download_busy. cbn [downloadingId setDownloadingId].
  rewrite str_eqb_eq. split; congruence.
Qed.

(** *** The modal over a session *)

Definition closed (st : State) : Prop :=
  isModalOpen st = false /\ selectedReportId st = None
  /\ reportDetails st = None.

(** The modal cells and the document agree. *)
Definition screen_ok (s : Screen) : Prop :=
  escape_listener (document s) = isModalOpen (cells s)
  /\ (overflow (document s) = hidden <-> isModalOpen (cells s) = true)
  /\ loadingReportDetails (cells s) = false
  /\ downloadingId (cells s) = None
  /\ (isModalOpen (cells s) = false -> closed (cells s))
  /\ (isModalOpen (cells s) = true -> selectedReportId (cells s) <> None).

Lemma handle_view (s : Screen) reportId reply :
  handle s (ViewClicked reportId reply) =
  setLoadingReportDetails false
    (setReportDetails (delivered reply)
       (setLoadingReportDetails true
          (setIsModalOpen true
             (setSelectedReportId (Some reportId) (cells s))))).
Proof.
  cbn [handle]. unfold handleView. run_all.
  destruct (fetchReportDetails_run (quiet (fun _ => reply)) reportId
              (setIsModalOpen true
                 (setSelectedReportId (Some reportId) (cells s))))
    as (_ & _ & C & _).
  cbv zeta in C. exact C.
Qed.

Lemma handle_retry (s : Screen) reply :
  handle s (RetryClicked reply) =
  match selectedReportId (cells s) with
  | Some reportId =>
      if falsy reportId then cells s
      else setLoadingReportDetails false
             (setReportDetails (delivered reply)
                (setLoadingReportDetails true (cells s)))
  | None => cells s
  end.
Proof.
  cbn [handle]. unfold retry_clicked.
  destruct (selectedReportId (cells s)) as [reportId|]; [|reflexivity].
  destruct (falsy reportId); [reflexivity|].
  destruct (fetchReportDetails_run (quiet (fun _ => reply)) reportId (cells s))
    as (_ & _ & C & _).
  cbv zeta in C. exact C.
Qed.

Lemma handle_download (s : Screen) reportId reply :
  handle s (DownloadClicked reportId reply) =
  setDownloadingId None (setDownloadingId (Some reportId) (cells s)).
Proof.
  cbn [handle].
  destruct (handleDownload_run (quiet (fun _ => reply)) reportId (cells s))
    as (_ & _ & C & _).
  cbv zeta in C. exact C.
Qed.

Ltac screen :=
  unfold screen_ok, closed in *; cbn in *;
  intuition (try discriminate; try congruence).

Lemma screen_step_ok (s : Screen) (e : Event) : screen_ok s -> screen_ok (step s e).
Proof.
  intros H. unfold step.
  destruct e as [reportId reply| |on_overlay|key|reply|reportId reply].
  - rewrite handle_view. destruct s as [[dl [|] sel det ld] doc]; screen.
  - cbn [handle]. unfold handleCloseModal. run_all.
    destruct s as [[dl [|] sel det ld] doc]; screen.
  - cbn [handle]. unfold handleBackdropClick, handleCloseModal.
    destruct s as [[dl [|] sel det ld] doc], on_overlay; run_all; screen.
  - cbn [handle]. unfold handleEscape, handleCloseModal.
    destruct s as [[dl [|] sel det ld] [ov [|]]]; cbn [document cells
      escape_listener];
      destruct (str_eqb key (lit "Escape")); cbn [andb]; run_all; screen.
  - rewrite handle_retry.
    destruct s as [[dl [|] [reportId|] det ld] doc]; cbn [cells selectedReportId];
      try destruct (falsy reportId); screen.
  - rewrite handle_download. destruct s as [[dl [|] sel det ld] doc]; screen.
Qed.

Lemma mounted_ok : screen_ok mounted.
Proof.
  unfold screen_ok, closed, mounted. cbn.
  repeat split; auto; discriminate.
Qed.

Lemma screen_steps_ok (es : list Event) (s : Screen) :
  screen_ok s -> screen_ok (steps s es).
Proof.
  revert s. induction es as [|e es IH]; intros s H; [exact H|].
  unfold steps in *. cbn [fold_left]. apply IH, screen_step_ok, H.
Qed.

(** Whatever the user does and the server answers, as long as each request
    is answered before the next event, after each event: the page scroll is
    suspended ([overflow] hidden) exactly while the modal is open, the
    Escape listener is registered exactly then, no loading or busy flag is
    left up, a closed modal holds no selection and no detail, and an open
    one holds a selection and does not rest on the spinner; leaving the
    page restores the scroll. *)
Theorem modal_and_document_agree (es : list Event) :
  let s := steps mounted es in
  escape_listener (document s) = isModalOpen (cells s)
  /\ (overflow (document s) = hidden <-> isModalOpen (cells s) = true)
  /\ loadingReportDetails (cells s) = false
  /\ downloadingId (cells s) = None
  /\ (isModalOpen (cells s) = false ->
      selectedReportId (cells s) = None /\ reportDetails (cells s) = None
      /\ modal_body (cells s) = None)
  /\ (isModalOpen (cells s) = true ->
      (exists reportId, selectedReportId (cells s) = Some reportId)
      /\ modal_body (cells s) <> Some Spinner)
  /\ overflow (unmount s) = unset
  /\ escape_listener (unmount s) = false.
Proof.
  intros s.
  destruct (screen_steps_ok es mounted mounted_ok)
    as (L & O & Ld & Dl & Cl & Op).
  fold s in L, O, Ld, Dl, Cl, Op.
  split; [exact L|]. split; [exact O|]. split; [exact Ld|]. split; [exact Dl|].
  split; [|split; [|split; reflexivity]].
  - intros H. destruct (Cl H) as (_ & A & B). unfold modal_body. rewrite H.
    repeat split; assumption.
  - intros H. split.
    + destruct (selectedReportId (cells s)) as [i|] eqn:E; [eauto|].
      destruct (Op H). reflexivity.
    + unfold modal_body. rewrite H, Ld.
      destruct (reportDetails (cells s)); discriminate.
Qed.

(** A key closes the modal only if it is Escape and the modal is open: any
    other key, and any key while the modal is closed, changes nothing;
    Escape on the open modal closes it, drops the selection and the detail,
    removes the listener and releases the scroll. A click inside the modal
    that reaches the backdrop handler from a child changes nothing. *)
Theorem escape_closes_the_open_modal (es : list Event) (key : jsstring) :
  let s := steps mounted es in
  (key <> lit "Escape" -> step s (KeyDown key) = s)
  /\ (isModalOpen (cells s) = false -> step s (KeyDown key) = s)
  /\ (isModalOpen (cells s) = true ->
      let s' := step s (KeyDown (lit "Escape")) in
      closed (cells s') /\ modal_body (cells s') = None
      /\ document s' = {| overflow := unset; escape_listener := false |})
  /\ step s (BackdropClicked false) = s.
Proof.
  intros s. destruct (screen_steps_ok es mounted mounted_ok) as (L & _).
  fold s in L. destruct s as [[dl op sel det ld] [ov li]].
  cbn [cells document escape_listener isModalOpen] in *. subst li.
  split; [|split; [|split]].
  - intros Hk. apply str_eqb_neq in Hk. unfold step.
    cbn [handle cells document escape_listener].
    unfold handleEscape. rewrite Hk. cbn [andb]. run_all.
    destruct op; rewrite Bool.eqb_reflx; reflexivity.
  - intros ->. reflexivity.
  - intros ->. unfold step. cbn [handle cells document escape_listener].
    unfold handleEscape, handleCloseModal. rewrite str_eqb_refl. cbn [andb].
    run_all. unfold closed, modal_body. cbn. repeat split.
  - unfold step. cbn [handle cells document]. unfold handleBackdropClick.
    run_all. rewrite Bool.eqb_reflx. reflexivity.
Qed.

(** "Try Again" does what viewing the selected report again would do: on
    every screen the page can reach with the modal open on a report with a
    non-empty identifier, the two leave the same screen; with an empty
    identifier, or no selection, "Try Again" does nothing. *)
Theorem retry_repeats_the_view (es : list Event) (reply : Fetched DetailBody) :
  let s := steps mounted es in
  (forall reportId,
     isModalOpen (cells s) = true ->
     selectedReportId (cells s) = Some reportId -> reportId <> [] ->
     step s (RetryClicked reply) = step s (ViewClicked reportId reply)
     /\ reportDetails (cells (step s (RetryClicked reply))) = delivered reply)
  /\ (selectedReportId (cells s) = None \/ selectedReportId (cells s) = Some [] ->
      step s (RetryClicked reply) = s).
Proof.
  intros s. split.
  - intros reportId Ho Hs Hne. unfold step.
    rewrite handle_retry, handle_view, Hs, (falsy_false _ Hne).
    destruct s as [st doc]. cbn [cells document] in *.
    cbn [isModalOpen setLoadingReportDetails setReportDetails setIsModalOpen
         setSelectedReportId reportDetails].
    rewrite Ho. cbn [Bool.eqb]. split; [|reflexivity].
    f_equal. destruct st. cbn in *. subst. reflexivity.
  - intros H. unfold step. rewrite handle_retry.
    destruct s as [st doc]. cbn [cells document] in *.
    destruct H as [-> | ->]; cbn [falsy]; rewrite Bool.eqb_reflx; reflexivity.
Qed.


(** *** Instances *)

Definition sample_detail : ReportDetail :=
  {| id := lit "r1"; title := lit "Room 12"; class := lit "L5 SOD";
     createdAt := lit "2026-11-02T08:00:00.000Z"; generalComment := None;
     itemEvaluated := None; csApproved := true; cpApproved := false;
     status := ReportPage.awaiting |}.

Definition detail_reply : Fetched DetailBody :=
  Resolved 200 (Some {| detail_success := true;
                        detail_data := Some sample_detail;
                        detail_message := None |}).

(** The user closes the modal while the detail is on its way. *)
Definition closing_meanwhile : World State DetailRequest (Fetched DetailBody) :=
  {| respond := fun _ => detail_reply;
     meanwhile := fun _ st =>
       state (run (quiet (fun _ : DetailRequest => detail_reply))
                handleCloseModal st) |}.

Lemma late_detail_is_stored_witness :
  delivered (respond closing_meanwhile (GetReportById (lit "r1")))
  = Some sample_detail
  /\ let r := run closing_meanwhile (handleView (lit "r1")) initial in
     reportDetails (state r) = Some sample_detail
     /\ isModalOpen (state r) = false
     /\ selectedReportId (state r) = None.
Proof.
  split; [reflexivity|].
  destruct (late_detail_is_stored closing_meanwhile (lit "r1") initial
              sample_detail eq_refl) as (D & O & S & _).
  split; [exact D|]. split; [exact O|exact S].
Defined.



Definition viewing : list Event :=
  [ViewClicked (lit "r1") detail_reply; KeyDown (lit "Enter")].

Lemma modal_and_document_agree_witness :
  isModalOpen (cells (steps mounted viewing)) = true
  /\ overflow (document (steps mounted viewing)) = hidden
  /\ (exists reportId,
        selectedReportId (cells (steps mounted viewing)) = Some reportId)
  /\ isModalOpen (cells (steps mounted (viewing ++ [CloseClicked]))) = false
  /\ modal_body (cells (steps mounted (viewing ++ [CloseClicked]))) = None.
Proof.
  assert (O : isModalOpen (cells (steps mounted viewing)) = true)
    by reflexivity.
  assert (C : isModalOpen (cells (steps mounted (viewing ++ [CloseClicked])))
              = false) by reflexivity.
  destruct (modal_and_document_agree viewing) as (_ & H & _ & _ & _ & S & _).
  destruct (modal_and_document_agree (viewing ++ [CloseClicked]))
    as (_ & _ & _ & _ & K & _).
  split; [exact O|]. split; [apply H; exact O|].
  split; [exact (proj1 (S O))|]. split; [exact C|].
  exact (proj2 (proj2 (K C))).
Defined.

Lemma escape_closes_the_open_modal_witness :
  isModalOpen (cells (steps mounted viewing)) = true
  /\ lit "Enter" <> lit "Escape"
  /\ step (steps mounted viewing) (KeyDown (lit "Enter")) = steps mounted viewing
  /\ closed (cells (step (steps mounted viewing) (KeyDown (lit "Escape"))))
  /\ document (step (steps mounted viewing) (KeyDown (lit "Escape")))
     = {| overflow := unset; escape_listener := false |}.
Proof.
  assert (O : isModalOpen (cells (steps mounted viewing)) = true)
    by reflexivity.
  assert (N : lit "Enter" <> lit "Escape") by discriminate.
  split; [exact O|]. split; [exact N|]. split.
  - exact (proj1 (escape_closes_the_open_modal viewing (lit "Enter")) N).
  - destruct (escape_closes_the_open_modal viewing (lit "Enter"))
      as (_ & _ & H & _).
    destruct (H O) as (A & _ & B). split; [exact A|exact B].
Defined.

Lemma retry_repeats_the_view_witness :
  isModalOpen (cells (steps mounted viewing)) = true
  /\ selectedReportId (cells (steps mounted viewing)) = Some (lit "r1")
  /\ lit "r1" <> []
  /\ step (steps mounted viewing) (RetryClicked Rejected)
     = step (steps mounted viewing) (ViewClicked (lit "r1") Rejected)
  /\ reportDetails (cells (step (steps mounted viewing) (RetryClicked Rejected)))
     = None
  /\ step mounted (RetryClicked detail_reply) = mounted.
Proof.
  assert (O : isModalOpen (cells (steps mounted viewing)) = true)
    by reflexivity.
  assert (S : selectedReportId (cells (steps mounted viewing))
              = Some (lit "r1")) by reflexivity.
  assert (N : lit "r1" <> []) by discriminate.
  split; [exact O|]. split; [exact S|]. split; [exact N|].
  destruct (proj1 (retry_repeats_the_view viewing Rejected) (lit "r1") O S N)
    as (A & B).
  split; [exact A|]. split; [exact B|].
  apply (proj2 (retry_repeats_the_view [] detail_reply)). left. reflexivity.
Defined.


End ModalMore.
